(** * Post-processing and evaluation of river temperature / discharge predictions

    A shallow embedding of [code/postproc_utils.py]: the masked RMSE and the
    Nash-Sutcliffe efficiency over binary64 sequences with NaN as the missing
    value, the pandas tables the module reshapes, rescales, splits and joins,
    the [predict] / [calc_metrics] / [reach_specific_metrics] drivers with
    the files they write, and the script [code/predict.py] that runs
    [predict] on the test and the training period.

    Numbers are Rocq's primitive binary64 floats, so NaN, the infinities and
    rounding are those of the NumPy arrays the code works on. *)

From stdpp Require Import gmap strings list fin_maps sorting.
From Stdlib Require Import ZArith Floats Uint63 Ascii.

(** ** Python exceptions and results *)

Inductive exn :=
| ValueError (msg : string)
| KeyError (key : string)
| IndexError (msg : string)
| FileNotFoundError (path : string).

Inductive result (A : Type) :=
| Ok (a : A)
| Raise (e : exn).
Arguments Ok {A} a.
Arguments Raise {A} e.

#[global] Instance result_ret : MRet result := fun A a => Ok a.
#[global] Instance result_bind : MBind result := fun A B k m =>
  match m with
  | Ok a => k a
  | Raise e => Raise e
  end.

(** ** NumPy on one-dimensional arrays *)

Module np.

(** [np.isnan], elementwise. *)
Definition isnan (a : list float) : list bool := map PrimFloat.is_nan a.

(** [~a] on a boolean array. *)
Definition invert (a : list bool) : list bool := map negb a.

(** [np.sum] of a boolean array: the number of [True] entries, an integer. *)
Definition sum_bool (a : list bool) : nat :=
  sum_list_with (fun b : bool => if b then 1 else 0) a.

(** The conversion of an integer count to float64 that a true division by it
    performs. *)
Definition float64 (n : nat) : float :=
  PrimFloat.of_uint63 (Uint63.of_Z (Z.of_nat n)).

(** [np.sum] of a float array, accumulated from its first entry to its last.
    NumPy adds an array of eight or more entries in blocks (pairwise
    summation): its result may round differently, and a sum of finite
    numbers that overflows in both directions is NaN there and an infinity
    here. The model fixes this one order of the additions, and what is
    proved of sums below holds for every order: the formulas name the same
    sum as the code, and the facts used of it (a sum of zeros, the sign of a
    sum of non-negative numbers, a NaN among the entries) depend on no
    order. *)
Definition sum (a : list float) : float := fold_left PrimFloat.add a 0%float.

(** Broadcasting of an elementwise binary operation over two one-dimensional
    arrays: equal lengths pair up, an array of length one is stretched, and
    anything else is NumPy's shape error. *)
Definition broadcast2 {A B C} (f : A → B → C) (a : list A) (b : list B)
  : result (list C) :=
  if decide (length a = length b) then Ok (zip_with f a b)
  else match a, b with
       | [x], _ => Ok (map (f x) b)
       | _, [y] => Ok (map (fun x => f x y) a)
       | _, _ => Raise (ValueError "operands could not be broadcast together")
       end.

(** [a - b], elementwise. *)
Definition subtract (a b : list float) : result (list float) :=
  broadcast2 PrimFloat.sub a b.

(** [np.where(cond, c, a)] with a scalar [c]. *)
Definition where_ (cond : list bool) (c : float) (a : list float)
  : result (list float) :=
  broadcast2 (fun (b : bool) x => if b then c else x) cond a.

(** [a ** 2], elementwise: the square is one multiplication. *)
Definition square (a : list float) : list float :=
  map (fun x => (x * x)%float) a.

(** [np.nansum]: NaN entries are replaced by zero, then summed. *)
Definition nansum (a : list float) : float :=
  sum (map (fun x => if PrimFloat.is_nan x then 0%float else x) a).

(** [np.nanmean]: the NaN-free sum over the count of non-NaN entries
    (0/0 = NaN for an array with no number in it). *)
Definition nanmean (a : list float) : float :=
  (nansum a / float64 (sum_bool (invert (isnan a))))%float.

End np.

(** ** The metric functions *)

(** [rmse_masked(y_true, y_pred)], lines 64-83. *)
Definition rmse_masked (y_true y_pred : list float) : result float :=
  let num_y_true := np.sum_bool (np.invert (np.isnan y_true)) in
  diff ← np.subtract y_pred y_true;
  zero_or_error ← np.where_ (np.isnan y_true) 0%float diff;
  let sum_squared_errors := np.sum (np.square zero_or_error) in
  let rmse_loss :=
    PrimFloat.sqrt (sum_squared_errors / np.float64 num_y_true)%float in
  Ok rmse_loss.

(** [nse(y_true, y_pred)], lines 86-96. *)
Definition nse (y_true y_pred : list float) : result float :=
  let q_mean := np.nanmean y_true in
  diff ← np.subtract y_true y_pred;
  let numerator := np.nansum (np.square diff) in
  let denominator :=
    np.nansum (np.square (map (fun y => (y - q_mean)%float) y_true)) in
  Ok (1 - numerator / denominator)%float.

(** ** pandas tables *)

(** A cell holds an integer (a segment id, a date stamp) or a float64. *)
Inductive cell :=
| Int (z : Z)
| Float (x : float).

(** The missing value. *)
Definition NaN : cell := Float nan.

Definition float_of_Z (z : Z) : float :=
  match z with
  | Z0 => 0%float
  | Zpos _ => PrimFloat.of_uint63 (Uint63.of_Z z)
  | Zneg p => (- PrimFloat.of_uint63 (Uint63.of_Z (Zpos p)))%float
  end.

(** The float64 value arithmetic sees in a cell. *)
Definition cell_to_float (c : cell) : float :=
  match c with
  | Int z => float_of_Z z
  | Float x => x
  end.

Definition cell_isna (c : cell) : bool :=
  match c with
  | Int _ => false
  | Float x => PrimFloat.is_nan x
  end.

(** The order of index values: integers by value, floats by value with NaN
    last. *)
Definition float_cmp (x y : float) : comparison :=
  match PrimFloat.compare x y with
  | FEq => Eq
  | FLt => Lt
  | FGt => Gt
  | FNotComparable =>
      if PrimFloat.is_nan x then (if PrimFloat.is_nan y then Eq else Gt) else Lt
  end.

Definition cell_cmp (a b : cell) : comparison :=
  match a, b with
  | Int x, Int y => Z.compare x y
  | _, _ => float_cmp (cell_to_float a) (cell_to_float b)
  end.

(** An index label has one cell per index level; labels compare level by
    level. *)
Fixpoint label_cmp (a b : list cell) : comparison :=
  match a, b with
  | [], [] => Eq
  | [], _ :: _ => Lt
  | _ :: _, [] => Gt
  | x :: a', y :: b' =>
      match cell_cmp x y with
      | Eq => label_cmp a' b'
      | c => c
      end
  end.

Definition label_leb (a b : list cell) : bool :=
  match label_cmp a b with Gt => false | _ => true end.

Definition label_eqb (a b : list cell) : bool :=
  match label_cmp a b with Eq => true | _ => false end.

(** A row: its index label and its cells, one per column. *)
Record Row := mkRow { labels : list cell; cells : list cell }.

(** A DataFrame. [index_names = []] is the default RangeIndex, whose labels
    are the row positions and are not stored. *)
Record DataFrame := mkDF {
  index_names : list string;
  columns : list string;
  rows : list Row
}.

Fixpoint index_of (name : string) (l : list string) : option nat :=
  match l with
  | [] => None
  | x :: l' => if decide (x = name) then Some 0 else S <$> index_of name l'
  end.

Definition cell_at (j : nat) (r : Row) : cell := default NaN (cells r !! j).

(** [df[name]]: one column, as a Series of cells. *)
Definition getitem (name : string) (df : DataFrame) : result (list cell) :=
  match index_of name (columns df) with
  | None => Raise (KeyError name)
  | Some j => Ok (map (cell_at j) (rows df))
  end.

(** A column read as float64 values. *)
Definition values (s : list cell) : list float := map cell_to_float s.

(** [Series.count()]: the number of entries that are not missing. *)
Definition count (s : list cell) : nat :=
  length (filter (fun c => cell_isna c = false) s).

(** [df[[name1; ...]]]: the listed columns, in that order, same index. *)
Fixpoint positions (names cols : list string) : result (list nat) :=
  match names with
  | [] => Ok []
  | n :: ns =>
      match index_of n cols with
      | None => Raise (KeyError n)
      | Some j => js ← positions ns cols; Ok (j :: js)
      end
  end.

Definition getitems (names : list string) (df : DataFrame) : result DataFrame :=
  js ← positions names (columns df);
  Ok (mkDF (index_names df) names
        (map (fun r => mkRow (labels r) (map (fun j => cell_at j r) js)) (rows df))).

(** [df.columns = names]. *)
Definition set_columns (names : list string) (df : DataFrame) : result DataFrame :=
  if decide (length names = length (columns df))
  then Ok (mkDF (index_names df) names (rows df))
  else Raise (ValueError "Length mismatch: Expected axis has a different number of elements").

(** [df.set_index(names)]: the named columns leave the columns and become
    the index levels, in the order given; the old index is dropped. *)
Fixpoint move_to_index (names : list string) (df : DataFrame) : result DataFrame :=
  match names with
  | [] => Ok df
  | n :: ns =>
      match index_of n (columns df) with
      | None => Raise (KeyError n)
      | Some j =>
          move_to_index ns
            (mkDF (index_names df ++ [n]) (delete j (columns df))
               (map (fun r => mkRow (labels r ++ [cell_at j r]) (delete j (cells r)))
                  (rows df)))
      end
  end.

Definition set_index (names : list string) (df : DataFrame) : result DataFrame :=
  move_to_index names
    (mkDF [] (columns df) (map (fun r => mkRow [] (cells r)) (rows df))).

(** [df.sort_index()]: rows in ascending order of their labels. A
    RangeIndex is sorted already. Rows of equal label keep their former
    order here; pandas' default sort does not promise that, so the
    properties below fix the order of the labels only and give the rows of
    one label up to their order. *)
Fixpoint insert_sorted (r : Row) (l : list Row) : list Row :=
  match l with
  | [] => [r]
  | r' :: l' =>
      if label_leb (labels r) (labels r') then r :: l
      else r' :: insert_sorted r l'
  end.

Fixpoint sort_rows (l : list Row) : list Row :=
  match l with
  | [] => []
  | r :: l' => insert_sorted r (sort_rows l')
  end.

Definition sort_index (df : DataFrame) : DataFrame :=
  match index_names df with
  | [] => df
  | _ => mkDF (index_names df) (columns df) (sort_rows (rows df))
  end.

(** [df.index]: the labels, row by row (positions for a RangeIndex). *)
Definition index (df : DataFrame) : list (list cell) :=
  match index_names df with
  | [] => imap (fun i _ => [Int (Z.of_nat i)]) (rows df)
  | _ => map labels (rows df)
  end.

(** [Index.unique()]: each label once, in order of first appearance. *)
Fixpoint unique (l : list (list cell)) : list (list cell) :=
  match l with
  | [] => []
  | x :: l' => x :: List.filter (fun y => negb (label_eqb x y)) (unique l')
  end.

(** The right end of the label slice [:h] in a sorted index: the position of
    the first label above [h]. *)
Fixpoint searchsorted_right (h : list cell) (l : list (list cell)) : nat :=
  match l with
  | [] => 0
  | x :: l' => if label_leb x h then S (searchsorted_right h l') else 0
  end.

(** [df.loc[:h]] on a table sorted by its index: the rows up to and
    including the last one labelled [h]. The result is a new table. *)
Definition loc_upto (h : list cell) (df : DataFrame) : DataFrame :=
  mkDF (index_names df) (columns df)
    (take (searchsorted_right h (index df)) (rows df)).

(** [df.reset_index()]: the index levels become the first columns and the
    RangeIndex is restored. *)
Definition reset_index (df : DataFrame) : result DataFrame :=
  match index_names df with
  | [] =>
      if decide ("index" ∈ columns df)
      then Raise (ValueError "cannot insert index, already exists")
      else Ok (mkDF [] ("index" :: columns df)
                 (imap (fun i r => mkRow [] (Int (Z.of_nat i) :: cells r)) (rows df)))
  | names =>
      match List.find (fun n => bool_decide (n ∈ columns df)) names with
      | Some n => Raise (ValueError ("cannot insert " +:+ n +:+ ", already exists"))
      | None => Ok (mkDF [] (names ++ columns df)
                      (map (fun r => mkRow [] (labels r ++ cells r)) (rows df)))
      end
  end.

(** [df[name] = s]: an existing column is overwritten in place, a new one
    is appended. *)
Definition setitem (name : string) (s : list cell) (df : DataFrame) : result DataFrame :=
  if decide (length s = length (rows df)) then
    match index_of name (columns df) with
    | Some j =>
        Ok (mkDF (index_names df) (columns df)
              (zip_with (fun r c => mkRow (labels r) (<[j:=c]> (cells r))) (rows df) s))
    | None =>
        Ok (mkDF (index_names df) (columns df ++ [name])
              (zip_with (fun r c => mkRow (labels r) (cells r ++ [c])) (rows df) s))
    end
  else Raise (ValueError "Length of values does not match length of index").

(** [df[[name1; ...]] = src], where [src] has one column per name and the
    index of [df]. *)
Fixpoint setitems_from (k : nat) (names : list string) (src df : DataFrame)
  : result DataFrame :=
  match names with
  | [] => Ok df
  | n :: ns =>
      df' ← setitem n (map (cell_at k) (rows src)) df;
      setitems_from (S k) ns src df'
  end.

Definition setitems (names : list string) (src df : DataFrame) : result DataFrame :=
  if decide (length (columns src) = length names)
  then setitems_from 0 names src df
  else Raise (ValueError "Columns must be same length as key").

(** An n-dimensional NumPy array: its shape and its entries in row-major
    order. *)
Record ndarray := mkArray { shape : list nat; data : list cell }.

(** A one-dimensional float64 array. *)
Definition array1 (l : list float) : ndarray := mkArray [length l] (map Float l).

(** [a.shape[k]]. *)
Definition shape_at (k : nat) (a : ndarray) : result nat :=
  match shape a !! k with
  | Some n => Ok n
  | None => Raise (IndexError "tuple index out of range")
  end.

(** [np.reshape(a, [n, m])]. *)
Definition reshape2 (a : ndarray) (n m : nat) : result ndarray :=
  if decide (n * m = length (data a)) then Ok (mkArray [n; m] (data a))
  else Raise (ValueError "cannot reshape array").

(** The rows of a two-dimensional array. *)
Fixpoint chunks (n m : nat) (l : list cell) : list (list cell) :=
  match n with
  | 0 => []
  | S n' => take m l :: chunks n' m (drop m l)
  end.

(** [pd.DataFrame(a, columns=names)] for a two-dimensional array. *)
Definition DataFrame_of_array (a : ndarray) (names : list string) : result DataFrame :=
  match shape a with
  | [n; m] =>
      if decide (m = length names)
      then Ok (mkDF [] names (map (mkRow []) (chunks n m (data a))))
      else Raise (ValueError "Shape of passed values does not match the columns")
  | _ => Raise (ValueError "Must pass 2-d input")
  end.

(** [pd.concat(dfs, axis=1)] of tables on a RangeIndex: the columns side by
    side, the shorter tables padded with missing values. *)
Definition concat_axis1 (dfs : list DataFrame) : DataFrame :=
  let n := max_list (map (fun df => length (rows df)) dfs) in
  mkDF [] (concat (map columns dfs))
    (map (fun i =>
            mkRow [] (concat (map (fun df =>
                                     match rows df !! i with
                                     | Some r => cells r
                                     | None => replicate (length (columns df)) NaN
                                     end) dfs)))
       (seq 0 n)).

(** [df * a] and [df + a] for a one-dimensional array with one entry per
    column. *)
Definition frame_op (f : float → float → float) (df : DataFrame) (a : ndarray)
  : result DataFrame :=
  if decide (shape a = [length (columns df)]) then
    Ok (mkDF (index_names df) (columns df)
          (map (fun r =>
                  mkRow (labels r)
                    (zip_with (fun c x => Float (f (cell_to_float c) (cell_to_float x)))
                       (cells r) (data a)))
             (rows df)))
  else Raise (ValueError "Unable to coerce to Series, length must match the columns").

(** [left.join(right)]: the left join on the index. Every row of [left] is
    kept, once per row of [right] with an equal label, or once with missing
    values when there is none. The rows are listed in the order of [left];
    pandas lists them sorted by label instead when a label occurs twice, so
    the properties below give the rows of a joined table up to their
    order. *)
Definition join_row (right : DataFrame) (l : Row) : list Row :=
  match List.filter (fun r => label_eqb (labels l) (labels r)) (rows right) with
  | [] => [mkRow (labels l) (cells l ++ replicate (length (columns right)) NaN)]
  | ms => map (fun r => mkRow (labels l) (cells l ++ cells r)) ms
  end.

Definition join (left right : DataFrame) : result DataFrame :=
  if decide (index_names left = index_names right) then
    match List.find (fun n => bool_decide (n ∈ columns right)) (columns left) with
    | Some n => Raise (ValueError "columns overlap but no suffix specified")
    | None =>
        Ok (mkDF (index_names left) (columns left ++ columns right)
              (flat_map (join_row right) (rows left)))
    end
  else Raise (ValueError "cannot join with no overlapping index names").

(** ** The state of a run: table objects and files *)

(** JSON values, as [json.dump] writes them. *)
Inductive json :=
| JNumber (x : float)
| JString (s : string).

Inductive file :=
| Feather (df : DataFrame)
| Csv (df : DataFrame)
| JsonFile (obj : list (string * json)).

(** Tables live in a heap of objects, so that a function that changes the
    table it was given changes it for its caller too. *)
Record World := mkWorld {
  heap : gmap nat DataFrame;
  files : gmap string file
}.

Definition prog (A : Type) : Type := World → result A * World.

#[global] Instance prog_ret : MRet prog := fun A a w => (Ok a, w).
#[global] Instance prog_bind : MBind prog := fun A B k m w =>
  match m w with
  | (Ok a, w') => k a w'
  | (Raise e, w') => (Raise e, w')
  end.

Definition raise {A} (e : exn) : prog A := fun w => (Raise e, w).

Definition lift {A} (r : result A) : prog A := fun w => (r, w).

(** A new table object. *)
Definition alloc (df : DataFrame) : prog nat := fun w =>
  let l := fresh (dom (heap w)) in
  (Ok l, mkWorld (<[l:=df]> (heap w)) (files w)).

Definition deref (l : nat) : prog DataFrame := fun w =>
  match heap w !! l with
  | Some df => (Ok df, w)
  | None => (Raise (KeyError "no such object"), w)
  end.

(** An in-place update of the object [l]. *)
Definition assign (l : nat) (df : DataFrame) : prog unit := fun w =>
  (Ok (), mkWorld (<[l:=df]> (heap w)) (files w)).

(** [l.method(..., inplace=True)]. *)
Definition inplace (l : nat) (f : DataFrame → result DataFrame) : prog unit :=
  df ← deref l;
  df' ← lift (f df);
  assign l df'.

Definition write_file (path : string) (f : file) : prog unit := fun w =>
  (Ok (), mkWorld (heap w) (<[path:=f]> (files w))).

Definition read_file (path : string) : prog file := fun w =>
  match files w !! path with
  | Some f => (Ok f, w)
  | None => (Raise (FileNotFoundError path), w)
  end.

(** [df.to_feather(path)]: the format stores no index but the default one. *)
Definition to_feather (df : DataFrame) (path : string) : prog unit :=
  match index_names df with
  | [] => write_file path (Feather df)
  | _ => raise (ValueError "feather does not support serializing a non-default index")
  end.

(** [pd.read_feather(path)]. *)
Definition read_feather (path : string) : prog DataFrame :=
  f ← read_file path;
  match f with
  | Feather df => mret df
  | _ => raise (ValueError "Not a Feather file")
  end.

(** [pd.read_csv(path, parse_dates=..., index_col=names)]: the file holds
    the parsed table, its cells integers or floats. Tables carry no dtype:
    a file with a header and no rows, whose columns pandas reads as
    objects (on which [np.isnan] raises TypeError), is not told apart, so
    what is proved below of a run of [calc_metrics] that returns asks for
    observation files with at least one row. *)
Definition read_csv (path : string) (index_col : list string) : prog DataFrame :=
  f ← read_file path;
  match f with
  | Csv df =>
      match set_index index_col df with
      | Ok df' => mret df'
      | Raise _ => raise (ValueError "Index column invalid")
      end
  | _ => raise (ValueError "Error tokenizing data")
  end.

(** ** The functions of postproc_utils.py *)

Definition dquote : string := String (ascii_of_nat 34) EmptyString.

(** The message of the tag check of [predict]. *)
Definition tag_error_msg : string :=
  "tag arg needs to be " +:+ dquote +:+ "trn" +:+ dquote +:+ " or " +:+
  dquote +:+ "tst" +:+ dquote.

(** [post_process(y_pred, dates, ids)], lines 6-24. *)
Definition post_process (y_pred dates ids : ndarray) : prog nat :=
  y_pred ← lift (s0 ← shape_at 0 y_pred; s1 ← shape_at 1 y_pred;
                 s2 ← shape_at 2 y_pred; reshape2 y_pred (s0 * s1) s2);
  dates ← lift (s0 ← shape_at 0 dates; s1 ← shape_at 1 dates;
                s2 ← shape_at 2 dates; reshape2 dates (s0 * s1) s2);
  ids ← lift (s0 ← shape_at 0 ids; s1 ← shape_at 1 ids;
              s2 ← shape_at 2 ids; reshape2 ids (s0 * s1) s2);
  df_preds ← lift (DataFrame_of_array y_pred ["temp_c"; "discharge_cms"]);
  df_dates ← lift (DataFrame_of_array dates ["date"]);
  df_ids ← lift (DataFrame_of_array ids ["seg_id_nat"]);
  alloc (concat_axis1 [df_dates; df_ids; df_preds]).

(** [take_first_half(df)], lines 27-41. *)
Definition take_first_half (df : nat) : prog nat :=
  inplace df (set_index ["date"]);;
  inplace df (fun d => Ok (sort_index d));;
  d ← deref df;
  let unique_dates := unique (index d) in
  halfway_date ←
    match unique_dates !! (length unique_dates / 2) with
    | Some h => mret h
    | None => raise (IndexError "index out of bounds")
    end;
  df_first_half ← alloc (loc_upto halfway_date d);
  inplace df_first_half reset_index;;
  mret df_first_half.

(** [calc_reach_specific_metrics(df)], lines 176-182. The result is the
    Series with the entries rmse and nse. *)
Definition calc_reach_specific_metrics (df : DataFrame) : result (list (string * float)) :=
  obs ← getitem "obs" df;
  if decide (10 < count obs) then
    pred ← getitem "pred" df;
    reach_rmse ← rmse_masked (values obs) (values pred);
    reach_nse ← nse (values obs) (values pred);
    Ok [("rmse", reach_rmse); ("nse", reach_nse)]
  else Ok [("rmse", nan); ("nse", nan)].

(** [fmt_preds_obs(pred_file, obs_file, variable)], lines 139-156. *)
Definition fmt_preds_obs (pred_file obs_file variable : string) : prog DataFrame :=
  pred_data ← read_feather pred_file;
  pred_data ← lift (set_index ["date"; "seg_id_nat"] pred_data);
  obs ← read_csv obs_file ["date"; "seg_id_nat"];
  obs ← lift (getitems [variable] obs);
  obs ← lift (set_columns ["obs"] obs);
  preds ← lift (getitems [variable] pred_data);
  preds ← lift (set_columns ["pred"] preds);
  combined ← lift (join preds obs);
  mret combined.

Section Program.

(** What the model leaves to its libraries: NumPy's exponential, Python's
    [str] of a float, and the trained network's [predict]. *)
Variable np_exp : float → float.
Variable py_str : float → string.
Variable trained_model_predict : ndarray → nat → ndarray.

(** [unscale_output(y_scl, y_std, y_mean, logged_q)], lines 44-61. *)
Definition unscale_output (y_scl : nat) (y_std y_mean : ndarray) (logged_q : bool)
  : prog nat :=
  let data_cols := ["temp_c"; "discharge_cms"] in
  d ← deref y_scl;
  yscl_data ← lift (getitems data_cols d);
  y_unscaled_data ← lift (scaled ← frame_op PrimFloat.mul yscl_data y_std;
                          frame_op PrimFloat.add scaled y_mean);
  inplace y_scl (setitems data_cols y_unscaled_data);;
  (if logged_q then
     d ← deref y_scl;
     q ← lift (getitem "discharge_cms" d);
     inplace y_scl (setitem "discharge_cms" (map (fun c => Float (np_exp (cell_to_float c))) q))
   else mret ());;
  mret y_scl.

(** [io_data[key]]. *)
Definition io_get (io_data : gmap string ndarray) (key : string) : prog ndarray :=
  match io_data !! key with
  | Some a => mret a
  | None => raise (KeyError key)
  end.

(** [predict(trained_model, io_data, half_tst, tag, outdir, run_tag, logged_q)],
    lines 99-136. *)
Definition predict (io_data : gmap string ndarray) (half_tst : bool)
    (tag outdir run_tag : string) (logged_q : bool) : prog unit :=
  (if decide (tag = "trn" ∨ tag = "tst") then mret ()
   else raise (ValueError tag_error_msg));;
  dist_matrix ← io_get io_data "dist_matrix";
  num_segs ← lift (shape_at 0 dist_matrix);
  x ← io_get io_data ("x_" +:+ tag);
  let y_pred := trained_model_predict x num_segs in
  dates ← io_get io_data ("dates_" +:+ tag);
  ids ← io_get io_data ("ids_" +:+ tag);
  y_pred_pp ← post_process y_pred dates ids;
  y_std ← io_get io_data "y_trn_obs_std";
  y_mean ← io_get io_data "y_trn_obs_mean";
  y_pred_pp ← unscale_output y_pred_pp y_std y_mean logged_q;
  y_pred_pp ← (if half_tst && bool_decide (tag = "tst")
               then take_first_half y_pred_pp else mret y_pred_pp);
  d ← deref y_pred_pp;
  to_feather d (outdir +:+ tag +:+ "_preds" +:+ run_tag +:+ ".feather").

(** [calc_metrics(pred_file, obs_file_temp, obs_file_flow, outdir, tag, run_tag)],
    lines 159-173. *)
Definition calc_metrics (pred_file obs_file_temp obs_file_flow outdir tag run_tag : string)
  : prog unit :=
  temp_data ← fmt_preds_obs pred_file obs_file_temp "temp_c";
  flow_data ← fmt_preds_obs pred_file obs_file_flow "discharge_cms";
  fmt ← lift (reset_index temp_data);
  to_feather fmt "fmt_temp.feather";;
  rmse_temp ← lift (obs ← getitem "obs" temp_data; pred ← getitem "pred" temp_data;
                    rmse_masked (values obs) (values pred));
  rmse_flow ← lift (obs ← getitem "obs" flow_data; pred ← getitem "pred" flow_data;
                    rmse_masked (values obs) (values pred));
  nse_temp ← lift (obs ← getitem "obs" temp_data; pred ← getitem "pred" temp_data;
                   nse (values obs) (values pred));
  nse_flow ← lift (obs ← getitem "obs" flow_data; pred ← getitem "pred" flow_data;
                   nse (values obs) (values pred));
  let metrics_data :=
    [("rmse_temp", JString (py_str rmse_temp)); ("rmse_flow", JString (py_str rmse_flow));
     ("nse_temp", JString (py_str nse_temp)); ("nse_flow", JString (py_str nse_flow))] in
  write_file (outdir +:+ tag +:+ "_metrics" +:+ run_tag +:+ ".json") (JsonFile metrics_data).

End Program.

(** ** Groups of rows, and the metrics by segment *)

(** [df.groupby(by)]: the value a row is grouped by, which is a column or
    an index level. *)
Definition group_key (by_ : string) (df : DataFrame) : result (Row → cell) :=
  match index_of by_ (columns df), index_of by_ (index_names df) with
  | Some j, None => Ok (cell_at j)
  | None, Some k => Ok (fun r => default NaN (labels r !! k))
  | Some _, Some _ =>
      Raise (ValueError (by_ +:+ " is both an index level and a column label"))
  | None, None => Raise (KeyError by_)
  end.

(** The keys of the groups: the values that are not missing, each once, in
    ascending order. *)
Fixpoint insert_key (c : cell) (l : list cell) : list cell :=
  match l with
  | [] => [c]
  | x :: l' =>
      match cell_cmp c x with
      | Lt => c :: l
      | Eq => l
      | Gt => x :: insert_key c l'
      end
  end.

Definition group_keys (values : list cell) : list cell :=
  foldr insert_key [] (List.filter (fun c => negb (cell_isna c)) values).

(** The rows of one group, in the order they have in the table. *)
Definition get_group (key : Row → cell) (k : cell) (df : DataFrame) : DataFrame :=
  mkDF (index_names df) (columns df)
    (List.filter (fun r => match cell_cmp (key r) k with Eq => true | _ => false end)
       (rows df)).

Section GroupBy.

(** What [apply] returns for a table without any group; this differs
    between versions of pandas. *)
Variable apply_without_groups : DataFrame → DataFrame.

(** [df.groupby(by).apply(func)] for a [func] that returns a Series with
    the same entries for every group: a table indexed by the group keys,
    with one column per entry. *)
Definition groupby_apply (by_ : string)
    (func : DataFrame → result (list (string * float))) (df : DataFrame)
  : result DataFrame :=
  key ← group_key by_ df;
  let keys := group_keys (map key (rows df)) in
  series ← mapM (fun k => func (get_group key k df)) keys;
  match series with
  | [] => Ok (apply_without_groups df)
  | s :: _ =>
      Ok (mkDF [by_] (map fst s)
            (zip_with (fun k s => mkRow [k] (map (fun e => Float e.2) s)) keys series))
  end.

(** [reach_specific_metrics(pred_file, obs_file_temp, obs_file_flow, outdir,
    tag, run_tag)], lines 185-192. *)
Definition reach_specific_metrics
    (pred_file obs_file_temp obs_file_flow outdir tag run_tag : string) : prog unit :=
  temp_data ← fmt_preds_obs pred_file obs_file_temp "temp_c";
  flow_data ← fmt_preds_obs pred_file obs_file_flow "discharge_cms";
  reach_metrics_temp ←
    lift (t ← groupby_apply "seg_id_nat" calc_reach_specific_metrics temp_data;
          reset_index t);
  reach_metrics_flow ←
    lift (t ← groupby_apply "seg_id_nat" calc_reach_specific_metrics flow_data;
          reset_index t);
  to_feather reach_metrics_temp
    (outdir +:+ tag +:+ "_temp_reach_metrics" +:+ run_tag +:+ ".feather");;
  to_feather reach_metrics_flow
    (outdir +:+ tag +:+ "_flow_reach_metrics" +:+ run_tag +:+ ".feather").

End GroupBy.

(** ** The script predict.py *)

(** [os.path.join(a, b)] on a POSIX system: a [b] that starts with a slash
    replaces [a]; otherwise [b] is appended, after a slash unless [a] is
    empty or ends with one. *)
Definition startswith_sep (s : string) : bool :=
  match s with
  | String c _ => bool_decide (c = ascii_of_nat 47)
  | EmptyString => false
  end.

Fixpoint endswith_sep (s : string) : bool :=
  match s with
  | EmptyString => false
  | String c EmptyString => bool_decide (c = ascii_of_nat 47)
  | String _ s' => endswith_sep s'
  end.

Definition os_path_join (a b : string) : string :=
  if startswith_sep b then b
  else if bool_decide (a = "") || endswith_sep a then a +:+ b
  else a +:+ "/" +:+ b.

Section Script.

Variable np_exp : float → float.

(** The network [RGCNModel(hidden_size, 2, A=...)] once [load_weights] has
    read the weights at a path: what its [predict] returns. *)
Variable RGCNModel : Z → nat → ndarray → string → ndarray → nat → ndarray.

(** The body of the script, lines 25-41, for the parsed arguments and the
    arrays [data] that [np.load] found in the input file. *)
Definition predict_script (hidden_size : Z) (data : gmap string ndarray)
    (outdir weights_dir : string) (halve logged_q : bool) (run_tag : string) : prog unit :=
  let run_tag := if decide (run_tag ≠ "") then "_" +:+ run_tag else run_tag in
  dist_matrix ← io_get data "dist_matrix";
  let model :=
    RGCNModel hidden_size 2 dist_matrix
      (os_path_join weights_dir ("/trained_weights" +:+ run_tag +:+ "/")) in
  predict np_exp model data halve "tst" outdir run_tag logged_q;;
  predict np_exp model data halve "trn" outdir run_tag logged_q.

End Script.

(** * The vocabulary of the specification *)

(** ** Binary64 classes *)

(** NaN, and the finite values (zeros included), on the specification side
    of the primitive floats. *)
Definition sf_is_nan (x : spec_float) : bool :=
  match x with S754_nan => true | _ => false end.

Definition sf_is_finite (x : spec_float) : bool :=
  match x with S754_zero _ | S754_finite _ _ _ => true | _ => false end.

(** An observation that is present or missing: a finite number or NaN. *)
Definition observed (o : float) : Prop :=
  PrimFloat.is_nan o = true ∨ PrimFloat.is_finite o = true.

(** ** The metrics as formulas *)

(** The number of observations that are present. *)
Definition spec_count (y_true : list float) : nat :=
  length (filter (fun o => PrimFloat.is_nan o = false) y_true).

(** What one position adds to the sum of squared errors. *)
Definition spec_squared_error (obs pred : float) : float :=
  if PrimFloat.is_nan obs then 0%float else ((pred - obs) * (pred - obs))%float.

(** sqrt(S / n). *)
Definition spec_rmse (y_true y_pred : list float) : float :=
  PrimFloat.sqrt
    (np.sum (zip_with spec_squared_error y_true y_pred) / np.float64 (spec_count y_true))%float.

(** The mean of the observations that are present. *)
Definition spec_mean (y_true : list float) : float :=
  (np.sum (map (fun o => if PrimFloat.is_nan o then 0 else o) y_true)
   / np.float64 (spec_count y_true))%float.

(** One position's share of the numerator and of the denominator. *)
Definition spec_residual (obs pred : float) : float :=
  if PrimFloat.is_nan obs then 0%float else ((obs - pred) * (obs - pred))%float.

(** ** Tables *)

(** Every row has one cell per column. *)
Definition rectangular (df : DataFrame) : Prop :=
  Forall (fun r => length (cells r) = length (columns df)) (rows df).

(** What [unscale_output] makes of a row: the two variables rescaled, the
    discharge exponentiated when [logged_q] is set. *)
Definition unscaled_row (np_exp : float → float) (jt jq : nat)
    (s_t s_q m_t m_q : float) (logged_q : bool) (r : Row) : Row :=
  let t := (cell_to_float (cell_at jt r) * s_t + m_t)%float in
  let q := (cell_to_float (cell_at jq r) * s_q + m_q)%float in
  mkRow (labels r)
    (<[jq := Float (if logged_q then np_exp q else q)]> (<[jt := Float t]> (cells r))).

(** The date a row is labelled with, for an index of date stamps. *)
Definition row_key (r : Row) : Z :=
  match labels r with
  | [Int d] => d
  | _ => 0
  end.

(** The row is labelled with one date stamp. *)
Definition date_labelled (r : Row) : Prop := labels r = [Int (row_key r)].

(** The order of rows by date. *)
Definition key_le (r1 r2 : Row) : Prop := (row_key r1 ≤ row_key r2)%Z.

(** The label of a date in an index of one level. *)
Definition date_label (d : Z) : list cell := [Int d].

(** A row once its date has become its index label. *)
Definition date_indexed (j : nat) (r : Row) : Row :=
  mkRow [cell_at j r] (delete j (cells r)).

(** The table [take_first_half] leaves behind in the object it was given:
    indexed by date and sorted. *)
Definition sorted_by_date (j : nat) (df : DataFrame) : DataFrame :=
  mkDF ["date"] (delete j (columns df)) (sort_rows (map (date_indexed j) (rows df))).

(** The date of a row of a table whose column [j] holds date stamps. *)
Definition date_of (j : nat) (r : Row) : Z :=
  match cell_at j r with
  | Int d => d
  | Float _ => 0
  end.

(** The key of a row of a table with its date in column [jd] and its
    segment in column [js]. *)
Definition key_of (jd js : nat) (r : Row) : list cell := [cell_at jd r; cell_at js r].

(** A table keyed by (date, seg_id_nat) and reduced to one variable. *)
Definition keyed (jd js jv : nat) (name : string) (df : DataFrame) : DataFrame :=
  mkDF ["date"; "seg_id_nat"] [name]
    (map (fun r => mkRow (key_of jd js r) [cell_at jv r]) (rows df)).

(** The columns of a joined table, as the metric functions read them. *)
Definition obs_values (df : DataFrame) : list float := values (map (cell_at 1) (rows df)).

Definition pred_values (df : DataFrame) : list float := values (map (cell_at 0) (rows df)).

(** A computation that does not end in the error of the tag check. *)
Definition no_tag_error {A} (r : result A) : Prop :=
  r ≠ Raise (ValueError tag_error_msg).

(** A program that does not end in it, whatever the state it starts in. *)
Definition runs_without_tag_error {A} (m : prog A) : Prop :=
  ∀ w, no_tag_error (m w).1.

(** ** Signs of binary64 values *)

(** Not below zero: NaN, a zero of positive sign, a positive number or
    plus infinity. *)
Definition sf_not_negative (x : spec_float) : bool :=
  match x with
  | S754_zero s | S754_infinity s | S754_finite s _ _ => negb s
  | S754_nan => true
  end.

Definition not_negative (x : float) : Prop := sf_not_negative (Prim2SF x) = true.

(** ** Tables of predictions *)

(** Row [k] of the table [post_process] builds from the flattened arrays. *)
Definition prediction_row (y_pred dates ids : ndarray) (k : nat) : Row :=
  mkRow [] [default NaN (data dates !! k); default NaN (data ids !! k);
            default NaN (data y_pred !! (2 * k)); default NaN (data y_pred !! (2 * k + 1))].

(** The table of [n] such rows. *)
Definition prediction_table (y_pred dates ids : ndarray) (n : nat) : DataFrame :=
  mkDF [] ["date"; "seg_id_nat"; "temp_c"; "discharge_cms"]
    (map (prediction_row y_pred dates ids) (seq 0 n)).

(** Row [k] of the file [predict] writes: the date and the segment as they
    are, the two predicted variables in physical units. *)
Definition unscaled_prediction_row (np_exp : float → float) (y_pred dates ids : ndarray)
    (s_t s_q m_t m_q : float) (logged_q : bool) (k : nat) : Row :=
  let y_t := cell_to_float (default NaN (data y_pred !! (2 * k))) in
  let y_q := cell_to_float (default NaN (data y_pred !! (2 * k + 1))) in
  let t := (y_t * s_t + m_t)%float in
  let q := (y_q * s_q + m_q)%float in
  mkRow [] [default NaN (data dates !! k); default NaN (data ids !! k);
            Float t; Float (if logged_q then np_exp q else q)].

(** The table of [n] such rows. *)
Definition unscaled_predictions (np_exp : float → float) (y_pred dates ids : ndarray)
    (s_t s_q m_t m_q : float) (logged_q : bool) (n : nat) : DataFrame :=
  mkDF [] ["date"; "seg_id_nat"; "temp_c"; "discharge_cms"]
    (map (unscaled_prediction_row np_exp y_pred dates ids s_t s_q m_t m_q logged_q) (seq 0 n)).

(** The output file of [predict]. *)
Definition preds_path (outdir tag run_tag : string) : string :=
  outdir +:+ tag +:+ "_preds" +:+ run_tag +:+ ".feather".

(** ** What a program leaves alone *)

(** The state [w] has the files of [w0], and every table of [w0] as it is
    in [w0]; it may have more tables. *)
Definition kept (w0 w : World) : Prop :=
  files w = files w0 ∧ ∀ l d, heap w0 !! l = Some d → heap w !! l = Some d.

(** The object [l] is no table of [w0]. *)
Definition own (w0 : World) (l : nat) : Prop := heap w0 !! l = None.

(** A program that keeps the files and tables of [w0] and whose result,
    when there is one, satisfies [Q]. *)
Definition preserves {A} (w0 : World) (m : prog A) (Q : A → Prop) : Prop :=
  ∀ w, kept w0 w → kept w0 (m w).2 ∧ ∀ a, (m w).1 = Ok a → Q a.

(** A program that keeps the tables of [w0] and, of the files, changes at
    most [path]: when it returns it has written a table there, when it
    raises the files are those of [w0]. *)
Definition writes_only {A} (w0 : World) (path : string) (m : prog A) : Prop :=
  ∀ w, kept w0 w →
    (∀ l d, heap w0 !! l = Some d → heap (m w).2 !! l = Some d) ∧
    match (m w).1 with
    | Ok _ => ∃ table, files (m w).2 = <[path := Feather table]> (files w0)
    | Raise _ => files (m w).2 = files w0
    end.

(** ** Segments *)

(** The row is keyed by the segment [z]. *)
Definition in_reach (z : Z) (r : Row) : bool :=
  match labels r !! 1 with
  | Some (Int z') => (z' =? z)%Z
  | _ => false
  end.

(** The rows of a joined table that belong to the segment [z]. *)
Definition reach_of (z : Z) (df : DataFrame) : DataFrame :=
  mkDF (index_names df) (columns df) (List.filter (in_reach z) (rows df)).

(** The row of the per-segment table for the segment [z]: its id, and the
    entries [calc_reach_specific_metrics] returns for its rows. *)
Definition reach_metrics_row (df : DataFrame) (z : Z) : Row :=
  mkRow []
    (Int z :: match calc_reach_specific_metrics (reach_of z df) with
              | Ok s => map (fun e => Float e.2) s
              | Raise _ => []
              end).

Definition reach_metrics_table (df : DataFrame) (segs : list Z) : DataFrame :=
  mkDF [] ["seg_id_nat"; "rmse"; "nse"] (map (reach_metrics_row df) segs).

(** The segment a prediction row belongs to. *)
Definition seg_of (j : nat) (r : Row) : Z :=
  match cell_at j r with
  | Int z => z
  | Float _ => 0
  end.

(** * Example data *)

(** A group of eleven paired rows, and the same group with one observation
    missing. *)
Definition reach_group (obs : list float) : DataFrame :=
  mkDF ["date"; "seg_id_nat"] ["pred"; "obs"]
    (imap (fun i o => mkRow [Int (Z.of_nat i); Int 7] [Float 1; Float o]) obs).

Definition obs11 : list float := [1; 2; 3; 1; 2; 3; 1; 2; 3; 1; 2]%float.

Definition obs10 : list float := [1; 2; 3; 1; 2; nan; 1; 2; 3; 1; 2]%float.

(** The example of the specification: mean = [10, 0], std = [2, 1], no
    logarithm, and a row holding 1 and 1. *)
Definition rescale_example : DataFrame :=
  mkDF [] ["date"; "seg_id_nat"; "temp_c"; "discharge_cms"]
    [mkRow [] [Int 1; Int 7; Float 1; Float 1]].

(** Three dates over two segments, out of order. *)
Definition six_rows : DataFrame :=
  mkDF [] ["date"; "seg_id_nat"; "temp_c"; "discharge_cms"]
    [mkRow [] [Int 3; Int 1; Float 1; Float 1]; mkRow [] [Int 1; Int 1; Float 1; Float 1];
     mkRow [] [Int 2; Int 1; Float 1; Float 1]; mkRow [] [Int 1; Int 2; Float 1; Float 1];
     mkRow [] [Int 2; Int 2; Float 1; Float 1]; mkRow [] [Int 3; Int 2; Float 1; Float 1]].

(** Files of a run: three predictions, and for each variable observations
    that miss the second day; the temperature file also has a fourth day
    that was not predicted. *)
Definition metrics_world : World :=
  mkWorld ∅
    (<["preds.feather" :=
         Feather (mkDF [] ["date"; "seg_id_nat"; "temp_c"; "discharge_cms"]
                    [mkRow [] [Int 1; Int 7; Float 12; Float 1];
                     mkRow [] [Int 2; Int 7; Float 14; Float 2];
                     mkRow [] [Int 3; Int 7; Float 16; Float 3]])]>
       (<["obs_temp.csv" :=
            Csv (mkDF [] ["date"; "seg_id_nat"; "temp_c"]
                   [mkRow [] [Int 1; Int 7; Float 11]; mkRow [] [Int 3; Int 7; Float 17];
                    mkRow [] [Int 4; Int 7; Float 9]])]>
          (<["obs_flow.csv" :=
               Csv (mkDF [] ["date"; "seg_id_nat"; "discharge_cms"]
                      [mkRow [] [Int 1; Int 7; Float 1];
                       mkRow [] [Int 3; Int 7; Float 3]])]> ∅))).

(** The arrays of a test period of three days over two segments, and a
    network that answers with fixed values. *)
Definition example_io_data : gmap string ndarray :=
  list_to_map
    [("dist_matrix", mkArray [2; 2] [Float 0; Float 1; Float 1; Float 0]);
     ("x_tst", mkArray [2; 3; 1] (replicate 6 (Float 0)));
     ("dates_tst", mkArray [2; 3; 1] [Int 1; Int 2; Int 3; Int 1; Int 2; Int 3]);
     ("ids_tst", mkArray [2; 3; 1] [Int 7; Int 7; Int 7; Int 8; Int 8; Int 8]);
     ("y_trn_obs_std", array1 [2; 1]%float);
     ("y_trn_obs_mean", array1 [10; 0]%float)].

Definition example_model (x : ndarray) (batch_size : nat) : ndarray :=
  mkArray [2; 3; 2] (map Float [1; 1; 2; 2; 3; 3; 4; 4; 5; 5; 6; 6]%float).

(** * Properties *)

(** ** The examples of the specification *)

Example rmse_masked_ex :
  rmse_masked [1; nan; 3]%float [2; 5; 3]%float = Ok (PrimFloat.sqrt (1 / 2))%float.
Proof. reflexivity. Qed.

Example nse_perfect_fit : nse [1; 2; 3]%float [1; 2; 3]%float = Ok 1%float.
Proof. reflexivity. Qed.

Example nse_mean_prediction : nse [1; 2; 3]%float [2; 2; 2]%float = Ok 0%float.
Proof. reflexivity. Qed.

(** ** Binary64 facts *)

(** What the proofs about [nse] need of IEEE arithmetic, from the
    specification of the primitive operations: which results are NaN, and
    that a count converts to a finite non-zero number. *)

Module Binary64.

Lemma iter_pos_invariant {A} (P : A → Prop) (f : A → A) (n : positive) (x : A) :
  (∀ y, P y → P (f y)) → P x → P (iter_pos f n x).
Proof.
  intros Hf. revert x. induction n as [n IH|n IH|]; intros x Hx; cbn [iter_pos]; auto.
Qed.

Lemma shr_1_nonneg (mrs : shr_record) : (0 ≤ shr_m mrs → 0 ≤ shr_m (shr_1 mrs))%Z.
Proof. destruct mrs as [[|[p|p|]|p] r s]; cbn; lia. Qed.

Lemma shr_fexp_nonneg (m e : Z) (l : location) :
  (0 ≤ m → 0 ≤ shr_m (shr_fexp prec emax m e l).1)%Z.
Proof.
  intros Hm. unfold shr_fexp, shr.
  assert (0 ≤ shr_m (shr_record_of_loc m l))%Z as H0.
  { by destruct l as [|[]]. }
  destruct (_ - _)%Z; cbn [fst]; try done.
  by apply (iter_pos_invariant (fun mrs => 0 ≤ shr_m mrs)%Z); [apply shr_1_nonneg|].
Qed.

Lemma round_nearest_even_nonneg (m : Z) (l : location) :
  (0 ≤ m → 0 ≤ round_nearest_even m l)%Z.
Proof. intros Hm. destruct l as [|[]]; cbn; try done; [destruct (Z.even m)|]; lia. Qed.

(** Rounding a non-negative mantissa never gives NaN. *)
Lemma binary_round_aux_not_nan (sx : bool) (mx ex : Z) (lx : location) :
  (0 ≤ mx)%Z → binary_round_aux prec emax sx mx ex lx ≠ S754_nan.
Proof.
  intros Hm. unfold binary_round_aux.
  pose proof (shr_fexp_nonneg mx ex lx Hm) as H1.
  destruct (shr_fexp prec emax mx ex lx) as [mrs' e'].
  cbn [fst] in H1.
  pose proof (shr_fexp_nonneg _ e' loc_Exact
                (round_nearest_even_nonneg _ (loc_of_shr_record mrs') H1)) as H2.
  destruct (shr_fexp prec emax _ e' loc_Exact) as [mrs'' e''].
  cbn [fst] in H2.
  destruct (shr_m mrs'') as [|m|m]; [done| |lia].
  by destruct (e'' <=? emax - prec)%Z.
Qed.

Lemma binary_normalize_not_nan (m e : Z) (s : bool) :
  binary_normalize prec emax m e s ≠ S754_nan.
Proof.
  unfold binary_normalize, binary_round.
  destruct m as [|p|p]; [done| |].
  - destruct (shl_align _ _ _). by apply binary_round_aux_not_nan.
  - destruct (shl_align _ _ _). by apply binary_round_aux_not_nan.
Qed.

Lemma SFcompare_refl (x : spec_float) :
  SFcompare x x = if sf_is_nan x then None else Some Eq.
Proof.
  destruct x as [s|s| |s m e]; cbn; try done; [by destruct s|].
  pose proof (Z.compare_refl e) as He. pose proof (Pos.compare_cont_refl m Eq) as Hm.
  rewrite He, Hm. by destruct s.
Qed.

Lemma is_nan_spec (x : float) : PrimFloat.is_nan x = sf_is_nan (Prim2SF x).
Proof.
  unfold PrimFloat.is_nan. rewrite FloatAxioms.eqb_spec. unfold SFeqb. rewrite SFcompare_refl.
  by destruct (sf_is_nan _).
Qed.

Lemma is_finite_spec (x : float) : PrimFloat.is_finite x = sf_is_finite (Prim2SF x).
Proof.
  unfold PrimFloat.is_finite, PrimFloat.is_infinity.
  rewrite is_nan_spec, FloatAxioms.eqb_spec, FloatAxioms.abs_spec.
  change (Prim2SF infinity) with (S754_infinity false).
  by destruct (Prim2SF x) as [s|s| |s m e].
Qed.

Lemma sub_nan (x y : float) :
  (PrimFloat.is_nan x = true ∨ PrimFloat.is_finite x = true) →
  PrimFloat.is_nan y = false →
  PrimFloat.is_nan (x - y) = PrimFloat.is_nan x.
Proof.
  rewrite !is_nan_spec, is_finite_spec, FloatAxioms.sub_spec. unfold SF64sub, SFsub.
  intros Hx Hy.
  destruct (Prim2SF x) as [sx|sx| |sx mx ex], (Prim2SF y) as [sy|sy| |sy my ey];
    cbn in *; try done; try (by destruct Hx); try (by destruct sx, sy).
  pose proof (binary_normalize_not_nan
    (cond_Zopp sx (Z.pos (shl_align mx ex (Z.min ex ey)).1) -
     cond_Zopp sy (Z.pos (shl_align my ey (Z.min ex ey)).1)) (Z.min ex ey) false) as H.
  by destruct (binary_normalize _ _ _ _ _).
Qed.

Lemma sub_not_nan (x q : float) :
  PrimFloat.is_finite x = true → PrimFloat.is_nan q = false →
  PrimFloat.is_nan (x - q) = false.
Proof.
  intros Hx Hq. rewrite sub_nan by auto.
  rewrite is_nan_spec. rewrite is_finite_spec in Hx. by destruct (Prim2SF x).
Qed.

Lemma square_nan (x : float) : PrimFloat.is_nan (x * x) = PrimFloat.is_nan x.
Proof.
  rewrite !is_nan_spec, FloatAxioms.mul_spec. unfold SF64mul, SFmul.
  destruct (Prim2SF x) as [sx|sx| |sx mx ex]; cbn; try done.
  pose proof (binary_round_aux_not_nan (xorb sx sx) (Z.pos (mx * mx)) (ex + ex) loc_Exact
                ltac:(lia)) as H.
  by destruct (binary_round_aux _ _ _ _ _ _).
Qed.

(** *** Conversion of a count to binary64 *)

Lemma shr_1_digits (p : positive) (r s : bool) :
  (1 < Z.pos (digits2_pos p))%Z →
  ∃ p' r' s', shr_1 (Build_shr_record (Z.pos p) r s) = Build_shr_record (Z.pos p') r' s' ∧
              Z.pos (digits2_pos p') = (Z.pos (digits2_pos p) - 1)%Z.
Proof.
  destruct p as [p|p|]; cbn [shr_1 digits2_pos]; intros Hd; [| |lia].
  - exists p, true, (r || s). split; [done|lia].
  - exists p, false, (r || s). split; [done|lia].
Qed.

Lemma iter_shr_1_digits (k p : positive) (r s : bool) :
  (Z.pos k < Z.pos (digits2_pos p))%Z →
  ∃ p' r' s',
    iter_pos shr_1 k (Build_shr_record (Z.pos p) r s) = Build_shr_record (Z.pos p') r' s' ∧
    Z.pos (digits2_pos p') = (Z.pos (digits2_pos p) - Z.pos k)%Z.
Proof.
  revert p r s. induction k as [k IH|k IH|]; intros p r s Hk; cbn [iter_pos].
  - destruct (shr_1_digits p r s) as (p1 & r1 & s1 & -> & H1); [lia|].
    destruct (IH p1 r1 s1) as (p2 & r2 & s2 & -> & H2); [lia|].
    destruct (IH p2 r2 s2) as (p3 & r3 & s3 & -> & H3); [lia|].
    exists p3, r3, s3. split; [done|lia].
  - destruct (IH p r s) as (p1 & r1 & s1 & -> & H1); [lia|].
    destruct (IH p1 r1 s1) as (p2 & r2 & s2 & -> & H2); [lia|].
    exists p2, r2, s2. split; [done|lia].
  - by apply shr_1_digits.
Qed.

Lemma shr_digits (mrs : shr_record) (p : positive) (e k : Z) :
  shr_m mrs = Z.pos p → (k < Z.pos (digits2_pos p))%Z →
  ∃ mrs' p', shr mrs e k = (mrs', (e + Z.max k 0)%Z) ∧
             shr_m mrs' = Z.pos p' ∧
             Z.pos (digits2_pos p') = (Z.pos (digits2_pos p) - Z.max k 0)%Z.
Proof.
  intros Hm Hk. destruct mrs as [m r s]. cbn [shr_m] in Hm. subst m.
  destruct k as [|k|k]; cbn [shr].
  - exists (Build_shr_record (Z.pos p) r s), p. rewrite Z.add_0_r.
    split; [done|]. split; [done|lia].
  - destruct (iter_shr_1_digits k p r s Hk) as (p' & r' & s' & -> & Hd).
    exists (Build_shr_record (Z.pos p') r' s'), p'.
    replace (Z.max (Z.pos k) 0) with (Z.pos k) by lia. done.
  - exists (Build_shr_record (Z.pos p) r s), p.
    replace (Z.max (Z.neg k) 0) with 0%Z by lia. rewrite Z.add_0_r.
    split; [done|]. split; [done|lia].
Qed.

Lemma digits2_pos_succ (p : positive) :
  (Z.pos (digits2_pos p) ≤ Z.pos (digits2_pos (Pos.succ p)) ≤ Z.pos (digits2_pos p) + 1)%Z.
Proof. induction p as [p IH|p IH|]; simpl; lia. Qed.

Lemma round_nearest_even_digits (p : positive) (l : location) :
  ∃ p1, round_nearest_even (Z.pos p) l = Z.pos p1 ∧
        (Z.pos (digits2_pos p) ≤ Z.pos (digits2_pos p1) ≤ Z.pos (digits2_pos p) + 1)%Z.
Proof.
  assert ((Z.pos p + 1)%Z = Z.pos (Pos.succ p)) as Hsucc by lia.
  pose proof (digits2_pos_succ p).
  destruct l as [|[]]; cbn [round_nearest_even]; rewrite ?Hsucc;
    try destruct (Z.even _); eexists; (split; [reflexivity|lia]).
Qed.

(** A positive mantissa whose value lies within the range of the format
    rounds to a finite non-zero number. *)
Lemma binary_round_aux_finite (sx : bool) (p : positive) (ex : Z) (lx : location) :
  (-1074 < Z.pos (digits2_pos p) + ex)%Z →
  (ex < 971)%Z →
  (Z.pos (digits2_pos p) + ex ≤ 1023)%Z →
  ∃ m e, binary_round_aux prec emax sx (Z.pos p) ex lx = S754_finite sx m e.
Proof.
  intros Hlo Hex Hhi. unfold binary_round_aux, shr_fexp.
  assert (shr_m (shr_record_of_loc (Z.pos p) lx) = Z.pos p) as Hm0 by by destruct lx as [|[]].
  cbn [Zdigits2].
  assert (fexp prec emax (Z.pos (digits2_pos p) + ex) =
          Z.max (Z.pos (digits2_pos p) + ex - 53) (-1074)) as -> by reflexivity.
  destruct (shr_digits _ p ex (Z.max (Z.pos (digits2_pos p) + ex - 53) (-1074) - ex) Hm0)
    as (mrs' & p' & -> & Hm' & Hd'); [lia|].
  rewrite Hm'.
  destruct (round_nearest_even_digits p' (loc_of_shr_record mrs')) as (p1 & -> & Hd1).
  assert (shr_m (shr_record_of_loc (Z.pos p1) loc_Exact) = Z.pos p1) as Hm1 by done.
  cbn [Zdigits2].
  remember (ex + Z.max (Z.max (Z.pos (digits2_pos p) + ex - 53) (-1074) - ex) 0)%Z
    as e' eqn:He'.
  assert (fexp prec emax (Z.pos (digits2_pos p1) + e') =
          Z.max (Z.pos (digits2_pos p1) + e' - 53) (-1074)) as -> by reflexivity.
  destruct (shr_digits _ p1 e' (Z.max (Z.pos (digits2_pos p1) + e' - 53) (-1074) - e') Hm1)
    as (mrs'' & p'' & -> & Hm'' & Hd''); [lia|].
  rewrite Hm''.
  assert (e' + Z.max (Z.max (Z.pos (digits2_pos p1) + e' - 53) (-1074) - e') 0 ≤ 971)%Z
    as Hle by lia.
  apply Z.leb_le in Hle. change (emax - prec)%Z with 971%Z. rewrite Hle. eauto.
Qed.

Lemma digits2_pos_iter_xO (p k : positive) :
  Z.pos (digits2_pos (Pos.iter xO p k)) = (Z.pos (digits2_pos p) + Z.pos k)%Z.
Proof.
  induction k as [|k IH] using Pos.peano_ind.
  - cbn. lia.
  - rewrite Pos.iter_succ. cbn [digits2_pos]. lia.
Qed.

Lemma digits2_pos_bound (p : positive) (n : Z) :
  (0 ≤ n)%Z → (Z.pos p < 2 ^ n)%Z → (Z.pos (digits2_pos p) ≤ n)%Z.
Proof.
  intros Hn Hp. destruct (Z.le_gt_cases (Z.pos (digits2_pos p)) n) as [|Hgt]; [done|].
  pose proof (Pos.size_le p) as Hs.
  change (Pos.size p) with (digits2_pos p) in Hs.
  apply Pos2Z.pos_le_pos in Hs. rewrite Pos2Z.inj_pow in Hs.
  assert (2 ^ (n + 1) ≤ 2 ^ Z.pos (digits2_pos p))%Z by (apply Z.pow_le_mono_r; lia).
  rewrite Z.pow_add_r in * by lia. lia.
Qed.

(** The binary64 value of a count below 2^63 is finite and not zero. *)
Lemma of_count_finite (p : positive) :
  (Z.pos p < 2 ^ 63)%Z →
  ∃ m e, binary_normalize prec emax (Z.pos p) 0 false = S754_finite false m e.
Proof.
  intros Hp. pose proof (digits2_pos_bound p 63 ltac:(lia) Hp) as Hd.
  unfold binary_normalize, binary_round, shl_align.
  assert (fexp prec emax (Z.pos (digits2_pos p) + 0) =
          Z.max (Z.pos (digits2_pos p) + 0 - 53) (-1074)) as -> by reflexivity.
  destruct (_ - 0)%Z as [|k|k] eqn:Hk.
  - apply binary_round_aux_finite; lia.
  - apply binary_round_aux_finite; lia.
  - apply binary_round_aux_finite; rewrite ?digits2_pos_iter_xO; lia.
Qed.

Lemma SFdiv_core_binary_nonneg (m1 m2 : positive) (e1 e2 : Z) :
  (0 ≤ (SFdiv_core_binary prec emax (Z.pos m1) e1 (Z.pos m2) e2).1.1)%Z.
Proof.
  unfold SFdiv_core_binary.
  set (s := (e1 - e2 - _)%Z).
  set (m' := match s with Z.pos _ => Z.shiftl (Z.pos m1) s | 0%Z => Z.pos m1 | Z.neg _ => 0%Z end).
  assert (0 ≤ m')%Z as Hm'.
  { unfold m'. destruct s; [lia| |lia]. by apply Z.shiftl_nonneg. }
  pose proof (Z.div_pos m' (Z.pos m2) Hm' ltac:(lia)) as Hq.
  unfold Z.div in Hq. by destruct (Z.div_eucl m' (Z.pos m2)).
Qed.

Lemma div_finite_not_nan (x y : float) (m : positive) (e : Z) :
  PrimFloat.is_nan x = false → Prim2SF y = S754_finite false m e →
  PrimFloat.is_nan (x / y) = false.
Proof.
  rewrite !is_nan_spec, FloatAxioms.div_spec. intros Hx ->. unfold SF64div, SFdiv.
  destruct (Prim2SF x) as [sx|sx| |sx mx ex]; cbn in *; try done.
  pose proof (SFdiv_core_binary_nonneg mx m ex e) as Hq.
  destruct (SFdiv_core_binary prec emax (Z.pos mx) ex (Z.pos m) e) as [[mz ez] lz].
  cbn [fst] in Hq.
  pose proof (binary_round_aux_not_nan (xorb sx false) mz ez lz Hq) as H.
  by destruct (binary_round_aux _ _ _ _ _ _).
Qed.

Lemma count_to_float_finite (n : nat) :
  0 < n → (Z.of_nat n < 2 ^ 63)%Z →
  ∃ m e, Prim2SF (PrimFloat.of_uint63 (Uint63.of_Z (Z.of_nat n))) = S754_finite false m e.
Proof.
  intros Hn Hlt. rewrite of_uint63_spec, Uint63.of_Z_spec.
  rewrite Z.mod_small by (change wB with (2 ^ 63)%Z; lia).
  destruct (Z.of_nat n) as [|p|p] eqn:Hp; [lia| |lia].
  by apply of_count_finite.
Qed.

Lemma sub_nan_l (x y : float) :
  PrimFloat.is_nan x = true → PrimFloat.is_nan (x - y) = true.
Proof.
  rewrite !is_nan_spec, FloatAxioms.sub_spec. unfold SF64sub, SFsub.
  by destruct (Prim2SF x) as [sx|sx| |sx mx ex].
Qed.

End Binary64.

(** ** Arrays of equal length *)

Lemma broadcast2_same_length {A B C} (f : A → B → C) (a : list A) (b : list B) :
  length a = length b → np.broadcast2 f a b = Ok (zip_with f a b).
Proof. intros H. unfold np.broadcast2. by rewrite decide_True. Qed.

Lemma count_true_non_nan (a : list float) :
  np.sum_bool (np.invert (np.isnan a)) =
  length (filter (fun o => PrimFloat.is_nan o = false) a).
Proof.
  induction a as [|x a IH]; [done|].
  rewrite filter_cons. cbn [np.isnan np.invert map np.sum_bool sum_list_with].
  unfold np.sum_bool, np.invert, np.isnan in IH. rewrite IH.
  destruct (PrimFloat.is_nan x); by case_decide.
Qed.

(** ** The masked RMSE as a formula *)

Lemma masked_squares (y_true y_pred : list float) :
  np.square (zip_with (fun (b : bool) x => if b then 0%float else x)
               (np.isnan y_true) (zip_with PrimFloat.sub y_pred y_true)) =
  zip_with spec_squared_error y_true y_pred.
Proof.
  revert y_pred. induction y_true as [|o y_true IH]; intros [|p y_pred]; try done.
  cbn [np.isnan np.square map zip_with]. f_equal; [|apply IH].
  unfold spec_squared_error. by destruct (PrimFloat.is_nan o).
Qed.

Lemma rmse_masked_same_length (y_true y_pred : list float) :
  length y_true = length y_pred →
  rmse_masked y_true y_pred = Ok (spec_rmse y_true y_pred).
Proof.
  intros Hlen. unfold rmse_masked, np.subtract, np.where_.
  rewrite broadcast2_same_length by done. cbn [mbind result_bind].
  rewrite broadcast2_same_length
    by (unfold np.isnan; rewrite length_map, length_zip_with; lia).
  cbn [mbind result_bind].
  by rewrite masked_squares, count_true_non_nan.
Qed.

(** C1. For observed and predicted sequences of one length, [rmse_masked]
    returns sqrt(S / n): n counts the observations that are not NaN, and S
    sums, over all positions, (pred - obs)^2 where the observation is present
    and 0 where it is NaN. On y_true = [1, NaN, 3], y_pred = [2, 5, 3] the
    result is sqrt(1/2). *)
Theorem rmse_masked_formula :
  (∀ y_true y_pred : list float,
      length y_true = length y_pred →
      rmse_masked y_true y_pred =
      Ok (PrimFloat.sqrt
            (np.sum (zip_with spec_squared_error y_true y_pred)
             / np.float64 (spec_count y_true)))%float) ∧
  rmse_masked [1; nan; 3]%float [2; 5; 3]%float = Ok (PrimFloat.sqrt (1 / 2))%float.
Proof.
  split; [|reflexivity].
  intros y_true y_pred Hlen. by rewrite rmse_masked_same_length.
Qed.

Lemma rmse_masked_formula_witness :
  rmse_masked [1; nan; 3]%float [2; 5; 3]%float =
  Ok (PrimFloat.sqrt
        (np.sum (zip_with spec_squared_error [1; nan; 3] [2; 5; 3])
         / np.float64 (spec_count [1; nan; 3])))%float.
Proof. apply (proj1 rmse_masked_formula). reflexivity. Defined.

(** ** Predictions under the mask *)

Lemma squared_errors_agree (y_true p1 p2 : list float) :
  length p1 = length y_true → length p2 = length y_true →
  (∀ i o, y_true !! i = Some o → PrimFloat.is_nan o = false → p1 !! i = p2 !! i) →
  zip_with spec_squared_error y_true p1 = zip_with spec_squared_error y_true p2.
Proof.
  revert p1 p2. induction y_true as [|o y_true IH]; intros [|a p1] [|b p2] H1 H2 Hagree;
    try done.
  cbn [zip_with]. f_equal.
  - unfold spec_squared_error. destruct (PrimFloat.is_nan o) eqn:Ho; [done|].
    specialize (Hagree 0 o eq_refl Ho). cbn in Hagree. by simplify_eq.
  - apply IH; [by simplify_eq/= | by simplify_eq/= |].
    intros i o' Hi Ho'. apply (Hagree (S i) o' Hi Ho').
Qed.

(** C10. Two prediction sequences that agree wherever the observation is
    present give the same masked RMSE: what is predicted where the
    observation is NaN, a NaN included, does not reach the result. *)
Theorem rmse_masked_ignores_masked_predictions (y_true y_pred1 y_pred2 : list float) :
  length y_pred1 = length y_true →
  length y_pred2 = length y_true →
  (∀ i o, y_true !! i = Some o → PrimFloat.is_nan o = false →
          y_pred1 !! i = y_pred2 !! i) →
  rmse_masked y_true y_pred1 = rmse_masked y_true y_pred2.
Proof.
  intros H1 H2 Hagree.
  rewrite !rmse_masked_same_length by done.
  unfold spec_rmse. by rewrite (squared_errors_agree y_true y_pred1 y_pred2).
Qed.

Lemma rmse_masked_ignores_masked_predictions_witness :
  rmse_masked [1; nan; 3]%float [2; 5; 3]%float =
  rmse_masked [1; nan; 3]%float [2; nan; 3]%float.
Proof.
  apply rmse_masked_ignores_masked_predictions; [reflexivity | reflexivity |].
  intros [|[|[|i]]] o Hi Ho; try reflexivity; by simplify_eq/=.
Defined.

(** ** Per-reach metrics *)

Lemma nse_same_length (y_true y_pred : list float) :
  length y_true = length y_pred →
  nse y_true y_pred =
  Ok (1 - np.nansum (np.square (zip_with PrimFloat.sub y_true y_pred))
          / np.nansum (np.square (map (fun y => (y - np.nanmean y_true)%float) y_true)))%float.
Proof.
  intros Hlen. unfold nse, np.subtract.
  by rewrite broadcast2_same_length.
Qed.

Lemma getitem_length (name : string) (df : DataFrame) (s : list cell) :
  getitem name df = Ok s → length s = length (rows df).
Proof.
  unfold getitem. destruct (index_of name (columns df)); [|done].
  intros [= <-]. by rewrite length_map.
Qed.

(** C3. A group with more than ten observations present gets the RMSE and
    the NSE that [rmse_masked] and [nse] compute on it; a group with ten or
    fewer gets NaN for both. *)
Theorem calc_reach_specific_metrics_threshold (df : DataFrame) (obs pred : list cell) :
  getitem "obs" df = Ok obs →
  getitem "pred" df = Ok pred →
  (10 < count obs →
   ∃ r n, rmse_masked (values obs) (values pred) = Ok r ∧
          nse (values obs) (values pred) = Ok n ∧
          calc_reach_specific_metrics df = Ok [("rmse", r); ("nse", n)]) ∧
  (count obs ≤ 10 →
   calc_reach_specific_metrics df = Ok [("rmse", nan); ("nse", nan)]).
Proof.
  intros Hobs Hpred.
  assert (length (values obs) = length (values pred)) as Hlen.
  { unfold values. rewrite !length_map.
    by rewrite (getitem_length _ _ _ Hobs), (getitem_length _ _ _ Hpred). }
  unfold calc_reach_specific_metrics. rewrite Hobs. cbn [mbind result_bind].
  split; intros Hcount.
  - rewrite decide_True by done. rewrite Hpred. cbn [mbind result_bind].
    rewrite (rmse_masked_same_length _ _ Hlen), (nse_same_length _ _ Hlen).
    cbn [mbind result_bind]. eauto.
  - rewrite decide_False by lia. done.
Qed.

Lemma calc_reach_specific_metrics_threshold_witness :
  (∃ r n, rmse_masked obs11 (replicate 11 1%float) = Ok r ∧
          nse obs11 (replicate 11 1%float) = Ok n ∧
          calc_reach_specific_metrics (reach_group obs11) = Ok [("rmse", r); ("nse", n)]) ∧
  calc_reach_specific_metrics (reach_group obs10) = Ok [("rmse", nan); ("nse", nan)].
Proof.
  split.
  - apply (calc_reach_specific_metrics_threshold (reach_group obs11)
             (map Float obs11) (replicate 11 (Float 1)));
      [reflexivity | reflexivity | vm_compute; lia].
  - apply (calc_reach_specific_metrics_threshold (reach_group obs10)
             (map Float obs10) (replicate 11 (Float 1)));
      [reflexivity | reflexivity | vm_compute; lia].
Defined.

(** ** The Nash-Sutcliffe efficiency as a formula *)

Lemma nanmean_spec_mean (y_true : list float) : np.nanmean y_true = spec_mean y_true.
Proof. unfold np.nanmean, spec_mean, np.nansum. by rewrite count_true_non_nan. Qed.

Lemma spec_count_le (y_true : list float) : spec_count y_true ≤ length y_true.
Proof. apply length_filter. Qed.

Lemma spec_count_pos (y_true : list float) (o : float) :
  o ∈ y_true → PrimFloat.is_nan o = false → 0 < spec_count y_true.
Proof.
  intros Ho Hnan. unfold spec_count.
  assert (o ∈ filter (fun o => PrimFloat.is_nan o = false) y_true) as Hin
    by by apply list_elem_of_filter.
  destruct (filter _ y_true); [by apply elem_of_nil in Hin | cbn; lia].
Qed.

Lemma observed_finite (o : float) :
  observed o → PrimFloat.is_nan o = false → PrimFloat.is_finite o = true.
Proof. intros [Ho|Ho] Hnan; [congruence | done]. Qed.

Lemma residual_masked (o p : float) :
  observed o → PrimFloat.is_nan p = false →
  (if PrimFloat.is_nan ((o - p) * (o - p)) then 0%float else ((o - p) * (o - p))%float) =
  spec_residual o p.
Proof.
  intros Ho Hp. unfold spec_residual. by rewrite Binary64.square_nan, Binary64.sub_nan.
Qed.

Lemma numerator_masked (y_true y_pred : list float) :
  Forall observed y_true →
  Forall (fun p => PrimFloat.is_nan p = false) y_pred →
  np.nansum (np.square (zip_with PrimFloat.sub y_true y_pred)) =
  np.sum (zip_with spec_residual y_true y_pred).
Proof.
  intros Ht Hp. unfold np.nansum, np.square. f_equal. rewrite map_map.
  revert y_pred Hp. induction Ht as [|o y_true Ho Ht IH]; intros y_pred Hp; [done|].
  destruct Hp as [|p y_pred Hp Hps]; [done|].
  cbn [zip_with map]. f_equal; [by apply residual_masked | by apply IH].
Qed.

Lemma denominator_masked (y_true : list float) :
  Forall observed y_true →
  (0 < spec_count y_true → PrimFloat.is_nan (spec_mean y_true) = false) →
  np.nansum (np.square (map (fun y => (y - spec_mean y_true)%float) y_true)) =
  np.sum (map (fun o => spec_residual o (spec_mean y_true)) y_true).
Proof.
  intros Ht Hmean. unfold np.nansum, np.square. f_equal. rewrite !map_map.
  apply map_ext_in. intros o Ho%list_elem_of_In.
  rewrite Forall_forall in Ht. pose proof (Ht o Ho) as Hobs.
  unfold spec_residual. rewrite Binary64.square_nan.
  destruct (PrimFloat.is_nan o) eqn:Hnan.
  - by rewrite Binary64.sub_nan_l.
  - rewrite Binary64.sub_not_nan; [done | by apply observed_finite |].
    apply Hmean. by eapply spec_count_pos.
Qed.

(** The formula of the specification does not hold for every numeric
    sequence. For the single observation +infinity and the prediction 0 the
    mean is +infinity, the deviation from it is NaN, and [np.nansum] counts
    that square as zero: [nse] returns -infinity, where the formula, whose
    denominator sums the square at every position with an observation,
    gives NaN. *)
Lemma nse_of_infinite_observation :
  nse [infinity] [0%float] = Ok neg_infinity ∧
  (1 - np.sum (zip_with spec_residual [infinity] [0%float])
       / np.sum (map (fun o => spec_residual o (spec_mean [infinity])) [infinity]))%float
  = nan.
Proof. split; reflexivity. Qed.

(** C2, as the code has it. For observations that are finite or NaN and
    NaN-free predictions of the same length, if the mean [np.nanmean]
    computes of the observations is a number whenever one is present, [nse]
    returns 1 - numerator / denominator, with the mean taken over the
    observations that are present and both sums over the positions where the
    observation is present. (The mean of finite observations is NaN only
    when their sum overflows in both directions, which depends on the order
    of the additions; nothing here does.) nse([1,2,3],[1,2,3]) = 1 and
    nse([1,2,3],[2,2,2]) = 0. *)
Theorem nse_formula :
  (∀ y_true y_pred : list float,
      length y_true = length y_pred →
      Forall observed y_true →
      Forall (fun p => PrimFloat.is_nan p = false) y_pred →
      (0 < spec_count y_true → PrimFloat.is_nan (np.nanmean y_true) = false) →
      nse y_true y_pred =
      Ok (1 - np.sum (zip_with spec_residual y_true y_pred)
              / np.sum (map (fun o => spec_residual o (spec_mean y_true)) y_true))%float) ∧
  nse [1; 2; 3]%float [1; 2; 3]%float = Ok 1%float ∧
  nse [1; 2; 3]%float [2; 2; 2]%float = Ok 0%float.
Proof.
  split; [|by split].
  intros y_true y_pred Hlen Ht Hp Hmean.
  rewrite nse_same_length by done. rewrite nanmean_spec_mean in *.
  by rewrite numerator_masked, denominator_masked.
Qed.

Lemma nse_formula_witness :
  nse [1; nan; 3]%float [2; 5; 3]%float =
  Ok (1 - np.sum (zip_with spec_residual [1; nan; 3] [2; 5; 3])
          / np.sum (map (fun o => spec_residual o (spec_mean [1; nan; 3])) [1; nan; 3]))%float.
Proof.
  apply (proj1 nse_formula).
  - reflexivity.
  - repeat constructor; by (left + right).
  - by repeat constructor.
  - intros _. reflexivity.
Defined.

(** ** Tables and programs *)

Lemma index_of_lookup (name : string) (l : list string) (j : nat) :
  index_of name l = Some j → l !! j = Some name.
Proof.
  revert j. induction l as [|x l IH]; intros j; [done|].
  cbn [index_of]. case_decide as Hx.
  - intros [= <-]. by subst.
  - destruct (index_of name l) as [k|]; [|done].
    intros [= <-]. by apply IH.
Qed.

Lemma index_of_lt (name : string) (l : list string) (j : nat) :
  index_of name l = Some j → j < length l.
Proof. intros H. eapply lookup_lt_Some, index_of_lookup, H. Qed.

Lemma filter_none {A} (P : A → Prop) `{∀ x, Decision (P x)} (l : list A) :
  Forall (fun x => ¬ P x) l → filter P l = [].
Proof.
  induction 1 as [|x l Hx Hl IH]; [done|].
  rewrite filter_cons. by rewrite decide_False.
Qed.

Lemma filter_map {A B} (P : B → Prop) `{∀ x, Decision (P x)} (f : A → B) (l : list A) :
  filter P (map f l) = map f (filter (fun x => P (f x)) l).
Proof.
  induction l as [|x l IH]; [done|].
  cbn [map]. rewrite !filter_cons. case_decide; cbn [map]; by rewrite IH.
Qed.

Lemma zip_with_map_same {A B C} (f : A → B → C) (g : A → B) (l : list A) :
  zip_with f l (map g l) = map (fun x => f x (g x)) l.
Proof. induction l; [done|]. cbn. by f_equal. Qed.

Lemma zip_with_map_map {A B C D} (f : B → C → D) (g : A → B) (h : A → C) (l : list A) :
  zip_with f (map g l) (map h l) = map (fun x => f (g x) (h x)) l.
Proof. induction l; [done|]. cbn. by f_equal. Qed.

Lemma index_of_delete (name : string) (l : list string) (j : nat) :
  NoDup l → index_of name l = Some j → name ∉ delete j l.
Proof.
  intros Hnd Hj Hin.
  apply list_elem_of_lookup in Hin as [i Hi].
  pose proof (index_of_lookup _ _ _ Hj) as Hj'.
  rewrite NoDup_alt in Hnd.
  destruct (decide (i < j)).
  - rewrite list_lookup_delete_lt in Hi by done. specialize (Hnd _ _ _ Hi Hj'). lia.
  - rewrite list_lookup_delete_ge in Hi by lia. specialize (Hnd _ _ _ Hi Hj'). lia.
Qed.

Lemma bind_run {A B} (m : prog A) (k : A → prog B) (w : World) :
  (m ≫= k) w = match m w with
               | (Ok a, w') => k a w'
               | (Raise e, w') => (Raise e, w')
               end.
Proof. reflexivity. Qed.

Lemma inplace_run (l : nat) (f : DataFrame → result DataFrame) (w : World) (d d' : DataFrame) :
  heap w !! l = Some d → f d = Ok d' →
  inplace l f w = (Ok (), mkWorld (<[l:=d']> (heap w)) (files w)).
Proof.
  intros Hl Hf. unfold inplace. rewrite bind_run. unfold deref. rewrite Hl.
  rewrite bind_run. unfold lift. rewrite Hf. done.
Qed.

Lemma deref_run (l : nat) (w : World) (d : DataFrame) :
  heap w !! l = Some d → deref l w = (Ok d, w).
Proof. intros Hl. unfold deref. by rewrite Hl. Qed.

Lemma bind_lift_ok {A B} (r : result A) (a : A) (k : A → prog B) (w : World) :
  r = Ok a → (lift r ≫= k) w = k a w.
Proof. by intros ->. Qed.

Lemma bind_deref {B} (l : nat) (d : DataFrame) (k : DataFrame → prog B) (w : World) :
  heap w !! l = Some d → (deref l ≫= k) w = k d w.
Proof. intros Hl. rewrite bind_run. by rewrite (deref_run _ _ _ Hl). Qed.

Lemma bind_inplace {B} (l : nat) (f : DataFrame → result DataFrame) (d d' : DataFrame)
    (k : unit → prog B) (w : World) :
  heap w !! l = Some d → f d = Ok d' →
  (inplace l f ≫= k) w = k () (mkWorld (<[l:=d']> (heap w)) (files w)).
Proof. intros Hl Hf. rewrite bind_run. by rewrite (inplace_run _ _ _ _ _ Hl Hf). Qed.

Lemma bind_alloc {B} (df : DataFrame) (k : nat → prog B) (w : World) :
  (alloc df ≫= k) w =
  k (fresh (dom (heap w))) (mkWorld (<[fresh (dom (heap w)) := df]> (heap w)) (files w)).
Proof. reflexivity. Qed.

(** ** Rescaling *)

Section Rescaling.

Variable np_exp : float → float.

Lemma unscale_output_run (w : World) (y_scl : nat) (df : DataFrame) (jt jq : nat)
    (s_t s_q m_t m_q : float) (logged_q : bool) :
  heap w !! y_scl = Some df →
  rectangular df →
  index_of "temp_c" (columns df) = Some jt →
  index_of "discharge_cms" (columns df) = Some jq →
  unscale_output np_exp y_scl (array1 [s_t; s_q]) (array1 [m_t; m_q]) logged_q w =
  (Ok y_scl,
   mkWorld
     (<[y_scl := mkDF (index_names df) (columns df)
                   (map (unscaled_row np_exp jt jq s_t s_q m_t m_q logged_q) (rows df))]>
        (heap w))
     (files w)).
Proof.
  intros Hl Hrect Ht Hq.
  unfold unscale_output. cbv zeta.
  rewrite (bind_deref _ _ _ _ Hl).
  erewrite bind_lift_ok; [|unfold getitems; cbn [positions]; rewrite Ht, Hq; reflexivity].
  erewrite bind_lift_ok; [|reflexivity].
  erewrite (bind_inplace _ _ _ _ _ _ Hl).
  2:{ unfold setitems. rewrite decide_True by reflexivity.
      cbn [setitems_from rows]. unfold setitem at 2. rewrite !length_map.
      rewrite decide_True by done. rewrite Ht. cbn [mbind result_bind].
      unfold setitem. cbn [rows columns index_names]. rewrite length_zip_with, !length_map.
      rewrite decide_True by lia. rewrite Hq. reflexivity. }
  cbn [heap files].
  rewrite !map_map.
  cbn [labels cells cell_at array1 data map zip_with lookup list_lookup default
       cell_to_float].
  rewrite zip_with_map_same, zip_with_map_map. cbn [labels cells].
  destruct logged_q.
  - rewrite bind_run. erewrite bind_deref by apply lookup_insert_eq.
    erewrite bind_lift_ok; [|unfold getitem; cbn [columns]; rewrite Hq; reflexivity].
    erewrite inplace_run; [| apply lookup_insert_eq |].
    2:{ unfold setitem. cbn [rows columns index_names]. rewrite !length_map.
        rewrite decide_True by lia. rewrite Hq. reflexivity. }
    cbn [heap files rows]. rewrite insert_insert_eq.
    rewrite !map_map, zip_with_map_map. cbn [labels cells cell_at].
    unfold mret, prog_ret. do 4 f_equal.
    apply map_ext_in. intros r Hr.
    assert (jq < length (cells r)) as Hjq.
    { unfold rectangular in Hrect. rewrite Forall_forall in Hrect.
      rewrite (Hrect r) by (by apply list_elem_of_In). by eapply index_of_lt. }
    unfold unscaled_row, cell_at at 1. cbn [cells id].
    rewrite list_lookup_insert_eq by (by rewrite length_insert).
    cbn [default from_option id cell_to_float]. by rewrite list_insert_insert_eq.
  - rewrite bind_run. reflexivity.
Qed.

(** C5. [unscale_output] replaces temp_c and discharge_cms by
    value * std + mean, each with its own std and mean, and then, exactly
    when [logged_q] is set, discharge_cms by its exponential; temp_c does not
    depend on the flag, and every other cell, the labels, the columns and
    the number of rows stay as they were. The function returns the table it
    was given. *)
Theorem unscale_output_rescales (w : World) (y_scl : nat) (df : DataFrame)
    (jt jq : nat) (s_t s_q m_t m_q : float) (logged_q : bool) :
  heap w !! y_scl = Some df →
  rectangular df →
  index_of "temp_c" (columns df) = Some jt →
  index_of "discharge_cms" (columns df) = Some jq →
  ∃ w' df',
    unscale_output np_exp y_scl (array1 [s_t; s_q]) (array1 [m_t; m_q]) logged_q w =
      (Ok y_scl, w') ∧
    heap w' !! y_scl = Some df' ∧
    index_names df' = index_names df ∧
    columns df' = columns df ∧
    length (rows df') = length (rows df) ∧
    ∀ i r, rows df !! i = Some r →
      ∃ r', rows df' !! i = Some r' ∧
            labels r' = labels r ∧
            cells r' !! jt =
              Some (Float (cell_to_float (cell_at jt r) * s_t + m_t)) ∧
            cells r' !! jq =
              Some (Float (if logged_q
                           then np_exp (cell_to_float (cell_at jq r) * s_q + m_q)
                           else (cell_to_float (cell_at jq r) * s_q + m_q))) ∧
            ∀ j, j ≠ jt → j ≠ jq → cells r' !! j = cells r !! j.
Proof.
  intros Hl Hrect Ht Hq.
  eexists _, _. split; [by apply unscale_output_run|].
  cbn [heap]. rewrite lookup_insert_eq. split; [done|].
  cbn [index_names columns rows]. rewrite length_map.
  do 3 (split; [done|]).
  intros i r Hr. exists (unscaled_row np_exp jt jq s_t s_q m_t m_q logged_q r).
  change (map ?f ?l) with (f <$> l). rewrite list_lookup_fmap, Hr.
  split; [done|]. split; [done|].
  assert (length (cells r) = length (columns df)) as Hlen.
  { unfold rectangular in Hrect. rewrite Forall_forall in Hrect.
    apply Hrect. by eapply list_elem_of_lookup_2. }
  assert (jt ≠ jq) as Hne.
  { intros ->. apply index_of_lookup in Ht, Hq. congruence. }
  apply index_of_lt in Ht, Hq.
  unfold unscaled_row. cbn [cells]. split; [|split].
  - rewrite list_lookup_insert_ne by done.
    rewrite list_lookup_insert_eq by lia. done.
  - rewrite list_lookup_insert_eq by (rewrite length_insert; lia).
    by destruct logged_q.
  - intros j Hjt Hjq. by rewrite !list_lookup_insert_ne.
Qed.

End Rescaling.

Lemma unscale_output_rescales_witness :
  ∃ w' df' r',
    unscale_output (fun x => x) 0 (array1 [2; 1]%float) (array1 [10; 0]%float) false
      (mkWorld {[ 0 := rescale_example ]} ∅) = (Ok 0, w') ∧
    heap w' !! 0 = Some df' ∧
    rows df' !! 0 = Some r' ∧
    cells r' !! 2 = Some (Float 12) ∧
    cells r' !! 3 = Some (Float 1).
Proof.
  destruct (unscale_output_rescales (fun x => x) (mkWorld {[ 0 := rescale_example ]} ∅)
              0 rescale_example 2 3 2 1 10 0 false)
    as (w' & df' & Hrun & Hdf & _ & _ & _ & Hrows);
    [reflexivity | by repeat constructor | reflexivity | reflexivity |].
  destruct (Hrows 0 _ eq_refl) as (r' & Hr' & _ & Ht & Hq & _).
  exists w', df', r'. repeat split; [exact Hrun | exact Hdf | exact Hr' | exact Ht | exact Hq].
Defined.

(** ** Sorting by an index of dates *)

Lemma label_leb_int (a b : Z) : label_leb [Int a] [Int b] = (a <=? b)%Z.
Proof.
  unfold label_leb, Z.leb. cbn [label_cmp cell_cmp].
  by destruct (a ?= b)%Z.
Qed.

Lemma label_eqb_int (a b : Z) : label_eqb [Int a] [Int b] = (a =? b)%Z.
Proof.
  unfold label_eqb. cbn [label_cmp cell_cmp].
  destruct (Z.compare_spec a b) as [->|H|H].
  - by rewrite Z.eqb_refl.
  - symmetry. apply Z.eqb_neq. lia.
  - symmetry. apply Z.eqb_neq. lia.
Qed.

Lemma insert_sorted_perm (r : Row) (l : list Row) : insert_sorted r l ≡ₚ r :: l.
Proof.
  induction l as [|r' l IH]; [done|].
  cbn [insert_sorted]. destruct (label_leb _ _); [done|].
  rewrite IH. apply Permutation_swap.
Qed.

Lemma sort_rows_perm (l : list Row) : sort_rows l ≡ₚ l.
Proof.
  induction l as [|r l IH]; [done|].
  cbn [sort_rows]. by rewrite insert_sorted_perm, IH.
Qed.

Lemma insert_sorted_sorted (r : Row) (l : list Row) :
  date_labelled r → Forall date_labelled l →
  StronglySorted key_le l → StronglySorted key_le (insert_sorted r l).
Proof.
  intros Hr Hl Hs. induction Hs as [|r' l Hs IH Hall]; cbn [insert_sorted].
  - by repeat constructor.
  - apply Forall_cons in Hl as [Hr' Hl].
    rewrite Hr, Hr', label_leb_int.
    destruct (Z.leb_spec (row_key r) (row_key r')) as [Hle|Hgt].
    + constructor; [by constructor|].
      constructor; [done|].
      eapply Forall_impl; [exact Hall|]. unfold key_le. intros; lia.
    + constructor; [by apply IH|].
      rewrite insert_sorted_perm. constructor; [unfold key_le; lia | done].
Qed.

Lemma sort_rows_sorted (l : list Row) :
  Forall date_labelled l → StronglySorted key_le (sort_rows l).
Proof.
  induction 1 as [|r l Hr Hl IH]; cbn [sort_rows]; [constructor|].
  apply insert_sorted_sorted; [done | by rewrite sort_rows_perm | done].
Qed.

(** On a sorted index the label slice keeps the rows up to the bound. *)
Lemma take_searchsorted_right (b : Z) (l : list Row) :
  Forall date_labelled l → StronglySorted key_le l →
  take (searchsorted_right [Int b] (map labels l)) l =
  filter (fun r => (row_key r ≤ b)%Z) l.
Proof.
  intros Hl Hs. induction Hs as [|r l Hs IH Hall]; [done|].
  apply Forall_cons in Hl as [Hr Hl].
  cbn [map searchsorted_right]. rewrite Hr, label_leb_int, filter_cons.
  destruct (Z.leb_spec (row_key r) b) as [Hle|Hgt].
  - rewrite decide_True by done. cbn [take]. f_equal. by apply IH.
  - rewrite decide_False by lia. cbn [take]. symmetry.
    apply filter_none. eapply Forall_impl; [exact Hall|].
    unfold key_le. intros; lia.
Qed.

Lemma StronglySorted_filter {A} (R : relation A) (P : A → Prop)
    `{∀ x, Decision (P x)} (l : list A) :
  StronglySorted R l → StronglySorted R (filter P l).
Proof.
  induction 1 as [|x l Hs IH Hall]; [constructor|].
  rewrite filter_cons. case_decide; [|done].
  constructor; [done|].
  rewrite Forall_forall in Hall |- *. intros y Hy.
  apply list_elem_of_filter in Hy as [_ Hy]. by apply Hall.
Qed.

(** The distinct labels of a sorted index of dates are the dates in
    increasing order. *)
Lemma unique_sorted_dates (ks : list Z) :
  StronglySorted Z.le ks →
  ∃ u, unique (map date_label ks) = map date_label u ∧
       StronglySorted Z.lt u ∧ ∀ d, d ∈ u ↔ d ∈ ks.
Proof.
  induction 1 as [|k ks Hs IH Hall].
  { exists []. split; [done|]. split; [constructor|done]. }
  destruct IH as (u & Hu & Hsu & Helem).
  exists (k :: filter (fun d => d ≠ k) u). cbn [map unique]. rewrite Hu.
  split; [|split].
  - f_equal. clear. induction u as [|d u IH]; [done|].
    cbn [map List.filter]. unfold date_label at 1 2. rewrite label_eqb_int, filter_cons.
    destruct (Z.eqb_spec k d) as [->|Hne]; cbn [negb].
    + rewrite decide_False by (intros H; by apply H). done.
    + rewrite decide_True by done. cbn [map]. by f_equal.
  - constructor; [by apply StronglySorted_filter|].
    rewrite Forall_forall in Hall |- *. intros d Hd.
    apply list_elem_of_filter in Hd as [Hne Hd].
    apply Helem, Hall in Hd. lia.
  - intros d. rewrite !elem_of_cons, list_elem_of_filter, Helem.
    destruct (decide (d = k)); intuition.
Qed.

Lemma strictly_sorted_NoDup (u : list Z) : StronglySorted Z.lt u → NoDup u.
Proof.
  induction 1 as [|k u Hs IH Hall]; constructor; [|done].
  intros Hk. rewrite Forall_forall in Hall. specialize (Hall k Hk). lia.
Qed.

Lemma strictly_sorted_dates_unique (u u' : list Z) :
  StronglySorted Z.lt u → StronglySorted Z.lt u' →
  (∀ d, d ∈ u ↔ d ∈ u') → u = u'.
Proof.
  intros Hu Hu' Helem.
  apply (StronglySorted_unique_strong Z.lt); [|done|done|].
  - intros x y _ _ Hxy Hyx. lia.
  - by apply NoDup_Permutation; [apply strictly_sorted_NoDup..|].
Qed.

Lemma sort_rows_labelled (l : list Row) :
  Forall date_labelled l → Forall date_labelled (sort_rows l).
Proof. intros H. by rewrite sort_rows_perm. Qed.

Lemma labels_of_date_labelled (l : list Row) :
  Forall date_labelled l → map labels l = map date_label (map row_key l).
Proof.
  induction 1 as [|r l Hr Hl IH]; [done|]. cbn [map]. by f_equal.
Qed.

Lemma sorted_keys (l : list Row) :
  StronglySorted key_le l → StronglySorted Z.le (map row_key l).
Proof.
  induction 1 as [|r l Hs IH Hall]; cbn [map]; constructor; [done|].
  rewrite Forall_forall in Hall. apply Forall_forall. intros d Hd.
  apply list_elem_of_In, in_map_iff in Hd as (r' & <- & Hr').
  by apply Hall, list_elem_of_In.
Qed.

(** ** The first half of the dates *)

Lemma set_index_date (df : DataFrame) (j : nat) :
  index_of "date" (columns df) = Some j →
  set_index ["date"] df =
  Ok (mkDF ["date"] (delete j (columns df)) (map (date_indexed j) (rows df))).
Proof.
  intros Hj. unfold set_index. cbn [move_to_index columns]. rewrite Hj.
  cbn [index_names columns rows app]. by rewrite map_map.
Qed.

Lemma take_first_half_run (w : World) (l : nat) (df : DataFrame) (j : nat) (h : list cell) :
  heap w !! l = Some df →
  NoDup (columns df) →
  index_of "date" (columns df) = Some j →
  let sorted := sort_rows (map (date_indexed j) (rows df)) in
  let unique_dates := unique (map labels sorted) in
  unique_dates !! (length unique_dates / 2) = Some h →
  let l' := fresh (dom (<[l := sorted_by_date j df]> (heap w))) in
  take_first_half l w =
  (Ok l',
   mkWorld
     (<[l' := mkDF [] ("date" :: delete j (columns df))
                (map (fun r => mkRow [] (labels r ++ cells r))
                   (take (searchsorted_right h (map labels sorted)) sorted))]>
        (<[l := sorted_by_date j df]> (heap w)))
     (files w)).
Proof.
  intros Hl Hnd Hj sorted unique_dates Hh l'.
  unfold take_first_half.
  erewrite (bind_inplace _ _ _ _ _ _ Hl) by by apply set_index_date.
  erewrite bind_inplace; [| apply lookup_insert_eq | reflexivity].
  cbn [heap files]. rewrite insert_insert_eq.
  erewrite bind_deref by apply lookup_insert_eq.
  unfold sort_index at 1 2 3. cbn [index_names columns rows]. unfold index. cbn [index_names rows].
  fold sorted. fold unique_dates. rewrite Hh.
  rewrite bind_run. cbn [mret prog_ret].
  rewrite bind_alloc. cbn [heap files].
  erewrite bind_inplace; [| apply lookup_insert_eq |].
  2:{ unfold reset_index, loc_upto. cbn [index_names columns rows List.find].
      rewrite bool_decide_eq_false_2 by by apply index_of_delete.
      reflexivity. }
  cbn [heap files]. rewrite insert_insert_eq. unfold index. cbn [index_names rows].
  reflexivity.
Qed.

(** C4. For a table with at least one date, [take_first_half] returns a
    table holding exactly the rows whose date is at most the boundary, the
    boundary being the entry at index floor(n/2) of the increasing list [u]
    of the n distinct dates; rows dated on the boundary are kept. The result
    has a RangeIndex and the columns of the input, date first. *)
Theorem take_first_half_keeps_first_half (w : World) (l : nat) (df : DataFrame)
    (j : nat) (u : list Z) (b : Z) :
  heap w !! l = Some df →
  NoDup (columns df) →
  index_of "date" (columns df) = Some j →
  Forall (fun r => cell_at j r = Int (date_of j r)) (rows df) →
  StronglySorted Z.lt u →
  (∀ d, d ∈ u ↔ d ∈ map (date_of j) (rows df)) →
  u !! (length u / 2) = Some b →
  ∃ l' w' out,
    take_first_half l w = (Ok l', w') ∧
    heap w' !! l' = Some out ∧
    index_names out = [] ∧
    columns out ≡ₚ columns df ∧
    rows out ≡ₚ
      map (fun r => mkRow [] (cell_at j r :: delete j (cells r)))
        (filter (fun r => (date_of j r ≤ b)%Z) (rows df)).
Proof.
  intros Hl Hnd Hj Hdates Hu Helem Hb.
  set (rows1 := map (date_indexed j) (rows df)).
  assert (Forall date_labelled rows1) as Hlab.
  { apply Forall_forall. intros r Hr.
    apply list_elem_of_In, in_map_iff in Hr as (r0 & <- & Hr0).
    rewrite Forall_forall in Hdates. apply list_elem_of_In in Hr0.
    unfold date_labelled, row_key, date_indexed. cbn [labels].
    by rewrite (Hdates r0 Hr0). }
  pose proof (sort_rows_labelled _ Hlab) as Hlab'.
  pose proof (sort_rows_sorted _ Hlab) as Hsorted.
  destruct (unique_sorted_dates _ (sorted_keys _ Hsorted)) as (u0 & Hu0 & Hsu0 & Helem0).
  assert (u0 = u) as ->.
  { apply strictly_sorted_dates_unique; [done..|].
    intros d. rewrite Helem0, Helem, sort_rows_perm. unfold rows1.
    rewrite map_map. 
    assert (map (fun x => row_key (date_indexed j x)) (rows df) =
            map (date_of j) (rows df)) as ->; [|done].
    apply map_ext. intros r. unfold row_key, date_indexed, date_of. cbn [labels].
    by destruct (cell_at j r). }
  rewrite <- (labels_of_date_labelled _ Hlab') in Hu0.
  eexists _, _, _. split.
  - eapply (take_first_half_run w l df j (date_label b)); [done..|].
    fold rows1. rewrite Hu0, length_map.
    change (map date_label u) with (date_label <$> u).
    by rewrite list_lookup_fmap, Hb.
  - cbn [heap]. rewrite lookup_insert_eq. split; [done|]. cbn [index_names columns rows].
    split; [done|]. split.
    + symmetry. apply delete_Permutation. by apply index_of_lookup.
    + fold rows1. unfold date_label. rewrite take_searchsorted_right by done.
      rewrite sort_rows_perm. unfold rows1. rewrite filter_map, map_map.
      cbn [labels cells date_indexed app].
      assert (∀ r, row_key (date_indexed j r) = date_of j r) as Hkey.
      { intros r. unfold row_key, date_indexed, date_of. cbn [labels].
        by destruct (cell_at j r). }
      erewrite (list_filter_iff _ (fun r => (date_of j r ≤ b)%Z)); [done|].
      intros r. by rewrite Hkey.
Qed.

Lemma take_first_half_keeps_first_half_witness :
  ∃ l' w' out,
    take_first_half 0 (mkWorld {[ 0 := six_rows ]} ∅) = (Ok l', w') ∧
    heap w' !! l' = Some out ∧
    index_names out = [] ∧
    columns out ≡ₚ columns six_rows ∧
    rows out ≡ₚ
      map (fun r => mkRow [] (cell_at 0 r :: delete 0 (cells r)))
        (filter (fun r => (date_of 0 r ≤ 2)%Z) (rows six_rows)).
Proof.
  apply (take_first_half_keeps_first_half (mkWorld {[ 0 := six_rows ]} ∅) 0 six_rows 0
           [1; 2; 3]%Z 2%Z).
  - reflexivity.
  - apply (bool_decide_unpack _). by vm_compute.
  - reflexivity.
  - by repeat constructor.
  - repeat constructor; lia.
  - intros d. cbn. rewrite !elem_of_cons, !elem_of_nil. intuition.
  - reflexivity.
Defined.
(** ** What the functions do to the table they are given *)

Lemma unique_head_lookup (l : list (list cell)) :
  l ≠ [] → is_Some (unique l !! (length (unique l) / 2)).
Proof.
  intros Hl. apply lookup_lt_is_Some_2.
  destruct l as [|x l]; [done|]. cbn [unique length].
  apply Nat.div_lt; lia.
Qed.

Lemma sort_rows_nonempty (l : list Row) : l ≠ [] → sort_rows l ≠ [].
Proof.
  intros Hl Hs. apply Hl. apply Permutation_nil_r. by rewrite <- Hs, sort_rows_perm.
Qed.

(** Neither function leaves the table it is given as it was: after
    [take_first_half] the table of six rows is indexed and sorted by date,
    after [unscale_output] the example row holds 12 and 1. *)
Lemma tables_are_changed_in_place :
  heap (take_first_half 0 (mkWorld {[ 0 := six_rows ]} ∅)).2 !! 0 ≠ Some six_rows ∧
  heap (unscale_output (fun x => x) 0 (array1 [2; 1]%float) (array1 [10; 0]%float) false
          (mkWorld {[ 0 := rescale_example ]} ∅)).2 !! 0 ≠ Some rescale_example.
Proof. split; vm_compute; intros [=]. Qed.

Section InPlace.
Variable np_exp : float → float.

(** C9, as the code has it. Both functions work on the table they are
    given. [take_first_half] leaves it indexed by date and sorted by date,
    with the rows it had, and returns the first half as a new table.
    [unscale_output] overwrites temp_c and discharge_cms in it and returns
    that same table. No other table and no file is touched. *)
Theorem functions_change_their_table_in_place :
  (∀ (w : World) (df : nat) (d : DataFrame) (j : nat),
      heap w !! df = Some d →
      NoDup (columns d) →
      index_of "date" (columns d) = Some j →
      rows d ≠ [] →
      ∃ df_first_half w',
        take_first_half df w = (Ok df_first_half, w') ∧
        heap w !! df_first_half = None ∧
        heap w' !! df = Some (sorted_by_date j d) ∧
        rows (sorted_by_date j d) ≡ₚ map (date_indexed j) (rows d) ∧
        (∀ l, l ≠ df → l ≠ df_first_half → heap w' !! l = heap w !! l) ∧
        files w' = files w) ∧
  (∀ (w : World) (y_scl : nat) (d : DataFrame) (jt jq : nat)
      (s_t s_q m_t m_q : float) (logged_q : bool),
      heap w !! y_scl = Some d →
      rectangular d →
      index_of "temp_c" (columns d) = Some jt →
      index_of "discharge_cms" (columns d) = Some jq →
      ∃ w',
        unscale_output np_exp y_scl (array1 [s_t; s_q]) (array1 [m_t; m_q]) logged_q w =
          (Ok y_scl, w') ∧
        heap w' !! y_scl =
          Some (mkDF (index_names d) (columns d)
                  (map (unscaled_row np_exp jt jq s_t s_q m_t m_q logged_q) (rows d))) ∧
        (∀ l, l ≠ y_scl → heap w' !! l = heap w !! l) ∧
        files w' = files w).
Proof.
  split.
  - intros w df d j Hdf Hnd Hj Hrows.
    destruct (unique_head_lookup (map labels (sort_rows (map (date_indexed j) (rows d)))))
      as [h Hh].
    { intros Hnil. apply map_eq_nil in Hnil.
      apply sort_rows_nonempty in Hnil; [done|].
      intros Hnil'. by apply map_eq_nil in Hnil'. }
    eexists _, _. split; [by apply (take_first_half_run w df d j h)|].
    cbn [heap files].
    set (l' := fresh (dom (<[df:=sorted_by_date j d]> (heap w)))).
    assert (l' ∉ dom (<[df:=sorted_by_date j d]> (heap w))) as Hfresh by apply is_fresh.
    rewrite dom_insert_L in Hfresh.
    assert (l' ≠ df) as Hne by set_solver.
    split; [apply not_elem_of_dom; set_solver|].
    split; [by rewrite lookup_insert_ne, lookup_insert_eq|].
    split; [apply sort_rows_perm|].
    split; [|done].
    intros l Hl Hl'. by rewrite !lookup_insert_ne.
  - intros w y_scl d jt jq s_t s_q m_t m_q logged_q Hl Hrect Ht Hq.
    eexists. split; [by apply unscale_output_run|].
    cbn [heap files]. split; [by rewrite lookup_insert_eq|].
    split; [|done]. intros l Hne. by rewrite lookup_insert_ne.
Qed.

End InPlace.

Lemma functions_change_their_table_in_place_witness :
  (∃ df_first_half w',
      take_first_half 0 (mkWorld {[ 0 := six_rows ]} ∅) = (Ok df_first_half, w') ∧
      heap w' !! 0 = Some (sorted_by_date 0 six_rows)) ∧
  (∃ w',
      unscale_output (fun x => x) 0 (array1 [2; 1]%float) (array1 [10; 0]%float) false
        (mkWorld {[ 0 := rescale_example ]} ∅) = (Ok 0, w') ∧
      heap w' !! 0 =
        Some (mkDF [] (columns rescale_example)
                [mkRow [] [Int 1; Int 7; Float 12; Float 1]])).
Proof.
  split.
  - destruct (proj1 (functions_change_their_table_in_place (fun x => x))
                (mkWorld {[ 0 := six_rows ]} ∅) 0 six_rows 0)
      as (l' & w' & Hrun & _ & Hdf & _); [reflexivity | | reflexivity | done |].
    + apply (bool_decide_unpack _). by vm_compute.
    + by exists l', w'.
  - destruct (proj2 (functions_change_their_table_in_place (fun x => x))
                (mkWorld {[ 0 := rescale_example ]} ∅) 0 rescale_example 2 3
                2%float 1%float 10%float 0%float false)
      as (w' & Hrun & Hdf & _); [reflexivity | by repeat constructor | reflexivity | reflexivity |].
    by exists w'.
Defined.
(** ** Predictions joined with observations *)

Lemma index_of_delete_other (name : string) (l : list string) (j k : nat) :
  index_of name l = Some k → j ≠ k →
  index_of name (delete j l) = Some (if decide (k < j) then k else k - 1).
Proof.
  revert j k. induction l as [|x l IH]; intros j k Hk Hj; [done|].
  cbn [index_of] in Hk. case_decide as Hx.
  - injection Hk as <-. destruct j as [|j]; [done|].
    change (delete (S j) (x :: l)) with (x :: delete j l).
    cbn [index_of]. rewrite decide_True by done.
    by rewrite decide_True by lia.
  - destruct (index_of name l) as [k'|] eqn:Hk'; [|done].
    injection Hk as <-. destruct j as [|j].
    + change (delete 0 (x :: l)) with l. rewrite Hk'. rewrite decide_False by lia. f_equal. lia.
    + change (delete (S j) (x :: l)) with (x :: delete j l).
      cbn [index_of]. rewrite decide_False by done.
      rewrite (IH j k' eq_refl) by lia.
      cbn [fmap option_fmap option_map].
      do 2 case_decide; try lia; f_equal; lia.
Qed.

Lemma lookup_delete_other {A} (l : list A) (j k : nat) :
  j ≠ k → delete j l !! (if decide (k < j) then k else k - 1) = l !! k.
Proof.
  intros Hne. case_decide.
  - by apply list_lookup_delete_lt.
  - rewrite list_lookup_delete_ge by lia. f_equal. lia.
Qed.

Lemma keyed_variable (df : DataFrame) (variable name : string) (jd js jv : nat) :
  index_of "date" (columns df) = Some jd →
  index_of "seg_id_nat" (columns df) = Some js →
  index_of variable (columns df) = Some jv →
  variable ≠ "date" → variable ≠ "seg_id_nat" →
  (d ← set_index ["date"; "seg_id_nat"] df;
   d ← getitems [variable] d;
   set_columns [name] d) = Ok (keyed jd js jv name df).
Proof.
  intros Hd Hs Hv Hvd Hvs.
  assert (jd ≠ js) as Hds.
  { intros ->. apply index_of_lookup in Hd, Hs. congruence. }
  assert (jd ≠ jv) as Hdv.
  { intros ->. apply index_of_lookup in Hd, Hv. congruence. }
  assert (js ≠ jv) as Hsv.
  { intros ->. apply index_of_lookup in Hs, Hv. congruence. }
  unfold set_index. cbn [move_to_index columns index_names rows app]. rewrite Hd.
  cbn [columns index_names rows app].
  rewrite (index_of_delete_other _ _ jd js Hs Hds).
  cbn [mbind result_bind columns index_names rows app].
  unfold getitems. cbn [positions columns].
  set (js' := if decide (js < jd) then js else js - 1).
  set (jv1 := if decide (jv < jd) then jv else jv - 1).
  assert (index_of variable (delete jd (columns df)) = Some jv1) as Hv1
    by by apply index_of_delete_other.
  assert (js' ≠ jv1) as Hne.
  { unfold js', jv1. do 2 case_decide; lia. }
  rewrite (index_of_delete_other _ _ js' jv1 Hv1 Hne).
  cbn [mbind result_bind]. unfold set_columns. cbn [columns]. rewrite decide_True by done.
  cbn [index_names rows]. unfold keyed. f_equal. f_equal.
  rewrite !map_map. apply map_ext. intros r.
  unfold key_of, cell_at. cbn [labels cells map app].
  unfold js' at 1. rewrite (lookup_delete_other (cells r) jd js Hds).
  rewrite (lookup_delete_other _ js' jv1 Hne).
  unfold jv1. by rewrite (lookup_delete_other (cells r) jd jv Hdv).
Qed.


Lemma join_row_shape (right : DataFrame) (l c : Row) :
  c ∈ join_row right l → ∃ tail, c = mkRow (labels l) (cells l ++ tail).
Proof.
  unfold join_row. destruct (List.filter _ _) as [|m ms].
  - intros ->%list_elem_of_singleton. eauto.
  - intros (r & <- & _)%list_elem_of_In%in_map_iff. eauto.
Qed.

Lemma join_row_head (right : DataFrame) (l : Row) :
  ∃ tail rest, join_row right l = mkRow (labels l) (cells l ++ tail) :: rest.
Proof.
  unfold join_row. destruct (List.filter _ _) as [|m ms]; cbn [map]; eauto.
Qed.





Lemma join_keyed (left right : DataFrame) (jd js jv kd ks kv : nat) :
  join (keyed jd js jv "pred" left) (keyed kd ks kv "obs" right) =
  Ok (mkDF ["date"; "seg_id_nat"] ["pred"; "obs"]
        (flat_map (join_row (keyed kd ks kv "obs" right))
           (rows (keyed jd js jv "pred" left)))).
Proof. reflexivity. Qed.

Lemma fmt_preds_obs_run (w : World) (pred_file obs_file variable : string)
    (P O : DataFrame) (jd js jv kd ks kv : nat) :
  files w !! pred_file = Some (Feather P) →
  files w !! obs_file = Some (Csv O) →
  variable ≠ "date" → variable ≠ "seg_id_nat" →
  index_of "date" (columns P) = Some jd →
  index_of "seg_id_nat" (columns P) = Some js →
  index_of variable (columns P) = Some jv →
  index_of "date" (columns O) = Some kd →
  index_of "seg_id_nat" (columns O) = Some ks →
  index_of variable (columns O) = Some kv →
  fmt_preds_obs pred_file obs_file variable w =
  (Ok (mkDF ["date"; "seg_id_nat"] ["pred"; "obs"]
         (flat_map (join_row (keyed kd ks kv "obs" O))
            (rows (keyed jd js jv "pred" P)))), w).
Proof.
  intros HP HO Hvd Hvs Hjd Hjs Hjv Hkd Hks Hkv.
  pose proof (keyed_variable P variable "pred" jd js jv Hjd Hjs Hjv Hvd Hvs) as HkP.
  pose proof (keyed_variable O variable "obs" kd ks kv Hkd Hks Hkv Hvd Hvs) as HkO.
  unfold fmt_preds_obs, read_feather, read_csv.
  rewrite !bind_run. unfold read_file at 1. rewrite HP. cbn [mret prog_ret].
  destruct (set_index ["date"; "seg_id_nat"] P) as [pd|] eqn:HpdE; [|done].
  cbn [mbind result_bind] in HkP.
  rewrite bind_run. unfold lift at 1.
  rewrite !bind_run. unfold read_file at 1. rewrite HO.
  destruct (set_index ["date"; "seg_id_nat"] O) as [od|] eqn:HodE; [|done].
  cbn [mbind result_bind] in HkO. cbn [mret prog_ret].
  destruct (getitems [variable] od) as [ov|] eqn:Hov; [|done].
  cbn [mbind result_bind] in HkO.
  rewrite bind_run. unfold lift at 1. rewrite bind_run. unfold lift at 1. rewrite HkO.
  destruct (getitems [variable] pd) as [pv|] eqn:Hpv; [|done].
  cbn [mbind result_bind] in HkP.
  rewrite bind_run. unfold lift at 1. rewrite bind_run. unfold lift at 1. rewrite HkP.
  rewrite bind_run. unfold lift at 1. by rewrite join_keyed.
Qed.



(** ** The metrics record *)

Lemma bind_lift_metric (df : DataFrame) (metric : list float → list float → result float) :
  columns df = ["pred"; "obs"] →
  (obs ← getitem "obs" df; pred ← getitem "pred" df; metric (values obs) (values pred)) =
  metric (obs_values df) (pred_values df).
Proof. intros Hc. unfold getitem. rewrite Hc. reflexivity. Qed.

Lemma obs_pred_length (df : DataFrame) : length (obs_values df) = length (pred_values df).
Proof. unfold obs_values, pred_values, values. by rewrite !length_map. Qed.

Section Metrics.
Variable py_str : float → string.

(** C7, as the code has it. For a predictions file and two observation
    files that have the columns asked for, the observation files with at
    least one row each, [calc_metrics] writes one JSON object that maps
    rmse_temp, rmse_flow, nse_temp and nse_flow to the strings [str] makes
    of the values [rmse_masked] and [nse] return on the joined temperature
    and discharge tables. (An observations file with a header and no rows
    is left out: its columns are read as objects, [np.isnan] raises
    TypeError on them and no record is written.) *)
Theorem calc_metrics_record (w : World)
    (pred_file obs_file_temp obs_file_flow outdir tag run_tag : string)
    (P Ot Of : DataFrame) (jd js jt jq td ts tt fd fs fq : nat) :
  files w !! pred_file = Some (Feather P) →
  files w !! obs_file_temp = Some (Csv Ot) →
  files w !! obs_file_flow = Some (Csv Of) →
  index_of "date" (columns P) = Some jd →
  index_of "seg_id_nat" (columns P) = Some js →
  index_of "temp_c" (columns P) = Some jt →
  index_of "discharge_cms" (columns P) = Some jq →
  index_of "date" (columns Ot) = Some td →
  index_of "seg_id_nat" (columns Ot) = Some ts →
  index_of "temp_c" (columns Ot) = Some tt →
  index_of "date" (columns Of) = Some fd →
  index_of "seg_id_nat" (columns Of) = Some fs →
  index_of "discharge_cms" (columns Of) = Some fq →
  rows Ot ≠ [] →
  rows Of ≠ [] →
  ∃ w' temp_data flow_data rmse_temp rmse_flow nse_temp nse_flow,
    fmt_preds_obs pred_file obs_file_temp "temp_c" w = (Ok temp_data, w) ∧
    fmt_preds_obs pred_file obs_file_flow "discharge_cms" w = (Ok flow_data, w) ∧
    rmse_masked (obs_values temp_data) (pred_values temp_data) = Ok rmse_temp ∧
    rmse_masked (obs_values flow_data) (pred_values flow_data) = Ok rmse_flow ∧
    nse (obs_values temp_data) (pred_values temp_data) = Ok nse_temp ∧
    nse (obs_values flow_data) (pred_values flow_data) = Ok nse_flow ∧
    calc_metrics py_str pred_file obs_file_temp obs_file_flow outdir tag run_tag w =
      (Ok (), w') ∧
    files w' !! (outdir +:+ tag +:+ "_metrics" +:+ run_tag +:+ ".json") =
      Some (JsonFile [("rmse_temp", JString (py_str rmse_temp));
                      ("rmse_flow", JString (py_str rmse_flow));
                      ("nse_temp", JString (py_str nse_temp));
                      ("nse_flow", JString (py_str nse_flow))]).
Proof.
  intros HP HOt HOf Hjd Hjs Hjt Hjq Htd Hts Htt Hfd Hfs Hfq _ _.
  pose proof (fmt_preds_obs_run w pred_file obs_file_temp "temp_c" P Ot jd js jt td ts tt
                HP HOt ltac:(done) ltac:(done) Hjd Hjs Hjt Htd Hts Htt) as Htemp.
  pose proof (fmt_preds_obs_run w pred_file obs_file_flow "discharge_cms" P Of jd js jq fd fs fq
                HP HOf ltac:(done) ltac:(done) Hjd Hjs Hjq Hfd Hfs Hfq) as Hflow.
  set (temp_data := mkDF _ _ _) in Htemp. set (flow_data := mkDF _ _ _) in Hflow.
  eexists _, temp_data, flow_data, _, _, _, _.
  split; [exact Htemp|]. split; [exact Hflow|].
  do 2 (split; [apply rmse_masked_same_length, obs_pred_length|]).
  do 2 (split; [apply nse_same_length, obs_pred_length|]).
  unfold calc_metrics.
  rewrite bind_run, Htemp, bind_run, Hflow.
  rewrite bind_run. unfold lift at 1.
  cbn [reset_index temp_data index_names columns List.find].
  rewrite !bool_decide_eq_false_2
    by (rewrite !elem_of_cons, elem_of_nil; intros [?|[?|[]]]; discriminate).
  rewrite bind_run. unfold to_feather. cbn [index_names]. unfold write_file at 1.
  rewrite !(bind_lift_metric temp_data _ eq_refl), !(bind_lift_metric flow_data _ eq_refl).
  rewrite !(rmse_masked_same_length _ _ (obs_pred_length _)).
  rewrite !(nse_same_length _ _ (obs_pred_length _)).
  rewrite !bind_run. unfold lift, write_file. cbn [heap files].
  split; [reflexivity|]. cbn [files]. apply lookup_insert_eq.
Qed.
End Metrics.

(** Whatever [str] does and whatever the numbers are, the record written
    for the example files does not hold numbers. *)
Lemma metrics_record_holds_strings :
  ¬ ∃ (py_str : float → string) (rmse_temp rmse_flow nse_temp nse_flow : float),
      files (calc_metrics py_str "preds.feather" "obs_temp.csv" "obs_flow.csv"
               "out/" "tst" "" metrics_world).2 !! "out/tst_metrics.json" =
      Some (JsonFile [("rmse_temp", JNumber rmse_temp); ("rmse_flow", JNumber rmse_flow);
                      ("nse_temp", JNumber nse_temp); ("nse_flow", JNumber nse_flow)]).
Proof.
  intros (py_str & rmse_temp & rmse_flow & nse_temp & nse_flow & H).
  vm_compute in H. discriminate H.
Qed.

Lemma calc_metrics_record_witness :
  ∃ w' rmse_temp rmse_flow nse_temp nse_flow,
    calc_metrics (fun _ => "0.5") "preds.feather" "obs_temp.csv" "obs_flow.csv"
      "out/" "tst" "" metrics_world = (Ok (), w') ∧
    files w' !! "out/tst_metrics.json" =
      Some (JsonFile [("rmse_temp", JString rmse_temp); ("rmse_flow", JString rmse_flow);
                      ("nse_temp", JString nse_temp); ("nse_flow", JString nse_flow)]).
Proof.
  destruct (calc_metrics_record (fun _ => "0.5") metrics_world
              "preds.feather" "obs_temp.csv" "obs_flow.csv" "out/" "tst" ""
              _ _ _ 0 1 2 3 0 1 2 0 1 2
              eq_refl eq_refl eq_refl eq_refl eq_refl eq_refl eq_refl eq_refl eq_refl
              eq_refl eq_refl eq_refl eq_refl)
    as (w' & td & fd & r1 & r2 & n1 & n2 & _ & _ & _ & _ & _ & _ & Hrun & Hfile);
    [by vm_compute | by vm_compute |].
  exists w', "0.5", "0.5", "0.5", "0.5". split; [exact Hrun | exact Hfile].
Defined.

(** ** The tag check of [predict] *)

Ltac other_error :=
  unfold no_tag_error;
  first [ discriminate
        | let H := fresh in intros [= H]; vm_compute in H; discriminate H ].

Lemma no_tag_error_bind {A B} (r : result A) (k : A → result B) :
  no_tag_error r → (∀ a, no_tag_error (k a)) → no_tag_error (r ≫= k).
Proof.
  intros Hr Hk. destruct r as [a|e]; [apply Hk|].
  intros [= ->]. by apply Hr.
Qed.

Lemma runs_bind {A B} (m : prog A) (k : A → prog B) :
  runs_without_tag_error m → (∀ a, runs_without_tag_error (k a)) →
  runs_without_tag_error (m ≫= k).
Proof.
  intros Hm Hk w. rewrite bind_run. specialize (Hm w).
  destruct (m w) as [[a|e] w']; [apply Hk|].
  cbn [fst] in *. intros [= ->]. by apply Hm.
Qed.

Lemma runs_mret {A} (a : A) : runs_without_tag_error (mret a).
Proof. intros w. other_error. Qed.

Lemma runs_lift {A} (r : result A) : no_tag_error r → runs_without_tag_error (lift r).
Proof. intros Hr w. exact Hr. Qed.

Lemma runs_deref (l : nat) : runs_without_tag_error (deref l).
Proof. intros w. unfold deref. destruct (heap w !! l); other_error. Qed.

Lemma runs_alloc (df : DataFrame) : runs_without_tag_error (alloc df).
Proof. intros w. other_error. Qed.

Lemma runs_inplace (l : nat) (f : DataFrame → result DataFrame) :
  (∀ d, no_tag_error (f d)) → runs_without_tag_error (inplace l f).
Proof.
  intros Hf. unfold inplace. apply runs_bind; [apply runs_deref|]. intros d.
  apply runs_bind; [by apply runs_lift|]. intros d' w. other_error.
Qed.

Lemma runs_io_get (io_data : gmap string ndarray) (key : string) :
  runs_without_tag_error (io_get io_data key).
Proof. intros w. unfold io_get. destruct (io_data !! key); other_error. Qed.

Lemma runs_to_feather (df : DataFrame) (path : string) :
  runs_without_tag_error (to_feather df path).
Proof. intros w. unfold to_feather. destruct (index_names df); other_error. Qed.

Lemma shape_at_no_tag_error (k : nat) (a : ndarray) : no_tag_error (shape_at k a).
Proof. unfold shape_at. destruct (shape a !! k); other_error. Qed.

Lemma reshape_no_tag_error (a : ndarray) :
  no_tag_error (s0 ← shape_at 0 a; s1 ← shape_at 1 a; s2 ← shape_at 2 a;
                reshape2 a (s0 * s1) s2).
Proof.
  repeat (apply no_tag_error_bind; [apply shape_at_no_tag_error|]; intros ?).
  unfold reshape2. case_decide; other_error.
Qed.

Lemma DataFrame_of_array_no_tag_error (a : ndarray) (names : list string) :
  no_tag_error (DataFrame_of_array a names).
Proof.
  unfold DataFrame_of_array. destruct (shape a) as [|n [|m [|]]]; try other_error.
  case_decide; other_error.
Qed.

Lemma move_to_index_no_tag_error (names : list string) (df : DataFrame) :
  no_tag_error (move_to_index names df).
Proof.
  revert df. induction names as [|n ns IH]; intros df; cbn [move_to_index]; [other_error|].
  destruct (index_of n (columns df)); [apply IH | other_error].
Qed.

Lemma positions_no_tag_error (names cols : list string) :
  no_tag_error (positions names cols).
Proof.
  induction names as [|n ns IH]; cbn [positions]; [other_error|].
  destruct (index_of n cols); [|other_error].
  apply no_tag_error_bind; [done|]. intros; other_error.
Qed.

Lemma getitems_no_tag_error (names : list string) (df : DataFrame) :
  no_tag_error (getitems names df).
Proof.
  unfold getitems. apply no_tag_error_bind; [apply positions_no_tag_error|].
  intros; other_error.
Qed.

Lemma frame_op_no_tag_error (f : float → float → float) (df : DataFrame) (a : ndarray) :
  no_tag_error (frame_op f df a).
Proof. unfold frame_op. case_decide; other_error. Qed.

Lemma setitem_no_tag_error (name : string) (s : list cell) (df : DataFrame) :
  no_tag_error (setitem name s df).
Proof.
  unfold setitem. case_decide; [|other_error].
  destruct (index_of name (columns df)); other_error.
Qed.

Lemma setitems_from_no_tag_error (k : nat) (names : list string) (src df : DataFrame) :
  no_tag_error (setitems_from k names src df).
Proof.
  revert k df. induction names as [|n ns IH]; intros k df; cbn [setitems_from];
    [other_error|].
  apply no_tag_error_bind; [apply setitem_no_tag_error|]. intros; apply IH.
Qed.

Lemma setitems_no_tag_error (names : list string) (src df : DataFrame) :
  no_tag_error (setitems names src df).
Proof.
  unfold setitems. case_decide; [apply setitems_from_no_tag_error | other_error].
Qed.

Lemma getitem_no_tag_error (name : string) (df : DataFrame) :
  no_tag_error (getitem name df).
Proof. unfold getitem. destruct (index_of name (columns df)); other_error. Qed.

Lemma reset_index_no_tag_error (df : DataFrame) : no_tag_error (reset_index df).
Proof.
  unfold reset_index. destruct (index_names df) as [|n ns].
  - case_decide; other_error.
  - destruct (List.find _ _); other_error.
Qed.

Lemma post_process_runs (y_pred dates ids : ndarray) :
  runs_without_tag_error (post_process y_pred dates ids).
Proof.
  unfold post_process.
  do 3 (apply runs_bind; [apply runs_lift, reshape_no_tag_error|]; intros ?).
  do 3 (apply runs_bind; [apply runs_lift, DataFrame_of_array_no_tag_error|]; intros ?).
  apply runs_alloc.
Qed.

Lemma take_first_half_runs (df : nat) : runs_without_tag_error (take_first_half df).
Proof.
  unfold take_first_half.
  apply runs_bind; [apply runs_inplace; intros; apply move_to_index_no_tag_error|]. intros _.
  apply runs_bind; [apply runs_inplace; intros; other_error|]. intros _.
  apply runs_bind; [apply runs_deref|]. intros d.
  apply runs_bind.
  { destruct (_ !! _); [apply runs_mret|]. intros w. other_error. }
  intros h. apply runs_bind; [apply runs_alloc|]. intros l.
  apply runs_bind; [apply runs_inplace, reset_index_no_tag_error|]. intros _.
  apply runs_mret.
Qed.

Section Predict.
Variable np_exp : float → float.
Variable trained_model_predict : ndarray → nat → ndarray.

Lemma unscale_output_runs (y_scl : nat) (y_std y_mean : ndarray) (logged_q : bool) :
  runs_without_tag_error (unscale_output np_exp y_scl y_std y_mean logged_q).
Proof.
  unfold unscale_output. cbv zeta.
  apply runs_bind; [apply runs_deref|]. intros d.
  apply runs_bind; [apply runs_lift, getitems_no_tag_error|]. intros yscl_data.
  apply runs_bind.
  { apply runs_lift, no_tag_error_bind; intros; apply frame_op_no_tag_error. }
  intros y_unscaled_data.
  apply runs_bind; [apply runs_inplace; intros; apply setitems_no_tag_error|]. intros _.
  apply runs_bind; [|intros; apply runs_mret].
  destruct logged_q; [|apply runs_mret].
  apply runs_bind; [apply runs_deref|]. intros d'.
  apply runs_bind; [apply runs_lift, getitem_no_tag_error|]. intros q.
  apply runs_inplace. intros; apply setitem_no_tag_error.
Qed.

(** C8. With a tag other than trn and tst, [predict] raises the ValueError
    of the tag check and leaves the state as it was: nothing is predicted,
    no table is made and no file is written. With trn or tst that error is
    not raised. *)
Theorem predict_checks_tag_first (io_data : gmap string ndarray) (half_tst : bool)
    (tag outdir run_tag : string) (logged_q : bool) (w : World) :
  (tag ≠ "trn" → tag ≠ "tst" →
   predict np_exp trained_model_predict io_data half_tst tag outdir run_tag logged_q w =
   (Raise (ValueError tag_error_msg), w)) ∧
  (tag = "trn" ∨ tag = "tst" →
   (predict np_exp trained_model_predict io_data half_tst tag outdir run_tag logged_q w).1 ≠
   Raise (ValueError tag_error_msg)).
Proof.
  split.
  - intros Htrn Htst. unfold predict. rewrite bind_run.
    by rewrite decide_False by (intros [?|?]; done).
  - intros Htag. revert w. change (runs_without_tag_error
      (predict np_exp trained_model_predict io_data half_tst tag outdir run_tag logged_q)).
    unfold predict. rewrite decide_True by done.
    apply runs_bind; [apply runs_mret|]. intros _.
    apply runs_bind; [apply runs_io_get|]. intros dist_matrix.
    apply runs_bind; [apply runs_lift, shape_at_no_tag_error|]. intros num_segs.
    apply runs_bind; [apply runs_io_get|]. intros x.
    apply runs_bind; [apply runs_io_get|]. intros dates.
    apply runs_bind; [apply runs_io_get|]. intros ids.
    apply runs_bind; [apply post_process_runs|]. intros y_pred_pp.
    apply runs_bind; [apply runs_io_get|]. intros y_std.
    apply runs_bind; [apply runs_io_get|]. intros y_mean.
    apply runs_bind; [apply unscale_output_runs|]. intros y_pred_pp'.
    apply runs_bind.
    { destruct (half_tst && _); [apply take_first_half_runs | apply runs_mret]. }
    intros y_pred_pp''.
    apply runs_bind; [apply runs_deref|]. intros d.
    apply runs_to_feather.
Qed.

End Predict.

Lemma predict_checks_tag_first_witness :
  predict (fun x => x) example_model example_io_data true "dev" "out/" "" false
    (mkWorld ∅ ∅) = (Raise (ValueError tag_error_msg), mkWorld ∅ ∅) ∧
  (predict (fun x => x) example_model example_io_data true "tst" "out/" "" false
     (mkWorld ∅ ∅)).1 ≠ Raise (ValueError tag_error_msg).
Proof.
  split.
  - by apply (proj1 (predict_checks_tag_first (fun x => x) example_model example_io_data
                       true "dev" "out/" "" false (mkWorld ∅ ∅))).
  - apply (proj2 (predict_checks_tag_first (fun x => x) example_model example_io_data
                    true "tst" "out/" "" false (mkWorld ∅ ∅))). by right.
Defined.

(** The run on the test period goes through and writes the first half of
    the predictions. *)
Example predict_example :
  ∃ w', predict (fun x => x) example_model example_io_data true "tst" "out/" "" false
          (mkWorld ∅ ∅) = (Ok (), w') ∧
        files w' !! "out/tst_preds.feather" =
        Some (Feather (mkDF [] ["date"; "seg_id_nat"; "temp_c"; "discharge_cms"]
                         [mkRow [] [Int 1; Int 7; Float 12; Float 1];
                          mkRow [] [Int 1; Int 8; Float 18; Float 4];
                          mkRow [] [Int 2; Int 7; Float 14; Float 2];
                          mkRow [] [Int 2; Int 8; Float 20; Float 5]])).
Proof. eexists. split; by vm_compute. Qed.

(** * Further properties of the code *)

(** ** Signs in binary64 *)

Module Binary64Sign.

Lemma binary_round_aux_sign (sx : bool) (mx ex : Z) (lx : location) :
  (0 ≤ mx)%Z →
  match binary_round_aux prec emax sx mx ex lx with
  | S754_zero s | S754_infinity s | S754_finite s _ _ => s = sx
  | S754_nan => False
  end.
Proof.
  intros Hm. unfold binary_round_aux.
  pose proof (Binary64.shr_fexp_nonneg mx ex lx Hm) as H1.
  destruct (shr_fexp prec emax mx ex lx) as [mrs' e'].
  cbn [fst] in H1.
  pose proof (Binary64.shr_fexp_nonneg _ e' loc_Exact
                (Binary64.round_nearest_even_nonneg _ (loc_of_shr_record mrs') H1)) as H2.
  destruct (shr_fexp prec emax _ e' loc_Exact) as [mrs'' e''].
  cbn [fst] in H2.
  destruct (shr_m mrs'') as [|m|m]; [done| |lia].
  by destruct (e'' <=? emax - prec)%Z.
Qed.

Lemma binary_normalize_pos_sign (m : positive) (e : Z) (s : bool) :
  match binary_normalize prec emax (Z.pos m) e s with
  | S754_zero s' | S754_infinity s' | S754_finite s' _ _ => s' = false
  | S754_nan => False
  end.
Proof.
  unfold binary_normalize, binary_round. destruct (shl_align _ _ _).
  by apply binary_round_aux_sign.
Qed.

Lemma square_not_negative (x : float) : not_negative (x * x).
Proof.
  unfold not_negative. rewrite FloatAxioms.mul_spec. unfold SF64mul, SFmul.
  destruct (Prim2SF x) as [sx|sx| |sx mx ex]; cbn; try done; try by destruct sx.
  pose proof (binary_round_aux_sign (xorb sx sx) (Z.pos (mx * mx)) (ex + ex) loc_Exact
                ltac:(lia)) as H.
  destruct (binary_round_aux _ _ _ _ _ _); try done; subst; by destruct sx.
Qed.

Lemma add_not_negative (x y : float) :
  not_negative x → not_negative y → not_negative (x + y).
Proof.
  unfold not_negative. rewrite FloatAxioms.add_spec. unfold SF64add, SFadd.
  destruct (Prim2SF x) as [sx|sx| |sx mx ex], (Prim2SF y) as [sy|sy| |sy my ey];
    cbn; try done; try (by destruct sx, sy).
  destruct sx, sy; try done. intros _ _. cbn [cond_Zopp].
  pose proof (binary_normalize_pos_sign
                ((shl_align mx ex (Z.min ex ey)).1 + (shl_align my ey (Z.min ex ey)).1)
                (Z.min ex ey) false) as H.
  change (Z.pos (shl_align mx ex (Z.min ex ey)).1 + Z.pos (shl_align my ey (Z.min ex ey)).1)%Z
    with (Z.pos ((shl_align mx ex (Z.min ex ey)).1 + (shl_align my ey (Z.min ex ey)).1)).
  destruct (binary_normalize _ _ _ _ _); try done; by subst.
Qed.

Lemma add_number (x y : float) :
  not_negative x → not_negative y →
  PrimFloat.is_nan x = false → PrimFloat.is_nan y = false →
  PrimFloat.is_nan (x + y) = false.
Proof.
  unfold not_negative. rewrite !Binary64.is_nan_spec, FloatAxioms.add_spec.
  unfold SF64add, SFadd.
  destruct (Prim2SF x) as [sx|sx| |sx mx ex], (Prim2SF y) as [sy|sy| |sy my ey];
    cbn; try done; try (by destruct sx, sy).
  intros _ _ _ _.
  pose proof (Binary64.binary_normalize_not_nan
    (cond_Zopp sx (Z.pos (shl_align mx ex (Z.min ex ey)).1) +
     cond_Zopp sy (Z.pos (shl_align my ey (Z.min ex ey)).1)) (Z.min ex ey) false) as H.
  by destruct (binary_normalize _ _ _ _ _).
Qed.

Lemma fold_add_not_negative (l : list float) (acc : float) :
  Forall not_negative l → not_negative acc → not_negative (fold_left PrimFloat.add l acc).
Proof.
  intros Hl. revert acc. induction Hl as [|x l Hx Hl IH]; intros acc Hacc; [done|].
  cbn [fold_left]. apply IH. by apply add_not_negative.
Qed.

Lemma fold_add_number (l : list float) (acc : float) :
  Forall (fun x => not_negative x ∧ PrimFloat.is_nan x = false) l →
  not_negative acc → PrimFloat.is_nan acc = false →
  PrimFloat.is_nan (fold_left PrimFloat.add l acc) = false.
Proof.
  intros Hl. revert acc. induction Hl as [|x l [Hx Hn] Hl IH]; intros acc Hacc Hnan; [done|].
  cbn [fold_left]. apply IH; [by apply add_not_negative | by apply add_number].
Qed.

(** x - x = +0 for every finite x. *)
Lemma sub_diag (x : float) : PrimFloat.is_finite x = true → (x - x)%float = 0%float.
Proof.
  rewrite Binary64.is_finite_spec. intros Hx. apply Prim2SF_inj.
  rewrite FloatAxioms.sub_spec. change (Prim2SF 0) with (S754_zero false).
  unfold SF64sub, SFsub.
  destruct (Prim2SF x) as [[]|[]| |sx mx ex]; try done.
  cbv zeta. by rewrite Z.sub_diag.
Qed.

(** +0 divided by a positive finite number is +0. *)
Lemma zero_div (y : float) (m : positive) (e : Z) :
  Prim2SF y = S754_finite false m e → (0 / y)%float = 0%float.
Proof.
  intros Hy. apply Prim2SF_inj. rewrite FloatAxioms.div_spec, Hy. reflexivity.
Qed.

Lemma div_sign (x y : float) (m : positive) (e : Z) :
  not_negative x → Prim2SF y = S754_finite false m e → not_negative (x / y).
Proof.
  unfold not_negative. rewrite FloatAxioms.div_spec. intros Hx ->. unfold SF64div, SFdiv.
  destruct (Prim2SF x) as [sx|sx| |sx mx ex]; cbn in *; try done; try by destruct sx.
  pose proof (Binary64.SFdiv_core_binary_nonneg mx m ex e) as Hq.
  destruct (SFdiv_core_binary prec emax (Z.pos mx) ex (Z.pos m) e) as [[mz ez] lz].
  cbn [fst] in Hq.
  pose proof (binary_round_aux_sign (xorb sx false) mz ez lz Hq) as H.
  destruct (binary_round_aux _ _ _ _ _ _); try done; subst; by destruct sx.
Qed.

Lemma SFsqrt_core_binary_nonneg (m : positive) (e : Z) :
  (0 ≤ (SFsqrt_core_binary prec emax (Z.pos m) e).1.1)%Z.
Proof.
  unfold SFsqrt_core_binary.
  set (e' := Z.min _ _).
  set (s := (e - 2 * e')%Z).
  set (m' := match s with Z.pos _ => Z.shiftl (Z.pos m) s | 0%Z => Z.pos m | Z.neg _ => 0%Z end).
  assert (0 ≤ m')%Z as Hm'.
  { unfold m'. destruct s; [lia| |lia]. by apply Z.shiftl_nonneg. }
  pose proof (Z.sqrtrem_spec m' Hm') as Hq.
  destruct (Z.sqrtrem m') as [q r]. cbn [fst]. lia.
Qed.

(** The square root is never below zero. *)
Lemma sqrt_sign (x : float) :
  not_negative x → PrimFloat.is_nan x = false →
  not_negative (PrimFloat.sqrt x) ∧ PrimFloat.is_nan (PrimFloat.sqrt x) = false.
Proof.
  unfold not_negative. rewrite !Binary64.is_nan_spec, FloatAxioms.sqrt_spec.
  unfold SF64sqrt, SFsqrt.
  destruct (Prim2SF x) as [sx|sx| |sx mx ex]; cbn; try done; try by destruct sx.
  destruct sx; [done|]. intros _ _.
  pose proof (SFsqrt_core_binary_nonneg mx ex) as Hq.
  destruct (SFsqrt_core_binary prec emax (Z.pos mx) ex) as [[mz ez] lz].
  cbn [fst] in Hq.
  pose proof (binary_round_aux_sign false mz ez lz Hq) as H.
  destruct (binary_round_aux _ _ _ _ _ _); try done; by subst.
Qed.

Lemma leb_zero (x : float) :
  not_negative x → PrimFloat.is_nan x = false → (0 <=? x)%float = true.
Proof.
  unfold not_negative. rewrite Binary64.is_nan_spec, FloatAxioms.leb_spec.
  change (Prim2SF 0) with (S754_zero false). unfold SFleb, SFcompare.
  by destruct (Prim2SF x) as [[]|[]| |[] mx ex].
Qed.

End Binary64Sign.

(** ** The metrics at the edges of their domain *)

Lemma sum_zeros (l : list float) : Forall (fun x => x = 0%float) l → np.sum l = 0%float.
Proof.
  unfold np.sum. induction 1 as [|x l -> Hl IH]; [done|]. exact IH.
Qed.

Lemma nansum_zeros (l : list float) :
  Forall (fun x => PrimFloat.is_nan x = true ∨ x = 0%float) l → np.nansum l = 0%float.
Proof.
  intros Hl. unfold np.nansum. apply sum_zeros.
  induction Hl as [|x l Hx Hl IH]; [done|]. cbn [map]. constructor; [|done].
  destruct Hx as [->| ->]; done.
Qed.

(** X1. Arrays of different lengths, neither of length one, cannot be
    broadcast: [rmse_masked] and [nse] both raise ValueError. *)
Theorem metrics_reject_unequal_lengths (y_true y_pred : list float) :
  length y_true ≠ length y_pred → length y_true ≠ 1 → length y_pred ≠ 1 →
  (∃ msg, rmse_masked y_true y_pred = Raise (ValueError msg)) ∧
  (∃ msg, nse y_true y_pred = Raise (ValueError msg)).
Proof.
  intros Hne Ht Hp.
  unfold rmse_masked, nse, np.subtract, np.broadcast2.
  rewrite !decide_False by congruence.
  destruct y_true as [|o [|o' y_true]], y_pred as [|p [|p' y_pred]]; try done;
    split; eexists; reflexivity.
Qed.

Lemma metrics_reject_unequal_lengths_witness :
  (∃ msg, rmse_masked [1; 2; 3]%float [1; 2]%float = Raise (ValueError msg)) ∧
  (∃ msg, nse [1; 2; 3]%float [1; 2]%float = Raise (ValueError msg)).
Proof. apply metrics_reject_unequal_lengths; cbn; lia. Defined.

Lemma spec_count_none (y_true : list float) :
  Forall (fun o => PrimFloat.is_nan o = true) y_true → spec_count y_true = 0.
Proof.
  intros H. unfold spec_count. rewrite filter_none; [done|].
  eapply Forall_impl; [exact H|]. intros o Ho. cbn. congruence.
Qed.

(** X2. When no observation is present (every entry of y_true is NaN, or
    the arrays are empty) both metrics are NaN, whatever is predicted: no
    error is raised for the division of zero by zero. *)
Theorem metrics_without_observation (y_true y_pred : list float) :
  length y_true = length y_pred →
  Forall (fun o => PrimFloat.is_nan o = true) y_true →
  rmse_masked y_true y_pred = Ok nan ∧ nse y_true y_pred = Ok nan.
Proof.
  intros Hlen Hnan. split.
  - rewrite rmse_masked_same_length by done. unfold spec_rmse.
    rewrite spec_count_none by done. rewrite sum_zeros; [done|].
    clear Hlen. revert y_pred. induction Hnan as [|o y_true Ho Hnan IH]; intros [|p y_pred];
      cbn [zip_with]; constructor; [|apply IH].
    unfold spec_squared_error. by rewrite Ho.
  - rewrite nse_same_length by done.
    rewrite (nansum_zeros (np.square (zip_with _ _ _))).
    2:{ clear Hlen. revert y_pred.
        induction Hnan as [|o y_true Ho Hnan IH]; intros [|p y_pred];
          cbn [zip_with np.square map]; constructor; [|apply IH].
        left. rewrite Binary64.square_nan. by apply Binary64.sub_nan_l. }
    rewrite (nansum_zeros (np.square (map _ _))); [done|].
    generalize (np.nanmean y_true). intros q. clear Hlen.
    induction Hnan as [|o y_true Ho Hnan IH]; cbn [np.square map]; constructor; [|apply IH].
    left. rewrite Binary64.square_nan. by apply Binary64.sub_nan_l.
Qed.

Lemma metrics_without_observation_witness :
  rmse_masked [nan; nan]%float [1; 2]%float = Ok nan ∧
  nse [nan; nan]%float [1; 2]%float = Ok nan.
Proof. apply metrics_without_observation; [reflexivity | by repeat constructor]. Defined.

(** The squared error of a perfect prediction. *)
Lemma perfect_squared_errors (y_true y_pred : list float) :
  Forall2 (fun o p => PrimFloat.is_nan o = true ∨ PrimFloat.is_finite o = true ∧ p = o)
    y_true y_pred →
  Forall (fun x => x = 0%float) (zip_with spec_squared_error y_true y_pred).
Proof.
  induction 1 as [|o p y_true y_pred Hop H IH]; cbn [zip_with]; constructor; [|done].
  unfold spec_squared_error. destruct (PrimFloat.is_nan o) eqn:Ho; [done|].
  destruct Hop as [?|[Hfin ->]]; [congruence|].
  by rewrite Binary64Sign.sub_diag.
Qed.

(** X3. A prediction equal to the observation wherever one is present has
    a masked RMSE of exactly zero, provided some observation is present and
    the observations are finite. *)
Theorem rmse_masked_perfect_prediction (y_true y_pred : list float) :
  Forall2 (fun o p => PrimFloat.is_nan o = true ∨ PrimFloat.is_finite o = true ∧ p = o)
    y_true y_pred →
  0 < spec_count y_true →
  (Z.of_nat (length y_true) < 2 ^ 63)%Z →
  rmse_masked y_true y_pred = Ok 0%float.
Proof.
  intros Hperfect Hpos Hsize.
  rewrite rmse_masked_same_length by by eapply Forall2_length.
  unfold spec_rmse. rewrite sum_zeros by by apply perfect_squared_errors.
  destruct (Binary64.count_to_float_finite (spec_count y_true) Hpos) as (m & e & Hfin).
  { pose proof (spec_count_le y_true). lia. }
  unfold np.float64. by rewrite (Binary64Sign.zero_div _ m e Hfin).
Qed.

Lemma rmse_masked_perfect_prediction_witness :
  rmse_masked [1; nan; 3]%float [1; 5; 3]%float = Ok 0%float.
Proof.
  apply rmse_masked_perfect_prediction.
  - repeat constructor; by (left + (right; split)).
  - vm_compute. lia.
  - by vm_compute.
Defined.

Lemma perfect_ratio (d : float) :
  not_negative d → PrimFloat.is_nan d = false →
  (1 - 0 / d)%float = if (d =? 0)%float then nan else 1%float.
Proof.
  unfold not_negative. rewrite Binary64.is_nan_spec, FloatAxioms.eqb_spec.
  intros Hd Hnan.
  change (Prim2SF 0) with (S754_zero false).
  assert (Prim2SF (0 / d) = SFdiv prec emax (S754_zero false) (Prim2SF d)) as Hq
    by by rewrite FloatAxioms.div_spec.
  destruct (Prim2SF d) as [[]|[]| |[] md ed] eqn:Hd'; try done; cbn in Hq |- *;
    apply Prim2SF_inj; rewrite FloatAxioms.sub_spec, Hq; reflexivity.
Qed.

Lemma squares_not_negative (l : list float) :
  Forall (fun x => not_negative x ∧ PrimFloat.is_nan x = false)
    (map (fun x => if PrimFloat.is_nan x then 0%float else x) (np.square l)).
Proof.
  induction l as [|x l IH]; cbn [np.square map]; constructor; [|exact IH].
  destruct (PrimFloat.is_nan (x * x)) eqn:Hnan; [done|].
  split; [apply Binary64Sign.square_not_negative | done].
Qed.

Lemma nansum_squares (l : list float) :
  not_negative (np.nansum (np.square l)) ∧
  PrimFloat.is_nan (np.nansum (np.square l)) = false.
Proof.
  pose proof (squares_not_negative l) as H. unfold np.nansum, np.sum. split.
  - apply Binary64Sign.fold_add_not_negative; [|done].
    eapply Forall_impl; [exact H|]. by intros x [? _].
  - by apply Binary64Sign.fold_add_number.
Qed.

(** X4. A prediction equal to the observation wherever one is present has
    an NSE of exactly one, unless the denominator, the sum of the squared
    deviations of the observations from their mean, is zero: then the NSE is
    NaN. *)
Theorem nse_perfect_prediction (y_true y_pred : list float) :
  Forall2 (fun o p => PrimFloat.is_nan o = true ∨ PrimFloat.is_finite o = true ∧ p = o)
    y_true y_pred →
  nse y_true y_pred =
  Ok (if (np.nansum (np.square (map (fun y => (y - np.nanmean y_true)%float) y_true)) =? 0)%float
      then nan else 1%float).
Proof.
  intros Hperfect.
  rewrite nse_same_length by by eapply Forall2_length.
  rewrite (nansum_zeros (np.square (zip_with _ _ _))).
  2:{ induction Hperfect as [|o p y_true y_pred Hop H IH]; cbn [zip_with np.square map];
        constructor; [|done].
      destruct Hop as [Ho|[Hfin ->]].
      - left. rewrite Binary64.square_nan. by apply Binary64.sub_nan_l.
      - right. by rewrite Binary64Sign.sub_diag. }
  f_equal. apply perfect_ratio; apply nansum_squares.
Qed.

Lemma nse_perfect_prediction_witness :
  nse [1; nan; 3]%float [1; 5; 3]%float = Ok 1%float ∧
  nse [2; nan; 2]%float [2; 5; 2]%float = Ok nan.
Proof.
  split.
  - apply (nse_perfect_prediction [1; nan; 3]%float [1; 5; 3]%float).
    repeat constructor; by (left + (right; split)).
  - apply (nse_perfect_prediction [2; nan; 2]%float [2; 5; 2]%float).
    repeat constructor; by (left + (right; split)).
Defined.

Lemma squared_error_not_negative (o p : float) : not_negative (spec_squared_error o p).
Proof.
  unfold spec_squared_error. destruct (PrimFloat.is_nan o); [done|].
  apply Binary64Sign.square_not_negative.
Qed.

(** X5. For finite observations and finite predictions where an
    observation is present, with at least one observation present, the
    masked RMSE is a number that is not below zero: it is not NaN and not
    negative (it is plus infinity when the squares overflow). *)
Theorem rmse_masked_not_negative (y_true y_pred : list float) :
  Forall2 (fun o p => PrimFloat.is_nan o = true ∨
                      PrimFloat.is_finite o = true ∧ PrimFloat.is_finite p = true)
    y_true y_pred →
  0 < spec_count y_true →
  (Z.of_nat (length y_true) < 2 ^ 63)%Z →
  ∃ r, rmse_masked y_true y_pred = Ok r ∧ (0 <=? r)%float = true.
Proof.
  intros Hfin Hpos Hsize. eexists.
  split; [apply rmse_masked_same_length; by eapply Forall2_length|].
  unfold spec_rmse.
  destruct (Binary64.count_to_float_finite (spec_count y_true) Hpos) as (m & e & Hn).
  { pose proof (spec_count_le y_true). lia. }
  assert (Forall (fun x => not_negative x ∧ PrimFloat.is_nan x = false)
            (zip_with spec_squared_error y_true y_pred)) as Hterms.
  { clear Hpos Hsize m e Hn.
    induction Hfin as [|o p y_true y_pred Hop H IH]; cbn [zip_with]; constructor; [|done].
    split; [apply squared_error_not_negative|].
    unfold spec_squared_error. destruct (PrimFloat.is_nan o) eqn:Ho; [done|].
    destruct Hop as [?|[Hfo Hfp]]; [congruence|].
    rewrite Binary64.square_nan. by apply Binary64.sub_not_nan. }
  assert (not_negative (np.sum (zip_with spec_squared_error y_true y_pred))) as Hsum.
  { apply Binary64Sign.fold_add_not_negative; [|done].
    eapply Forall_impl; [exact Hterms|]. by intros x [? _]. }
  assert (PrimFloat.is_nan (np.sum (zip_with spec_squared_error y_true y_pred)) = false)
    as Hsum' by by apply Binary64Sign.fold_add_number.
  destruct (Binary64Sign.sqrt_sign
              (np.sum (zip_with spec_squared_error y_true y_pred) /
               np.float64 (spec_count y_true))) as [Hs Hn'].
  - by apply (Binary64Sign.div_sign _ _ m e).
  - by apply (Binary64.div_finite_not_nan _ _ m e).
  - by apply Binary64Sign.leb_zero.
Qed.

Lemma rmse_masked_not_negative_witness :
  ∃ r, rmse_masked [1; nan; 3]%float [2; 5; 3]%float = Ok r ∧ (0 <=? r)%float = true.
Proof.
  apply rmse_masked_not_negative.
  - repeat constructor; by (left + (right; split)).
  - vm_compute. lia.
  - by vm_compute.
Defined.

(** *** Predictions that are NaN *)

Lemma add_nan (x y : float) :
  PrimFloat.is_nan x = true ∨ PrimFloat.is_nan y = true → PrimFloat.is_nan (x + y) = true.
Proof.
  rewrite !Binary64.is_nan_spec, FloatAxioms.add_spec. unfold SF64add, SFadd.
  destruct (Prim2SF x) as [sx|sx| |sx mx ex], (Prim2SF y) as [sy|sy| |sy my ey];
    cbn; intros [?|?]; done.
Qed.

Lemma sub_nan_r (x y : float) : PrimFloat.is_nan y = true → PrimFloat.is_nan (x - y) = true.
Proof.
  rewrite !Binary64.is_nan_spec, FloatAxioms.sub_spec. unfold SF64sub, SFsub.
  by destruct (Prim2SF x) as [sx|sx| |sx mx ex], (Prim2SF y) as [sy|sy| |sy my ey].
Qed.

Lemma div_nan_l (x y : float) : PrimFloat.is_nan x = true → PrimFloat.is_nan (x / y) = true.
Proof.
  rewrite !Binary64.is_nan_spec, FloatAxioms.div_spec. unfold SF64div, SFdiv.
  by destruct (Prim2SF x) as [sx|sx| |sx mx ex].
Qed.

Lemma sqrt_nan (x : float) :
  PrimFloat.is_nan x = true → PrimFloat.is_nan (PrimFloat.sqrt x) = true.
Proof.
  rewrite !Binary64.is_nan_spec, FloatAxioms.sqrt_spec. unfold SF64sqrt, SFsqrt.
  by destruct (Prim2SF x) as [sx|sx| |sx mx ex].
Qed.

(** A sum with a NaN among its terms is NaN. *)
Lemma fold_add_nan (l : list float) (acc : float) :
  PrimFloat.is_nan acc = true ∨ Exists (fun x => PrimFloat.is_nan x = true) l →
  PrimFloat.is_nan (fold_left PrimFloat.add l acc) = true.
Proof.
  revert acc. induction l as [|x l IH]; intros acc [Hacc|Hl]; cbn [fold_left].
  - done.
  - by apply Exists_nil in Hl.
  - apply IH. left. apply add_nan. by left.
  - apply IH. apply Exists_cons in Hl as [Hx|Hl]; [left; apply add_nan; by right | by right].
Qed.

(** X6. A NaN predicted where an observation is present makes the masked
    RMSE NaN: only the predictions under the mask are ignored. *)
Theorem rmse_masked_of_nan_prediction (y_true y_pred : list float) (i : nat) (o p : float) :
  length y_true = length y_pred →
  y_true !! i = Some o → PrimFloat.is_nan o = false →
  y_pred !! i = Some p → PrimFloat.is_nan p = true →
  ∃ r, rmse_masked y_true y_pred = Ok r ∧ PrimFloat.is_nan r = true.
Proof.
  intros Hlen Ho Hon Hp Hpn. eexists. split; [by apply rmse_masked_same_length|].
  unfold spec_rmse. apply sqrt_nan, div_nan_l, fold_add_nan. right.
  apply Exists_exists. exists (spec_squared_error o p). split.
  - apply list_elem_of_lookup. exists i. by rewrite lookup_zip_with, Ho, Hp.
  - unfold spec_squared_error. rewrite Hon, Binary64.square_nan.
    apply Binary64.sub_nan_l, Hpn.
Qed.

Lemma rmse_masked_of_nan_prediction_witness :
  ∃ r, rmse_masked [1; 2; 3]%float [1; nan; 3]%float = Ok r ∧ PrimFloat.is_nan r = true.
Proof.
  by apply (rmse_masked_of_nan_prediction [1; 2; 3]%float [1; nan; 3]%float 1 2%float nan).
Defined.

(** X7. [nse] does not see a NaN prediction: the NSE is the same as if,
    wherever NaN is predicted, the observation itself had been predicted.
    A prediction that is missing counts as a perfect one. *)
Theorem nse_of_nan_prediction (y_true y_pred y_pred' : list float) :
  Forall3 (fun o p p' =>
             if PrimFloat.is_nan p
             then PrimFloat.is_nan o = true ∨ PrimFloat.is_finite o = true ∧ p' = o
             else p' = p)
    y_true y_pred y_pred' →
  nse y_true y_pred = nse y_true y_pred'.
Proof.
  intros H.
  pose proof (Forall3_length_lm _ _ _ _ H) as Hl.
  pose proof (Forall3_length_lr _ _ _ _ H) as Hl'.
  rewrite !nse_same_length by done. do 3 f_equal.
  unfold np.nansum. f_equal. unfold np.square. rewrite !map_map.
  clear Hl Hl'. induction H as [|o p p' y_true y_pred y_pred' Hopp' H IH]; [done|].
  cbn [zip_with map]. f_equal; [|exact IH].
  destruct (PrimFloat.is_nan p) eqn:Hp; [|by subst].
  rewrite (Binary64.square_nan (o - p)), (sub_nan_r o p Hp).
  destruct Hopp' as [Ho|[Ho ->]].
  - by rewrite Binary64.square_nan, Binary64.sub_nan_l.
  - by rewrite Binary64Sign.sub_diag.
Qed.

Lemma nse_of_nan_prediction_witness :
  nse [1; 2; 3]%float [1; nan; 2]%float = nse [1; 2; 3]%float [1; 2; 2]%float.
Proof.
  apply (nse_of_nan_prediction [1; 2; 3]%float [1; nan; 2]%float [1; 2; 2]%float).
  constructor; [reflexivity|]. constructor; [right; by split|].
  constructor; [reflexivity|]. constructor.
Defined.

(** ** The table of predictions *)

Lemma chunks_lookup (n m : nat) (l : list cell) (k : nat) :
  k < n → chunks n m l !! k = Some (take m (drop (k * m) l)).
Proof.
  revert l k. induction n as [|n IH]; intros l k Hk; first lia.
  destruct k as [|k]; first reflexivity. cbn [chunks].
  rewrite lookup_cons_ne_0 by done. cbn [Nat.pred].
  rewrite IH by lia. by rewrite drop_drop.
Qed.

Lemma chunks_length (n m : nat) (l : list cell) : length (chunks n m l) = n.
Proof.
  revert l. induction n as [|n IH]; intros l; cbn [chunks length]; first done.
  by rewrite IH.
Qed.

Lemma take_1_drop (l : list cell) (k : nat) :
  k < length l → take 1 (drop k l) = [default NaN (l !! k)].
Proof.
  intros Hk. destruct (lookup_lt_is_Some_2 l k Hk) as [c Hc]. rewrite Hc.
  by rewrite (drop_S _ _ _ Hc).
Qed.

Lemma take_2_drop (l : list cell) (k : nat) :
  k + 1 < length l →
  take 2 (drop k l) = [default NaN (l !! k); default NaN (l !! (k + 1))].
Proof.
  intros Hk.
  destruct (lookup_lt_is_Some_2 l k ltac:(lia)) as [c Hc].
  destruct (lookup_lt_is_Some_2 l (k + 1) Hk) as [c' Hc'].
  rewrite Hc, Hc'. rewrite (drop_S _ _ _ Hc).
  replace (k + 1) with (S k) in Hc' by lia. by rewrite (drop_S _ _ _ Hc').
Qed.

Lemma reshape_3d (a : ndarray) (b s c : nat) :
  shape a = [b; s; c] → length (data a) = b * s * c →
  (s0 ← shape_at 0 a; s1 ← shape_at 1 a; s2 ← shape_at 2 a; reshape2 a (s0 * s1) s2) =
  Ok (mkArray [b * s; c] (data a)).
Proof.
  intros Hs Hl. unfold shape_at. rewrite Hs. cbn. unfold reshape2.
  by rewrite decide_True.
Qed.

Lemma post_process_run (y_pred dates ids : ndarray) (b s : nat) (w : World) :
  shape y_pred = [b; s; 2] → length (data y_pred) = b * s * 2 →
  shape dates = [b; s; 1] → length (data dates) = b * s * 1 →
  shape ids = [b; s; 1] → length (data ids) = b * s * 1 →
  post_process y_pred dates ids w =
  (Ok (fresh (dom (heap w))),
   mkWorld (<[fresh (dom (heap w)) := prediction_table y_pred dates ids (b * s)]> (heap w))
     (files w)).
Proof.
  intros Hy Hyl Hd Hdl Hi Hil. unfold post_process.
  rewrite (bind_lift_ok _ _ _ _ (reshape_3d _ _ _ _ Hy Hyl)).
  rewrite (bind_lift_ok _ _ _ _ (reshape_3d _ _ _ _ Hd Hdl)).
  rewrite (bind_lift_ok _ _ _ _ (reshape_3d _ _ _ _ Hi Hil)).
  unfold DataFrame_of_array. cbn [shape data length].
  rewrite !decide_True by done.
  erewrite !bind_lift_ok by reflexivity.
  unfold alloc. cbn [heap files]. do 3 f_equal.
  unfold concat_axis1, prediction_table. cbn [map rows columns concat app].
  rewrite !length_map, !chunks_length.
  replace (max_list [b * s; b * s; b * s]) with (b * s) by (cbn; lia).
  f_equal. apply map_ext_in. intros k Hk%in_seq.
  change (map ?f ?l) with (f <$> l). rewrite !list_lookup_fmap.
  rewrite !chunks_lookup by lia. cbn [fmap option_fmap option_map cells app].
  rewrite !take_1_drop by lia. rewrite take_2_drop by lia.
  unfold prediction_row. cbn [app].
  replace (k * 1) with k by lia. by replace (k * 2) with (2 * k) by lia.
Qed.

(** X8. For predictions of shape [b, s, 2] and dates and ids of shape
    [b, s, 1], [post_process] makes a new table with the columns date,
    seg_id_nat, temp_c, discharge_cms and b * s rows on a RangeIndex; row k
    holds entry k of the flattened dates and ids and entries 2k and 2k + 1 of
    the flattened predictions. No other table and no file is touched. *)
Theorem post_process_table (y_pred dates ids : ndarray) (b s : nat) (w : World) :
  shape y_pred = [b; s; 2] → length (data y_pred) = b * s * 2 →
  shape dates = [b; s; 1] → length (data dates) = b * s →
  shape ids = [b; s; 1] → length (data ids) = b * s →
  ∃ l w',
    post_process y_pred dates ids w = (Ok l, w') ∧
    heap w !! l = None ∧
    heap w' !! l = Some (prediction_table y_pred dates ids (b * s)) ∧
    (∀ l', l' ≠ l → heap w' !! l' = heap w !! l') ∧
    files w' = files w.
Proof.
  intros Hy Hyl Hd Hdl Hi Hil. eexists _, _.
  split; [apply (post_process_run _ _ _ b s); (done || lia)|].
  cbn [heap files]. split; [apply not_elem_of_dom, is_fresh|].
  split; [apply lookup_insert_eq|]. split; [|done].
  intros l' Hl'. by rewrite lookup_insert_ne.
Qed.

Lemma post_process_table_witness :
  ∃ l w',
    post_process (mkArray [1; 2; 2] [Float 1; Float 2; Float 3; Float 4])
      (mkArray [1; 2; 1] [Int 10; Int 11]) (mkArray [1; 2; 1] [Int 7; Int 7])
      (mkWorld ∅ ∅) = (Ok l, w') ∧
    heap w' !! l =
      Some (mkDF [] ["date"; "seg_id_nat"; "temp_c"; "discharge_cms"]
              [mkRow [] [Int 10; Int 7; Float 1; Float 2];
               mkRow [] [Int 11; Int 7; Float 3; Float 4]]).
Proof.
  destruct (post_process_table (mkArray [1; 2; 2] [Float 1; Float 2; Float 3; Float 4])
              (mkArray [1; 2; 1] [Int 10; Int 11]) (mkArray [1; 2; 1] [Int 7; Int 7])
              1 2 (mkWorld ∅ ∅))
    as (l & w' & Hrun & _ & Hl & _); [reflexivity..|].
  by exists l, w'.
Defined.

(** X9. [post_process] raises IndexError when the predictions have fewer
    than three dimensions, and ValueError when the three arrays are
    three-dimensional but the last dimension of the predictions is not two;
    the state is left as it was. *)
Theorem post_process_rejects_bad_shapes (y_pred dates ids : ndarray) (w : World) :
  (length (shape y_pred) < 3 →
   ∃ msg, post_process y_pred dates ids w = (Raise (IndexError msg), w)) ∧
  (∀ b s c b' s' c' b'' s'' c'',
     shape y_pred = [b; s; c] → length (data y_pred) = b * s * c →
     shape dates = [b'; s'; c'] → length (data dates) = b' * s' * c' →
     shape ids = [b''; s''; c''] → length (data ids) = b'' * s'' * c'' →
     c ≠ 2 →
     ∃ msg, post_process y_pred dates ids w = (Raise (ValueError msg), w)).
Proof.
  split.
  - intros Hs. unfold post_process, shape_at.
    destruct (shape y_pred) as [|b [|s [|c sh]]]; cbn in Hs; try lia; eexists; reflexivity.
  - intros b s c b' s' c' b'' s'' c'' Hy Hyl Hd Hdl Hi Hil Hc. unfold post_process.
    rewrite (bind_lift_ok _ _ _ _ (reshape_3d _ _ _ _ Hy Hyl)).
    rewrite (bind_lift_ok _ _ _ _ (reshape_3d _ _ _ _ Hd Hdl)).
    rewrite (bind_lift_ok _ _ _ _ (reshape_3d _ _ _ _ Hi Hil)).
    rewrite bind_run. unfold lift at 1, DataFrame_of_array at 1. cbn [shape].
    rewrite decide_False by (cbn; lia). eexists. reflexivity.
Qed.

Lemma post_process_rejects_bad_shapes_witness :
  (∃ msg, post_process (mkArray [2; 2] (replicate 4 (Float 1)))
            (mkArray [1; 2; 1] [Int 10; Int 11]) (mkArray [1; 2; 1] [Int 7; Int 7])
            (mkWorld ∅ ∅) = (Raise (IndexError msg), mkWorld ∅ ∅)) ∧
  (∃ msg, post_process (mkArray [1; 2; 3] (replicate 6 (Float 1)))
            (mkArray [1; 2; 1] [Int 10; Int 11]) (mkArray [1; 2; 1] [Int 7; Int 7])
            (mkWorld ∅ ∅) = (Raise (ValueError msg), mkWorld ∅ ∅)).
Proof.
  split.
  - apply (proj1 (post_process_rejects_bad_shapes _ _ _ _)). cbn. lia.
  - apply (proj2 (post_process_rejects_bad_shapes _ _ _ _) 1 2 3 1 2 1 1 2 1);
      (reflexivity || lia).
Defined.

(** ** take_first_half *)

Lemma take_first_half_rows (w : World) (l : nat) (df : DataFrame) (j : nat) (u : list Z) :
  heap w !! l = Some df →
  NoDup (columns df) →
  index_of "date" (columns df) = Some j →
  Forall (fun r => cell_at j r = Int (date_of j r)) (rows df) →
  rows df ≠ [] →
  StronglySorted Z.lt u →
  (∀ d, d ∈ u ↔ d ∈ map (date_of j) (rows df)) →
  ∃ b l',
    u !! (length u / 2) = Some b ∧
    take_first_half l w =
    (Ok l',
     mkWorld
       (<[l' := mkDF [] ("date" :: delete j (columns df))
                  (map (fun r => mkRow [] (labels r ++ cells r))
                     (filter (fun r => (row_key r ≤ b)%Z)
                        (sort_rows (map (date_indexed j) (rows df)))))]>
          (<[l := sorted_by_date j df]> (heap w)))
       (files w)).
Proof.
  intros Hl Hnd Hj Hdates Hne Hu Helem.
  set (rows1 := map (date_indexed j) (rows df)).
  assert (Forall date_labelled rows1) as Hlab.
  { apply Forall_forall. intros r Hr.
    apply list_elem_of_In, in_map_iff in Hr as (r0 & <- & Hr0).
    rewrite Forall_forall in Hdates. apply list_elem_of_In in Hr0.
    unfold date_labelled, row_key, date_indexed. cbn [labels].
    by rewrite (Hdates r0 Hr0). }
  pose proof (sort_rows_labelled _ Hlab) as Hlab'.
  pose proof (sort_rows_sorted _ Hlab) as Hsorted.
  destruct (unique_sorted_dates _ (sorted_keys _ Hsorted)) as (u0 & Hu0 & Hsu0 & Helem0).
  assert (u0 = u) as ->.
  { apply strictly_sorted_dates_unique; [done..|].
    intros d. rewrite Helem0, Helem, sort_rows_perm. unfold rows1.
    rewrite map_map.
    assert (map (fun x => row_key (date_indexed j x)) (rows df) =
            map (date_of j) (rows df)) as ->; [|done].
    apply map_ext. intros r. unfold row_key, date_indexed, date_of. cbn [labels].
    by destruct (cell_at j r). }
  rewrite <- (labels_of_date_labelled _ Hlab') in Hu0.
  assert (u ≠ []) as Hu_ne.
  { destruct (rows df) as [|r rs] eqn:Hrows; [done|].
    intros ->. specialize (Helem (date_of j r)). cbn [map] in Helem.
    rewrite elem_of_nil in Helem. apply Helem. left. }
  destruct (lookup_lt_is_Some_2 u (length u / 2)) as [b Hb].
  { destruct u; [done|]. apply Nat.div_lt; cbn; lia. }
  exists b, (fresh (dom (<[l := sorted_by_date j df]> (heap w)))).
  split; [done|].
  rewrite (take_first_half_run w l df j (date_label b) Hl Hnd Hj).
  - fold rows1. unfold date_label. by rewrite take_searchsorted_right.
  - fold rows1. rewrite Hu0, length_map.
    change (map date_label u) with (date_label <$> u).
    by rewrite list_lookup_fmap, Hb.
Qed.

Lemma restored_row_date (r : Row) :
  date_labelled r → date_of 0 (mkRow [] (labels r ++ cells r)) = row_key r.
Proof. intros Hr. unfold date_of, cell_at. cbn [cells]. by rewrite Hr. Qed.

Lemma date_indexed_labelled (j : nat) (l : list Row) :
  Forall (fun r => cell_at j r = Int (date_of j r)) l →
  Forall date_labelled (map (date_indexed j) l).
Proof.
  intros H. apply Forall_map. eapply Forall_impl; [exact H|].
  intros r Hr. unfold date_labelled, row_key, date_indexed. cbn [labels]. by rewrite Hr.
Qed.

Lemma first_half_dates (j : nat) (b : Z) (l : list Row) :
  Forall (fun r => cell_at j r = Int (date_of j r)) l →
  map (date_of 0)
    (map (fun r => mkRow [] (labels r ++ cells r))
       (filter (fun r => (row_key r ≤ b)%Z) (sort_rows (map (date_indexed j) l)))) =
  map row_key (filter (fun r => (row_key r ≤ b)%Z) (sort_rows (map (date_indexed j) l))).
Proof.
  intros H. rewrite map_map. apply map_ext_in. intros r Hr%list_elem_of_In.
  apply restored_row_date.
  apply list_elem_of_filter in Hr as [_ Hr]. rewrite sort_rows_perm in Hr.
  pose proof (date_indexed_labelled j l H) as Hlab. rewrite Forall_forall in Hlab. by apply Hlab.
Qed.

(** X10. The table [take_first_half] returns has the date as its first
    column and its rows in ascending order of the date. *)
Theorem take_first_half_in_date_order (w : World) (l : nat) (df : DataFrame)
    (j : nat) :
  heap w !! l = Some df →
  NoDup (columns df) →
  index_of "date" (columns df) = Some j →
  Forall (fun r => cell_at j r = Int (date_of j r)) (rows df) →
  rows df ≠ [] →
  ∃ l' w' out,
    take_first_half l w = (Ok l', w') ∧
    heap w' !! l' = Some out ∧
    columns out !! 0 = Some "date" ∧
    StronglySorted Z.le (map (date_of 0) (rows out)).
Proof.
  intros Hl Hnd Hj Hdates Hne.
  assert (∃ u, StronglySorted Z.lt u ∧ ∀ d, d ∈ u ↔ d ∈ map (date_of j) (rows df))
    as (u & Hu & Helem).
  { pose proof (sort_rows_sorted _ (date_indexed_labelled j _ Hdates)) as Hsorted.
    destruct (unique_sorted_dates _ (sorted_keys _ Hsorted)) as (u & _ & Hu & Helem).
    exists u. split; [done|]. intros d. rewrite Helem, sort_rows_perm, map_map.
    assert (map (fun x => row_key (date_indexed j x)) (rows df) =
            map (date_of j) (rows df)) as ->; [|done].
    apply map_ext. intros r. unfold row_key, date_indexed, date_of. cbn [labels].
    by destruct (cell_at j r). }
  destruct (take_first_half_rows w l df j u Hl Hnd Hj Hdates Hne Hu Helem)
    as (b & l' & Hb & Hrun).
  eexists _, _, _. split; [exact Hrun|]. cbn [heap].
  split; [apply lookup_insert_eq|]. cbn [columns rows]. split; [done|].
  rewrite first_half_dates by done.
  apply sorted_keys, StronglySorted_filter, sort_rows_sorted.
  by apply date_indexed_labelled.
Qed.

Lemma take_first_half_in_date_order_witness :
  ∃ l' w' out,
    take_first_half 0 (mkWorld {[ 0 := six_rows ]} ∅) = (Ok l', w') ∧
    heap w' !! l' = Some out ∧
    columns out !! 0 = Some "date" ∧
    StronglySorted Z.le (map (date_of 0) (rows out)).
Proof.
  apply (take_first_half_in_date_order (mkWorld {[ 0 := six_rows ]} ∅) 0 six_rows 0).
  - reflexivity.
  - apply (bool_decide_unpack _). by vm_compute.
  - reflexivity.
  - by repeat constructor.
  - done.
Defined.

Lemma sorted_prefix (u : list Z) (k : nat) (b d : Z) :
  StronglySorted Z.lt u → u !! k = Some b →
  (d ∈ u ∧ (d ≤ b)%Z) ↔ d ∈ take (S k) u.
Proof.
  intros Hu. revert k. induction Hu as [|x u Hu IH Hall]; intros k Hk; [done|].
  rewrite Forall_forall in Hall.
  destruct k as [|k]; cbn in Hk.
  - injection Hk as ->. cbn [take]. rewrite elem_of_cons, list_elem_of_singleton. split.
    + intros [[->|Hd] Hle]; [done|]. specialize (Hall d Hd). lia.
    + intros ->. split; [by left | lia].
  - change (take (S (S k)) (x :: u)) with (x :: take (S k) u).
    rewrite !elem_of_cons, <- (IH k Hk). split.
    + intros [[->|Hd] Hle]; [by left | by right].
    + intros [->|[Hd Hle]]; [|by split; [right|]].
      split; [by left|]. apply list_elem_of_lookup_2 in Hk. specialize (Hall b Hk). lia.
Qed.

(** X11. Of the n distinct dates of the input, in increasing order,
    [take_first_half] keeps the first floor(n/2) + 1: more than half of them,
    and all of them when there are one or two. *)
Theorem take_first_half_keeps_more_than_half (w : World) (l : nat) (df : DataFrame)
    (j : nat) (u : list Z) :
  heap w !! l = Some df →
  NoDup (columns df) →
  index_of "date" (columns df) = Some j →
  Forall (fun r => cell_at j r = Int (date_of j r)) (rows df) →
  rows df ≠ [] →
  StronglySorted Z.lt u →
  (∀ d, d ∈ u ↔ d ∈ map (date_of j) (rows df)) →
  ∃ l' w' out,
    take_first_half l w = (Ok l', w') ∧
    heap w' !! l' = Some out ∧
    ∀ d, d ∈ map (date_of 0) (rows out) ↔ d ∈ take (length u / 2 + 1) u.
Proof.
  intros Hl Hnd Hj Hdates Hne Hu Helem.
  destruct (take_first_half_rows w l df j u Hl Hnd Hj Hdates Hne Hu Helem)
    as (b & l' & Hb & Hrun).
  eexists _, _, _. split; [exact Hrun|]. cbn [heap].
  split; [apply lookup_insert_eq|]. cbn [rows]. intros d.
  rewrite first_half_dates by done.
  replace (length u / 2 + 1) with (S (length u / 2)) by lia.
  rewrite <- (sorted_prefix u _ b d Hu Hb), Helem.
  rewrite !list_elem_of_In, !in_map_iff. split.
  - intros (r & <- & Hr%list_elem_of_In%list_elem_of_filter). destruct Hr as [Hle Hr].
    rewrite sort_rows_perm in Hr.
    apply list_elem_of_In, in_map_iff in Hr as (r0 & <- & Hr0).
    assert (row_key (date_indexed j r0) = date_of j r0) as Hkey.
    { unfold row_key, date_indexed, date_of. cbn [labels]. by destruct (cell_at j r0). }
    rewrite Hkey in Hle |- *. split; [|done]. by exists r0.
  - intros [(r0 & <- & Hr0) Hle].
    assert (row_key (date_indexed j r0) = date_of j r0) as Hkey.
    { unfold row_key, date_indexed, date_of. cbn [labels]. by destruct (cell_at j r0). }
    exists (date_indexed j r0). split; [done|].
    apply list_elem_of_In, list_elem_of_filter. rewrite Hkey. split; [done|].
    rewrite sort_rows_perm. by apply list_elem_of_In, in_map, Hr0.
Qed.

Lemma take_first_half_keeps_more_than_half_witness :
  ∃ l' w' out,
    take_first_half 0 (mkWorld {[ 0 := six_rows ]} ∅) = (Ok l', w') ∧
    heap w' !! l' = Some out ∧
    ∀ d, d ∈ map (date_of 0) (rows out) ↔ d ∈ [1; 2]%Z.
Proof.
  apply (take_first_half_keeps_more_than_half (mkWorld {[ 0 := six_rows ]} ∅) 0 six_rows 0
           [1; 2; 3]%Z).
  - reflexivity.
  - apply (bool_decide_unpack _). by vm_compute.
  - reflexivity.
  - by repeat constructor.
  - done.
  - repeat constructor; lia.
  - intros d. cbn. rewrite !elem_of_cons, !elem_of_nil. intuition.
Defined.

(** X12. On a table without a date column [take_first_half] raises
    KeyError and changes nothing. *)
Theorem take_first_half_needs_date (w : World) (l : nat) (df : DataFrame) :
  heap w !! l = Some df →
  index_of "date" (columns df) = None →
  take_first_half l w = (Raise (KeyError "date"), w).
Proof.
  intros Hl Hj. unfold take_first_half, inplace.
  rewrite !bind_run. rewrite (deref_run _ _ _ Hl).
  rewrite bind_run. unfold lift, set_index. cbn [move_to_index columns]. by rewrite Hj.
Qed.

Lemma take_first_half_needs_date_witness :
  take_first_half 0
    (mkWorld {[ 0 := mkDF [] ["seg_id_nat"; "temp_c"] [mkRow [] [Int 7; Float 1]] ]} ∅) =
  (Raise (KeyError "date"),
   mkWorld {[ 0 := mkDF [] ["seg_id_nat"; "temp_c"] [mkRow [] [Int 7; Float 1]] ]} ∅).
Proof.
  by apply (take_first_half_needs_date _ 0
              (mkDF [] ["seg_id_nat"; "temp_c"] [mkRow [] [Int 7; Float 1]])).
Defined.

(** X13. On a table with a date column and no rows [take_first_half]
    raises IndexError, there being no halfway date; by then the table it was
    given has had its date column made the index. *)
Theorem take_first_half_of_empty_table (w : World) (l : nat) (df : DataFrame) (j : nat) :
  heap w !! l = Some df →
  index_of "date" (columns df) = Some j →
  rows df = [] →
  ∃ msg,
    take_first_half l w =
    (Raise (IndexError msg),
     mkWorld (<[l := mkDF ["date"] (delete j (columns df)) []]> (heap w)) (files w)).
Proof.
  intros Hl Hj Hrows. unfold take_first_half.
  erewrite (bind_inplace _ _ _ _ _ _ Hl) by by apply set_index_date.
  erewrite bind_inplace; [| apply lookup_insert_eq | reflexivity].
  cbn [heap files]. rewrite insert_insert_eq.
  erewrite bind_deref by apply lookup_insert_eq.
  unfold sort_index, index. cbn [index_names columns rows]. rewrite Hrows.
  eexists. reflexivity.
Qed.

Lemma take_first_half_of_empty_table_witness :
  ∃ msg,
    take_first_half 0 (mkWorld {[ 0 := mkDF [] ["date"; "temp_c"] [] ]} ∅) =
    (Raise (IndexError msg), mkWorld {[ 0 := mkDF ["date"] ["temp_c"] [] ]} ∅).
Proof.
  destruct (take_first_half_of_empty_table (mkWorld {[ 0 := mkDF [] ["date"; "temp_c"] [] ]} ∅)
              0 (mkDF [] ["date"; "temp_c"] []) 0) as [msg H]; [reflexivity..|].
  exists msg. rewrite H. cbn [heap files]. by rewrite insert_singleton.
Defined.

(** ** Rescaling that cannot be done *)

Section RescalingErrors.
Variable np_exp : float → float.

(** X14. When temp_c or discharge_cms is not a column of the table,
    [unscale_output] raises KeyError for a missing one and changes
    nothing. *)
Theorem unscale_output_needs_both_columns (w : World) (y_scl : nat) (df : DataFrame)
    (y_std y_mean : ndarray) (logged_q : bool) :
  heap w !! y_scl = Some df →
  index_of "temp_c" (columns df) = None ∨ index_of "discharge_cms" (columns df) = None →
  ∃ key,
    (key = "temp_c" ∨ key = "discharge_cms") ∧
    index_of key (columns df) = None ∧
    unscale_output np_exp y_scl y_std y_mean logged_q w = (Raise (KeyError key), w).
Proof.
  intros Hl Hmissing. unfold unscale_output. cbv zeta.
  rewrite (bind_deref _ _ _ _ Hl). rewrite bind_run.
  unfold lift at 1, getitems. cbn [positions].
  destruct (index_of "temp_c" (columns df)) as [jt|] eqn:Ht.
  - destruct Hmissing as [?|Hq]; [done|]. exists "discharge_cms".
    split; [by right|]. split; [done|]. by rewrite Hq.
  - exists "temp_c". split; [by left|]. by split.
Qed.

(** X15. When the one-dimensional array of standard deviations, or that
    of means, does not have exactly two entries, [unscale_output] raises
    ValueError and leaves the table as it was: nothing is rescaled in
    part. *)
Theorem unscale_output_needs_two_scales (w : World) (y_scl : nat) (df : DataFrame)
    (y_std y_mean : ndarray) (logged_q : bool) (jt jq n : nat) :
  heap w !! y_scl = Some df →
  index_of "temp_c" (columns df) = Some jt →
  index_of "discharge_cms" (columns df) = Some jq →
  n ≠ 2 →
  shape y_std = [n] ∨ shape y_std = [2] ∧ shape y_mean = [n] →
  ∃ msg, unscale_output np_exp y_scl y_std y_mean logged_q w = (Raise (ValueError msg), w).
Proof.
  intros Hl Ht Hq Hn Hshape. unfold unscale_output. cbv zeta.
  rewrite (bind_deref _ _ _ _ Hl).
  erewrite bind_lift_ok; [|unfold getitems; cbn [positions]; rewrite Ht, Hq; reflexivity].
  rewrite bind_run. unfold lift at 1, frame_op at 2. cbn [columns].
  destruct Hshape as [Hs|[Hs Hm]]; rewrite Hs.
  - rewrite decide_False by (cbn; congruence). eexists. reflexivity.
  - rewrite decide_True by done. cbn [mbind result_bind].
    unfold frame_op. cbn [columns]. rewrite Hm.
    rewrite decide_False by (cbn; congruence). eexists. reflexivity.
Qed.

End RescalingErrors.

Lemma unscale_output_needs_both_columns_witness :
  ∃ key,
    unscale_output (fun x => x) 0 (array1 [2; 1]%float) (array1 [10; 0]%float) false
      (mkWorld {[ 0 := mkDF [] ["date"; "temp_c"] [mkRow [] [Int 1; Float 1]] ]} ∅) =
    (Raise (KeyError key),
     mkWorld {[ 0 := mkDF [] ["date"; "temp_c"] [mkRow [] [Int 1; Float 1]] ]} ∅).
Proof.
  destruct (unscale_output_needs_both_columns (fun x => x)
              (mkWorld {[ 0 := mkDF [] ["date"; "temp_c"] [mkRow [] [Int 1; Float 1]] ]} ∅) 0
              (mkDF [] ["date"; "temp_c"] [mkRow [] [Int 1; Float 1]])
              (array1 [2; 1]%float) (array1 [10; 0]%float) false)
    as (key & _ & _ & Hrun); [reflexivity | by right |].
  by exists key.
Defined.

Lemma unscale_output_needs_two_scales_witness :
  ∃ msg,
    unscale_output (fun x => x) 0 (array1 [2; 1; 3]%float) (array1 [10; 0]%float) false
      (mkWorld {[ 0 := rescale_example ]} ∅) =
    (Raise (ValueError msg), mkWorld {[ 0 := rescale_example ]} ∅).
Proof.
  apply (unscale_output_needs_two_scales (fun x => x) (mkWorld {[ 0 := rescale_example ]} ∅)
           0 rescale_example (array1 [2; 1; 3]%float) (array1 [10; 0]%float) false 2 3 3);
    [reflexivity | reflexivity | reflexivity | lia | by left].
Defined.

(** ** Reading the files *)

Lemma move_to_index_shape (names : list string) (df df' : DataFrame) :
  move_to_index names df = Ok df' →
  index_names df' = index_names df ++ names ∧
  (∀ n, index_of n (columns df) = None → index_of n (columns df') = None).
Proof.
  revert df. induction names as [|n ns IH]; intros df; cbn [move_to_index].
  - intros [= <-]. by rewrite app_nil_r.
  - destruct (index_of n (columns df)) as [j|] eqn:Hj; [|done].
    intros [Hn Hc]%IH. cbn [index_names columns] in *.
    split; [by rewrite Hn, <- app_assoc|].
    intros m Hm. apply Hc. clear -Hm.
    revert j. induction (columns df) as [|x l IHl]; intros j; [by destruct j|].
    cbn [index_of] in Hm. case_decide; [done|].
    destruct (index_of m l) eqn:Hml; [done|].
    destruct j as [|j]; [done|].
    change (delete (S j) (x :: l)) with (x :: delete j l). cbn [index_of].
    rewrite decide_False by done. by rewrite IHl.
Qed.

Lemma set_index_shape (names : list string) (df df' : DataFrame) :
  set_index names df = Ok df' →
  index_names df' = names ∧
  (∀ n, index_of n (columns df) = None → index_of n (columns df') = None).
Proof. unfold set_index. intros H%move_to_index_shape. exact H. Qed.

Lemma getitems_shape (names : list string) (df df' : DataFrame) :
  getitems names df = Ok df' → index_names df' = index_names df ∧ columns df' = names.
Proof.
  unfold getitems. destruct (positions names (columns df)); [|done]. by intros [= <-].
Qed.

Lemma set_columns_shape (names : list string) (df df' : DataFrame) :
  set_columns names df = Ok df' → index_names df' = index_names df ∧ columns df' = names.
Proof. unfold set_columns. case_decide; [|done]. by intros [= <-]. Qed.

Lemma join_shape (left right df : DataFrame) :
  join left right = Ok df →
  index_names df = index_names left ∧ columns df = columns left ++ columns right.
Proof.
  unfold join. case_decide; [|done]. destruct (List.find _ _); [done|]. by intros [= <-].
Qed.

(** [fmt_preds_obs] only reads: the state is the same after it, whether it
    returns or raises, and what it returns is keyed by (date, seg_id_nat)
    and has the columns pred and obs. *)
Lemma fmt_preds_obs_match (pred_file obs_file variable : string) (w : World) :
  match fmt_preds_obs pred_file obs_file variable w with
  | (Ok df, w') =>
      w' = w ∧ index_names df = ["date"; "seg_id_nat"] ∧ columns df = ["pred"; "obs"]
  | (Raise _, w') => w' = w
  end.
Proof.
  unfold fmt_preds_obs, read_feather, read_csv.
  rewrite !bind_run. unfold read_file at 1.
  destruct (files w !! pred_file) as [[P| |]|]; try reflexivity.
  cbn [mret prog_ret]. rewrite bind_run. unfold lift at 1.
  destruct (set_index ["date"; "seg_id_nat"] P) as [pd|] eqn:Hpd; [|reflexivity].
  rewrite !bind_run. unfold read_file at 1.
  destruct (files w !! obs_file) as [[| O|]|]; try reflexivity.
  destruct (set_index ["date"; "seg_id_nat"] O) as [od|] eqn:Hod; [|reflexivity].
  cbn [mret prog_ret]. rewrite bind_run. unfold lift at 1.
  destruct (getitems [variable] od) as [ov|] eqn:Hov; [|reflexivity].
  rewrite bind_run. unfold lift at 1.
  destruct (set_columns ["obs"] ov) as [obs|] eqn:Hobs; [|reflexivity].
  rewrite bind_run. unfold lift at 1.
  destruct (getitems [variable] pd) as [pv|] eqn:Hpv; [|reflexivity].
  rewrite bind_run. unfold lift at 1.
  destruct (set_columns ["pred"] pv) as [preds|] eqn:Hpreds; [|reflexivity].
  rewrite bind_run. unfold lift at 1.
  destruct (join preds obs) as [combined|] eqn:Hjoin; [|reflexivity].
  cbn [mret prog_ret]. split; [reflexivity|].
  apply join_shape in Hjoin as [-> ->].
  apply set_columns_shape in Hpreds as [-> ->], Hobs as [_ ->].
  apply getitems_shape in Hpv as [-> _].
  by apply set_index_shape in Hpd as [-> _].
Qed.

Lemma fmt_preds_obs_result (pred_file obs_file variable : string) (w : World) :
  (∃ e, fmt_preds_obs pred_file obs_file variable w = (Raise e, w)) ∨
  (∃ df, fmt_preds_obs pred_file obs_file variable w = (Ok df, w) ∧
         index_names df = ["date"; "seg_id_nat"] ∧ columns df = ["pred"; "obs"]).
Proof.
  pose proof (fmt_preds_obs_match pred_file obs_file variable w) as H.
  destruct (fmt_preds_obs pred_file obs_file variable w) as [[df|e] w'].
  - destruct H as (-> & Hi & Hc). right. by exists df.
  - subst w'. left. by exists e.
Qed.

(** X16. [fmt_preds_obs] raises FileNotFoundError for the predictions
    file when it does not exist, and for the observations file when the
    predictions were read and keyed but the observations file does not exist;
    the state is unchanged. *)
Theorem fmt_preds_obs_missing_file (pred_file obs_file variable : string) (w : World) :
  (files w !! pred_file = None →
   fmt_preds_obs pred_file obs_file variable w = (Raise (FileNotFoundError pred_file), w)) ∧
  (∀ P jd js,
     files w !! pred_file = Some (Feather P) →
     index_of "date" (columns P) = Some jd →
     index_of "seg_id_nat" (columns P) = Some js →
     files w !! obs_file = None →
     fmt_preds_obs pred_file obs_file variable w = (Raise (FileNotFoundError obs_file), w)).
Proof.
  split.
  - intros Hp. unfold fmt_preds_obs, read_feather. rewrite !bind_run.
    unfold read_file. by rewrite Hp.
  - intros P jd js Hp Hjd Hjs Ho.
    assert (jd ≠ js) as Hds.
    { intros ->. apply index_of_lookup in Hjd, Hjs. congruence. }
    unfold fmt_preds_obs, read_feather, read_csv. rewrite !bind_run.
    unfold read_file at 1. rewrite Hp. cbn [mret prog_ret].
    rewrite bind_run. unfold lift at 1, set_index.
    cbn [move_to_index columns index_names rows app]. rewrite Hjd.
    cbn [columns index_names rows app].
    rewrite (index_of_delete_other _ _ jd js Hjs Hds).
    rewrite !bind_run. unfold read_file. by rewrite Ho.
Qed.

Lemma fmt_preds_obs_missing_file_witness :
  fmt_preds_obs "nothing.feather" "obs_temp.csv" "temp_c" metrics_world =
    (Raise (FileNotFoundError "nothing.feather"), metrics_world) ∧
  fmt_preds_obs "preds.feather" "nothing.csv" "temp_c" metrics_world =
    (Raise (FileNotFoundError "nothing.csv"), metrics_world).
Proof.
  split.
  - by apply (proj1 (fmt_preds_obs_missing_file "nothing.feather" "obs_temp.csv" "temp_c"
                       metrics_world)).
  - eapply (proj2 (fmt_preds_obs_missing_file "preds.feather" "nothing.csv" "temp_c"
                     metrics_world) _ 0 1); reflexivity.
Defined.

(** X17. When the variable asked for is not a column of the observations
    or not a column of the predictions, [fmt_preds_obs] raises KeyError for
    it. *)
Theorem fmt_preds_obs_missing_variable (pred_file obs_file variable : string) (w : World)
    (P O : DataFrame) (jd js kd ks : nat) :
  files w !! pred_file = Some (Feather P) →
  files w !! obs_file = Some (Csv O) →
  index_of "date" (columns P) = Some jd →
  index_of "seg_id_nat" (columns P) = Some js →
  index_of "date" (columns O) = Some kd →
  index_of "seg_id_nat" (columns O) = Some ks →
  index_of variable (columns O) = None ∨ index_of variable (columns P) = None →
  fmt_preds_obs pred_file obs_file variable w = (Raise (KeyError variable), w).
Proof.
  intros Hp Ho Hjd Hjs Hkd Hks Hvar.
  assert (jd ≠ js) as Hds.
  { intros ->. apply index_of_lookup in Hjd, Hjs. congruence. }
  assert (kd ≠ ks) as Hds'.
  { intros ->. apply index_of_lookup in Hkd, Hks. congruence. }
  assert (∀ df j k, index_of "date" (columns df) = Some j →
                    index_of "seg_id_nat" (columns df) = Some k → j ≠ k →
                    ∃ df', set_index ["date"; "seg_id_nat"] df = Ok df') as Hset.
  { intros df j k Hj Hk Hjk. unfold set_index.
    cbn [move_to_index columns index_names rows app]. rewrite Hj.
    cbn [columns index_names rows app].
    rewrite (index_of_delete_other _ _ j k Hk Hjk). eauto. }
  destruct (Hset P jd js Hjd Hjs Hds) as [pd Hpd].
  destruct (Hset O kd ks Hkd Hks Hds') as [od Hod].
  unfold fmt_preds_obs, read_feather, read_csv. rewrite !bind_run.
  unfold read_file at 1. rewrite Hp. cbn [mret prog_ret].
  rewrite bind_run. unfold lift at 1. rewrite Hpd.
  rewrite !bind_run. unfold read_file at 1. rewrite Ho, Hod. cbn [mret prog_ret].
  apply set_index_shape in Hpd as [_ Hpc], Hod as [_ Hoc].
  rewrite bind_run. unfold lift at 1, getitems at 1. cbn [positions].
  destruct (index_of variable (columns od)) as [jv|] eqn:Hov; [|done].
  cbn [mbind result_bind]. rewrite bind_run. unfold lift at 1, set_columns at 1.
  cbn [columns]. rewrite decide_True by done.
  rewrite bind_run. unfold lift at 1, getitems. cbn [positions].
  destruct Hvar as [Hvar|Hvar].
  - apply Hoc in Hvar. congruence.
  - apply Hpc in Hvar. by rewrite Hvar.
Qed.

Lemma fmt_preds_obs_missing_variable_witness :
  fmt_preds_obs "preds.feather" "obs_temp.csv" "discharge_cms" metrics_world =
  (Raise (KeyError "discharge_cms"), metrics_world).
Proof.
  eapply (fmt_preds_obs_missing_variable "preds.feather" "obs_temp.csv" "discharge_cms"
            metrics_world _ _ 0 1 0 1); try reflexivity. by left.
Defined.

(** ** What calc_metrics writes *)

Section MetricsFiles.
Variable py_str : float → string.

(** X18. [calc_metrics] reads before it writes. When joining the
    temperature, or then the discharge, with the predictions raises,
    [calc_metrics] raises the same error and nothing has been written. When
    both joins succeed and each observations file has at least one row, it
    raises no error of its own: it writes the joined temperature table,
    with the columns date, seg_id_nat, pred and obs, to fmt_temp.feather (a
    fixed name, whatever outdir, tag and run_tag are) and then the metrics
    record, and creates or changes no table. (A write is taken to succeed.
    An observations file with a header and no rows is left out: the joins
    succeed on it, and the metrics then raise TypeError on its columns of
    objects.) *)
Theorem calc_metrics_reads_before_writing
    (pred_file obs_file_temp obs_file_flow outdir tag run_tag : string) (w : World) :
  (∀ e,
     fmt_preds_obs pred_file obs_file_temp "temp_c" w = (Raise e, w) →
     calc_metrics py_str pred_file obs_file_temp obs_file_flow outdir tag run_tag w =
     (Raise e, w)) ∧
  (∀ temp_data e,
     fmt_preds_obs pred_file obs_file_temp "temp_c" w = (Ok temp_data, w) →
     fmt_preds_obs pred_file obs_file_flow "discharge_cms" w = (Raise e, w) →
     calc_metrics py_str pred_file obs_file_temp obs_file_flow outdir tag run_tag w =
     (Raise e, w)) ∧
  (∀ temp_data flow_data Ot Of,
     fmt_preds_obs pred_file obs_file_temp "temp_c" w = (Ok temp_data, w) →
     fmt_preds_obs pred_file obs_file_flow "discharge_cms" w = (Ok flow_data, w) →
     files w !! obs_file_temp = Some (Csv Ot) → rows Ot ≠ [] →
     files w !! obs_file_flow = Some (Csv Of) → rows Of ≠ [] →
     ∃ record,
       calc_metrics py_str pred_file obs_file_temp obs_file_flow outdir tag run_tag w =
       (Ok (),
        mkWorld (heap w)
          (<[outdir +:+ tag +:+ "_metrics" +:+ run_tag +:+ ".json" := JsonFile record]>
             (<["fmt_temp.feather" :=
                  Feather (mkDF [] ["date"; "seg_id_nat"; "pred"; "obs"]
                             (map (fun r => mkRow [] (labels r ++ cells r))
                                (rows temp_data)))]>
                (files w))))).
Proof.
  split; [|split].
  - intros e Htemp. unfold calc_metrics. by rewrite bind_run, Htemp.
  - intros temp_data e Htemp Hflow. unfold calc_metrics.
    by rewrite bind_run, Htemp, bind_run, Hflow.
  - intros temp_data flow_data Ot Of Htemp Hflow _ _ _ _.
    destruct (fmt_preds_obs_result pred_file obs_file_temp "temp_c" w)
      as [[e He]|(temp_data' & He & Hti & Htc)]; [congruence|].
    assert (temp_data' = temp_data) as -> by congruence.
    destruct (fmt_preds_obs_result pred_file obs_file_flow "discharge_cms" w)
      as [[e He']|(flow_data' & He' & Hfi & Hfc)]; [congruence|].
    assert (flow_data' = flow_data) as -> by congruence.
    eexists. unfold calc_metrics. rewrite bind_run, Htemp, bind_run, Hflow.
    rewrite bind_run. unfold lift at 1, reset_index. rewrite Hti, Htc.
    cbn [List.find].
    rewrite !bool_decide_eq_false_2
      by (rewrite !elem_of_cons, elem_of_nil; intros [?|[?|[]]]; discriminate).
    rewrite bind_run. unfold to_feather. cbn [index_names]. unfold write_file at 1.
    rewrite !(bind_lift_metric temp_data _ Htc), !(bind_lift_metric flow_data _ Hfc).
    rewrite !(rmse_masked_same_length _ _ (obs_pred_length _)).
    rewrite !(nse_same_length _ _ (obs_pred_length _)).
    rewrite !bind_run. unfold lift, write_file. cbn [heap files app]. reflexivity.
Qed.

End MetricsFiles.

Lemma calc_metrics_reads_before_writing_witness :
  calc_metrics (fun _ => "0.5") "nothing.feather" "obs_temp.csv" "obs_flow.csv"
    "out/" "tst" "" metrics_world =
    (Raise (FileNotFoundError "nothing.feather"), metrics_world) ∧
  ∃ record table,
    calc_metrics (fun _ => "0.5") "preds.feather" "obs_temp.csv" "obs_flow.csv"
      "out/" "tst" "" metrics_world =
    (Ok (),
     mkWorld (heap metrics_world)
       (<["out/tst_metrics.json" := JsonFile record]>
          (<["fmt_temp.feather" := Feather table]> (files metrics_world)))).
Proof.
  destruct (calc_metrics_reads_before_writing (fun _ => "0.5") "nothing.feather"
              "obs_temp.csv" "obs_flow.csv" "out/" "tst" "" metrics_world)
    as (Hfail & _ & _).
  destruct (calc_metrics_reads_before_writing (fun _ => "0.5") "preds.feather"
              "obs_temp.csv" "obs_flow.csv" "out/" "tst" "" metrics_world)
    as (_ & _ & Hok).
  split.
  - by apply Hfail.
  - destruct (Hok _ _ _ _ eq_refl eq_refl eq_refl ltac:(by vm_compute)
                eq_refl ltac:(by vm_compute)) as [record Hrun].
    eexists _, _. exact Hrun.
Defined.

(** ** The predictions file *)

Section PredictRuns.
Variable np_exp : float → float.
Variable trained_model_predict : ndarray → nat → ndarray.

Lemma prediction_table_rectangular (y_pred dates ids : ndarray) (n : nat) :
  rectangular (prediction_table y_pred dates ids n).
Proof.
  unfold rectangular, prediction_table. cbn [rows columns].
  apply Forall_map. by apply Forall_true.
Qed.

Lemma predict_unhalved_run (io_data : gmap string ndarray) (half_tst : bool)
    (tag outdir run_tag : string) (logged_q : bool) (w : World)
    (dist_matrix x dates ids : ndarray) (num_segs b s : nat) (s_t s_q m_t m_q : float) :
  tag = "trn" ∨ tag = "tst" →
  half_tst = false ∨ tag = "trn" →
  io_data !! "dist_matrix" = Some dist_matrix →
  shape dist_matrix !! 0 = Some num_segs →
  io_data !! ("x_" +:+ tag) = Some x →
  io_data !! ("dates_" +:+ tag) = Some dates →
  io_data !! ("ids_" +:+ tag) = Some ids →
  io_data !! "y_trn_obs_std" = Some (array1 [s_t; s_q]) →
  io_data !! "y_trn_obs_mean" = Some (array1 [m_t; m_q]) →
  shape (trained_model_predict x num_segs) = [b; s; 2] →
  length (data (trained_model_predict x num_segs)) = b * s * 2 →
  shape dates = [b; s; 1] → length (data dates) = b * s →
  shape ids = [b; s; 1] → length (data ids) = b * s →
  let table := unscaled_predictions np_exp (trained_model_predict x num_segs) dates ids
                 s_t s_q m_t m_q logged_q (b * s) in
  predict np_exp trained_model_predict io_data half_tst tag outdir run_tag logged_q w =
  (Ok (),
   mkWorld (<[fresh (dom (heap w)) := table]> (heap w))
     (<[preds_path outdir tag run_tag := Feather table]> (files w))).
Proof.
  intros Htag Hhalf HA Hn Hx Hdates Hids Hstd Hmean Hy Hyl Hd Hdl Hi Hil table.
  unfold predict. rewrite decide_True by done.
  rewrite bind_run. cbn [mret prog_ret].
  rewrite bind_run. unfold io_get at 1. rewrite HA. cbn [mret prog_ret].
  erewrite bind_lift_ok by (unfold shape_at; by rewrite Hn).
  rewrite bind_run. unfold io_get at 1. rewrite Hx. cbn [mret prog_ret].
  rewrite bind_run. unfold io_get at 1. rewrite Hdates. cbn [mret prog_ret].
  rewrite bind_run. unfold io_get at 1. rewrite Hids. cbn [mret prog_ret].
  rewrite bind_run, (post_process_run _ _ _ b s) by (done || lia).
  rewrite bind_run. unfold io_get at 1. rewrite Hstd. cbn [mret prog_ret].
  rewrite bind_run. unfold io_get at 1. rewrite Hmean. cbn [mret prog_ret].
  rewrite bind_run.
  rewrite (unscale_output_run np_exp _ _
             (prediction_table (trained_model_predict x num_segs) dates ids (b * s)) 2 3);
    [| apply lookup_insert_eq | apply prediction_table_rectangular | done | done].
  cbn [heap files]. rewrite insert_insert_eq.
  assert (half_tst && bool_decide (tag = "tst") = false) as ->.
  { destruct Hhalf as [->| ->]; [done|]. by rewrite andb_false_r. }
  rewrite bind_run. cbn [mret prog_ret].
  erewrite bind_deref by apply lookup_insert_eq.
  unfold to_feather, write_file. cbn [index_names heap files].
  unfold table, unscaled_predictions, prediction_table, preds_path.
  cbn [index_names columns rows]. by rewrite map_map.
Qed.

(** X19. On the training period, or without halving, and with well-shaped
    arrays, [predict] returns having written one file,
    {outdir}{tag}_preds{run_tag}.feather: row k of its table holds the date
    and the segment of entry k and the two predictions of entry k in physical
    units, value * std + mean, the discharge exponentiated when logged_q is
    set. The tables that existed before are unchanged; in particular
    half_tst has no effect on the training period. *)
Theorem predict_writes_predictions (io_data : gmap string ndarray) (half_tst : bool)
    (tag outdir run_tag : string) (logged_q : bool) (w : World)
    (dist_matrix x dates ids : ndarray) (num_segs b s : nat) (s_t s_q m_t m_q : float) :
  tag = "trn" ∨ tag = "tst" →
  half_tst = false ∨ tag = "trn" →
  io_data !! "dist_matrix" = Some dist_matrix →
  shape dist_matrix !! 0 = Some num_segs →
  io_data !! ("x_" +:+ tag) = Some x →
  io_data !! ("dates_" +:+ tag) = Some dates →
  io_data !! ("ids_" +:+ tag) = Some ids →
  io_data !! "y_trn_obs_std" = Some (array1 [s_t; s_q]) →
  io_data !! "y_trn_obs_mean" = Some (array1 [m_t; m_q]) →
  shape (trained_model_predict x num_segs) = [b; s; 2] →
  length (data (trained_model_predict x num_segs)) = b * s * 2 →
  shape dates = [b; s; 1] → length (data dates) = b * s →
  shape ids = [b; s; 1] → length (data ids) = b * s →
  ∃ w',
    predict np_exp trained_model_predict io_data half_tst tag outdir run_tag logged_q w =
      (Ok (), w') ∧
    files w' =
      <[outdir +:+ tag +:+ "_preds" +:+ run_tag +:+ ".feather" :=
          Feather (unscaled_predictions np_exp (trained_model_predict x num_segs) dates ids
                     s_t s_q m_t m_q logged_q (b * s))]> (files w) ∧
    ∀ l d, heap w !! l = Some d → heap w' !! l = Some d.
Proof.
  intros Htag Hhalf HA Hn Hx Hdates Hids Hstd Hmean Hy Hyl Hd Hdl Hi Hil.
  eexists. split; [by eapply predict_unhalved_run|].
  cbn [heap files]. split; [done|].
  intros l d Hl. rewrite lookup_insert_ne; [done|].
  intros <-. pose proof (is_fresh (dom (heap w))) as Hf.
  apply Hf, elem_of_dom. eauto.
Qed.

End PredictRuns.

Lemma predict_writes_predictions_witness :
  ∃ w',
    predict (fun x => x) example_model example_io_data false "tst" "out/" "" false
      (mkWorld ∅ ∅) = (Ok (), w') ∧
    files w' =
      <["out/tst_preds.feather" :=
          Feather (mkDF [] ["date"; "seg_id_nat"; "temp_c"; "discharge_cms"]
                     [mkRow [] [Int 1; Int 7; Float 12; Float 1];
                      mkRow [] [Int 2; Int 7; Float 14; Float 2];
                      mkRow [] [Int 3; Int 7; Float 16; Float 3];
                      mkRow [] [Int 1; Int 8; Float 18; Float 4];
                      mkRow [] [Int 2; Int 8; Float 20; Float 5];
                      mkRow [] [Int 3; Int 8; Float 22; Float 6]])]> ∅.
Proof.
  destruct (predict_writes_predictions (fun x => x) example_model example_io_data false
              "tst" "out/" "" false (mkWorld ∅ ∅)
              (mkArray [2; 2] [Float 0; Float 1; Float 1; Float 0])
              (mkArray [2; 3; 1] (replicate 6 (Float 0)))
              (mkArray [2; 3; 1] [Int 1; Int 2; Int 3; Int 1; Int 2; Int 3])
              (mkArray [2; 3; 1] [Int 7; Int 7; Int 7; Int 8; Int 8; Int 8])
              2 2 3 2%float 1%float 10%float 0%float)
    as (w' & Hrun & Hfiles & _);
    [by right | by left | reflexivity..|].
  exists w'. split; [exact Hrun|]. rewrite Hfiles. reflexivity.
Defined.

(** ** The first half of the test period *)

Section PredictHalved.
Variable np_exp : float → float.
Variable trained_model_predict : ndarray → nat → ndarray.

Lemma unscaled_predictions_dates (y_pred dates ids : ndarray) (ds : list Z)
    (s_t s_q m_t m_q : float) (logged_q : bool) :
  data dates = map Int ds →
  map (date_of 0)
    (rows (unscaled_predictions np_exp y_pred dates ids s_t s_q m_t m_q logged_q (length ds))) =
  ds ∧
  Forall (fun r => cell_at 0 r = Int (date_of 0 r) ∧
                   mkRow [] (cell_at 0 r :: delete 0 (cells r)) = r)
    (rows (unscaled_predictions np_exp y_pred dates ids s_t s_q m_t m_q logged_q (length ds))).
Proof.
  intros Hds. unfold unscaled_predictions. cbn [rows]. split.
  - rewrite map_map. apply list_eq. intros k.
    change (map ?f ?l) with (f <$> l). rewrite list_lookup_fmap.
    destruct (ds !! k) as [d|] eqn:Hk.
    + rewrite lookup_seq_lt by by eapply lookup_lt_Some. cbn [fmap option_fmap option_map].
      unfold date_of, cell_at, unscaled_prediction_row. cbn.
      rewrite Hds. change (map Int ds) with (Int <$> ds). by rewrite list_lookup_fmap, Hk.
    + rewrite lookup_seq_ge; [done|]. by apply lookup_ge_None.
  - apply Forall_map, Forall_forall. intros k Hk%elem_of_seq.
    destruct (lookup_lt_is_Some_2 ds k ltac:(lia)) as [d Hd].
    unfold date_of, cell_at, unscaled_prediction_row. cbn.
    rewrite Hds. change (map Int ds) with (Int <$> ds). by rewrite list_lookup_fmap, Hd.
Qed.

(** X20. On the test period with half_tst set, the file [predict] writes
    holds, of the rescaled predictions, exactly the rows dated at or before
    the entry at index floor(n/2) of the n distinct dates in increasing
    order. *)
Theorem predict_halves_test_period (io_data : gmap string ndarray)
    (outdir run_tag : string) (logged_q : bool) (w : World)
    (dist_matrix x dates ids : ndarray) (num_segs b s : nat) (s_t s_q m_t m_q : float)
    (ds u : list Z) :
  io_data !! "dist_matrix" = Some dist_matrix →
  shape dist_matrix !! 0 = Some num_segs →
  io_data !! "x_tst" = Some x →
  io_data !! "dates_tst" = Some dates →
  io_data !! "ids_tst" = Some ids →
  io_data !! "y_trn_obs_std" = Some (array1 [s_t; s_q]) →
  io_data !! "y_trn_obs_mean" = Some (array1 [m_t; m_q]) →
  shape (trained_model_predict x num_segs) = [b; s; 2] →
  length (data (trained_model_predict x num_segs)) = b * s * 2 →
  shape dates = [b; s; 1] → data dates = map Int ds → length ds = b * s →
  shape ids = [b; s; 1] → length (data ids) = b * s →
  0 < b * s →
  StronglySorted Z.lt u →
  (∀ d, d ∈ u ↔ d ∈ ds) →
  ∃ w' table boundary,
    u !! (length u / 2) = Some boundary ∧
    predict np_exp trained_model_predict io_data true "tst" outdir run_tag logged_q w =
      (Ok (), w') ∧
    files w' = <[outdir +:+ "tst_preds" +:+ run_tag +:+ ".feather" := Feather table]> (files w) ∧
    index_names table = [] ∧
    columns table = ["date"; "seg_id_nat"; "temp_c"; "discharge_cms"] ∧
    rows table ≡ₚ
      filter (fun r => (date_of 0 r ≤ boundary)%Z)
        (rows (unscaled_predictions np_exp (trained_model_predict x num_segs) dates ids
                 s_t s_q m_t m_q logged_q (b * s))).
Proof.
  intros HA Hn Hx Hdates Hids Hstd Hmean Hy Hyl Hd Hds Hdl Hi Hil Hpos Hu Helem.
  set (y_pred := trained_model_predict x num_segs) in *.
  set (T := unscaled_predictions np_exp y_pred dates ids s_t s_q m_t m_q logged_q (b * s)).
  destruct (unscaled_predictions_dates y_pred dates ids ds s_t s_q m_t m_q logged_q Hds)
    as [Hdates_T Hrows_T].
  rewrite Hdl in Hdates_T, Hrows_T. fold T in Hdates_T, Hrows_T.
  set (w1 := mkWorld (<[fresh (dom (heap w)) := T]> (heap w)) (files w)).
  destruct (take_first_half_rows w1 (fresh (dom (heap w))) T 0 u)
    as (boundary & l' & Hb & Hhalf).
  { apply lookup_insert_eq. }
  { apply (bool_decide_unpack _). by vm_compute. }
  { done. }
  { eapply Forall_impl; [exact Hrows_T|]. by intros r [? _]. }
  { unfold T, unscaled_predictions. cbn [rows]. destruct (b * s); [lia|done]. }
  { done. }
  { intros d. by rewrite Hdates_T. }
  eexists _, _, boundary. split; [exact Hb|].
  split.
  { unfold predict. rewrite decide_True by by right.
    rewrite bind_run. cbn [mret prog_ret].
    rewrite bind_run. unfold io_get at 1. rewrite HA. cbn [mret prog_ret].
    erewrite bind_lift_ok by (unfold shape_at; by rewrite Hn).
    rewrite bind_run. unfold io_get at 1.
    change ("x_" +:+ "tst") with "x_tst". rewrite Hx. cbn [mret prog_ret].
    rewrite bind_run. unfold io_get at 1.
    change ("dates_" +:+ "tst") with "dates_tst". rewrite Hdates. cbn [mret prog_ret].
    rewrite bind_run. unfold io_get at 1.
    change ("ids_" +:+ "tst") with "ids_tst". rewrite Hids. cbn [mret prog_ret].
    rewrite bind_run, (post_process_run _ _ _ b s)
      by (done || (rewrite ?Hds, ?length_map; lia)).
    rewrite bind_run. unfold io_get at 1. rewrite Hstd. cbn [mret prog_ret].
    rewrite bind_run. unfold io_get at 1. rewrite Hmean. cbn [mret prog_ret].
    rewrite bind_run.
    rewrite (unscale_output_run np_exp _ _ (prediction_table y_pred dates ids (b * s)) 2 3);
      [| apply lookup_insert_eq | apply prediction_table_rectangular | done | done].
    cbn [heap files]. rewrite insert_insert_eq.
    assert (mkDF (index_names (prediction_table y_pred dates ids (b * s)))
              (columns (prediction_table y_pred dates ids (b * s)))
              (map (unscaled_row np_exp 2 3 s_t s_q m_t m_q logged_q)
                 (rows (prediction_table y_pred dates ids (b * s)))) = T) as ->.
    { unfold prediction_table, T, unscaled_predictions. cbn [index_names columns rows].
      by rewrite map_map. }
    fold w1. rewrite bool_decide_eq_true_2 by done. cbn [andb].
    rewrite bind_run, Hhalf.
    erewrite bind_deref by apply lookup_insert_eq.
    unfold to_feather, write_file. cbn [index_names heap files]. reflexivity. }
  cbn [files index_names columns rows].
  split; [done|]. split; [done|]. split; [done|]. cbn [rows].
  rewrite sort_rows_perm, filter_map, map_map.
  cbn [labels cells date_indexed app].
  assert (∀ r, row_key (date_indexed 0 r) = date_of 0 r) as Hkey.
  { intros r. unfold row_key, date_indexed, date_of. cbn [labels].
    by destruct (cell_at 0 r). }
  erewrite (list_filter_iff _ (fun r => (date_of 0 r ≤ boundary)%Z));
    [|intros r; by rewrite Hkey].
  rewrite <- (map_id (filter _ (rows T))) at 2.
  erewrite map_ext_in; [reflexivity|].
  intros r Hr%list_elem_of_In%list_elem_of_filter. destruct Hr as [_ Hr].
  rewrite Forall_forall in Hrows_T. by destruct (Hrows_T r Hr) as [_ ->].
Qed.

End PredictHalved.

Lemma predict_halves_test_period_witness :
  ∃ w' table,
    predict (fun x => x) example_model example_io_data true "tst" "out/" "" false
      (mkWorld ∅ ∅) = (Ok (), w') ∧
    files w' = <["out/tst_preds.feather" := Feather table]> ∅ ∧
    rows table ≡ₚ
      [mkRow [] [Int 1; Int 7; Float 12; Float 1];
       mkRow [] [Int 2; Int 7; Float 14; Float 2];
       mkRow [] [Int 1; Int 8; Float 18; Float 4];
       mkRow [] [Int 2; Int 8; Float 20; Float 5]].
Proof.
  destruct (predict_halves_test_period (fun x => x) example_model example_io_data
              "out/" "" false (mkWorld ∅ ∅)
              (mkArray [2; 2] [Float 0; Float 1; Float 1; Float 0])
              (mkArray [2; 3; 1] (replicate 6 (Float 0)))
              (mkArray [2; 3; 1] [Int 1; Int 2; Int 3; Int 1; Int 2; Int 3])
              (mkArray [2; 3; 1] [Int 7; Int 7; Int 7; Int 8; Int 8; Int 8])
              2 2 3 2%float 1%float 10%float 0%float
              [1; 2; 3; 1; 2; 3]%Z [1; 2; 3]%Z)
    as (w' & table & boundary & Hb & Hrun & Hfiles & _ & _ & Hrows);
    [reflexivity.. | lia | repeat constructor; lia | |].
  { intros d. rewrite !elem_of_cons, !elem_of_nil. intuition. }
  injection Hb as <-.
  exists w', table. split; [exact Hrun|]. split; [exact Hfiles|].
  rewrite Hrows. reflexivity.
Defined.

(** ** Arrays that are missing *)

Section PredictErrors.
Variable np_exp : float → float.
Variable trained_model_predict : ndarray → nat → ndarray.

(** X21. When one of the arrays dist_matrix, x_{tag}, dates_{tag},
    ids_{tag} is missing from the data, [predict] raises KeyError for a
    missing one of them and leaves the state as it was. *)
Theorem predict_missing_array (io_data : gmap string ndarray) (half_tst : bool)
    (tag outdir run_tag : string) (logged_q : bool) (w : World) :
  tag = "trn" ∨ tag = "tst" →
  (∀ a, io_data !! "dist_matrix" = Some a → shape a ≠ []) →
  (∃ key, key ∈ ["dist_matrix"; "x_" +:+ tag; "dates_" +:+ tag; "ids_" +:+ tag] ∧
          io_data !! key = None) →
  ∃ key,
    key ∈ ["dist_matrix"; "x_" +:+ tag; "dates_" +:+ tag; "ids_" +:+ tag] ∧
    io_data !! key = None ∧
    predict np_exp trained_model_predict io_data half_tst tag outdir run_tag logged_q w =
    (Raise (KeyError key), w).
Proof.
  intros Htag Hshape (key0 & Hin & Hnone).
  unfold predict. rewrite decide_True by done.
  rewrite bind_run. cbn [mret prog_ret]. rewrite bind_run. unfold io_get at 1.
  destruct (io_data !! "dist_matrix") as [a|] eqn:HA.
  2:{ exists "dist_matrix". split; [by left|]. done. }
  cbn [mret prog_ret]. rewrite bind_run. unfold lift at 1, shape_at.
  specialize (Hshape a eq_refl). destruct (shape a) as [|n sh] eqn:Hsh; [done|].
  cbn [lookup list_lookup]. rewrite bind_run. unfold io_get at 1.
  destruct (io_data !! ("x_" +:+ tag)) as [x|] eqn:Hx.
  2:{ exists ("x_" +:+ tag). split; [by right; left|]. done. }
  cbn [mret prog_ret]. rewrite bind_run. unfold io_get at 1.
  destruct (io_data !! ("dates_" +:+ tag)) as [dates|] eqn:Hd.
  2:{ exists ("dates_" +:+ tag). split; [by do 2 right; left|]. done. }
  cbn [mret prog_ret]. rewrite bind_run. unfold io_get at 1.
  destruct (io_data !! ("ids_" +:+ tag)) as [ids|] eqn:Hi.
  2:{ exists ("ids_" +:+ tag). split; [by do 3 right; left|]. done. }
  exfalso. rewrite !elem_of_cons, elem_of_nil in Hin.
  destruct Hin as [->|[->|[->|[->|[]]]]]; congruence.
Qed.

End PredictErrors.

Lemma predict_missing_array_witness :
  ∃ key,
    key ∈ ["dist_matrix"; "x_trn"; "dates_trn"; "ids_trn"] ∧
    example_io_data !! key = None ∧
    predict (fun x => x) example_model example_io_data false "trn" "out/" "" false
      (mkWorld ∅ ∅) = (Raise (KeyError key), mkWorld ∅ ∅).
Proof.
  apply (predict_missing_array (fun x => x) example_model example_io_data false "trn"
           "out/" "" false (mkWorld ∅ ∅)).
  - by left.
  - intros a Ha. vm_compute in Ha. by injection Ha as <-.
  - exists "x_trn". split; [by right; left | reflexivity].
Defined.

(** ** What a run leaves alone *)

Lemma kept_refl (w : World) : kept w w.
Proof. by split. Qed.

Lemma preserves_bind {A B} (w0 : World) (m : prog A) (k : A → prog B)
    (Q : A → Prop) (Q' : B → Prop) :
  preserves w0 m Q → (∀ a, Q a → preserves w0 (k a) Q') → preserves w0 (m ≫= k) Q'.
Proof.
  intros Hm Hk w Hw. rewrite bind_run. destruct (Hm w Hw) as [Hw' Ha].
  destruct (m w) as [[a|e] w']; cbn [fst snd] in *.
  - by apply Hk; [apply Ha|].
  - by split.
Qed.

Lemma preserves_mret {A} (w0 : World) (a : A) (Q : A → Prop) :
  Q a → preserves w0 (mret a) Q.
Proof. intros Ha w Hw. split; [done|]. by intros a' [= <-]. Qed.

Lemma preserves_raise {A} (w0 : World) (e : exn) (Q : A → Prop) :
  preserves w0 (raise e) Q.
Proof. intros w Hw. by split. Qed.

Lemma preserves_lift {A} (w0 : World) (r : result A) :
  preserves w0 (lift r) (fun _ => True).
Proof. intros w Hw. by split. Qed.

Lemma preserves_deref (w0 : World) (l : nat) : preserves w0 (deref l) (fun _ => True).
Proof. intros w Hw. unfold deref. by destruct (heap w !! l). Qed.

Lemma preserves_io_get (w0 : World) (io_data : gmap string ndarray) (key : string) :
  preserves w0 (io_get io_data key) (fun _ => True).
Proof. intros w Hw. unfold io_get. by destruct (io_data !! key). Qed.

Lemma preserves_alloc (w0 : World) (df : DataFrame) : preserves w0 (alloc df) (own w0).
Proof.
  intros w [Hf Hh]. unfold alloc. cbn [fst snd].
  assert (own w0 (fresh (dom (heap w)))) as Hown.
  { unfold own. destruct (heap w0 !! fresh (dom (heap w))) as [d|] eqn:Hd; [|done].
    apply Hh in Hd. exfalso. apply (is_fresh (dom (heap w))), elem_of_dom. eauto. }
  split; [|by intros a [= <-]].
  split; [done|]. intros l d Hl. cbn [heap].
  rewrite lookup_insert_ne; [by apply Hh|]. intros <-. unfold own in Hown. congruence.
Qed.

Lemma preserves_inplace (w0 : World) (l : nat) (f : DataFrame → result DataFrame) :
  own w0 l → preserves w0 (inplace l f) (fun _ => True).
Proof.
  intros Hown w [Hf Hh]. unfold inplace, deref, lift, assign. rewrite !bind_run.
  destruct (heap w !! l) as [d|]; [|by split].
  rewrite bind_run. destruct (f d) as [d'|e]; [|by split].
  cbn [fst snd]. split; [|done]. split; [done|].
  intros l' d0 Hl'. cbn [heap]. rewrite lookup_insert_ne; [by apply Hh|].
  intros <-. unfold own in Hown. congruence.
Qed.

Lemma post_process_preserves (w0 : World) (y_pred dates ids : ndarray) :
  preserves w0 (post_process y_pred dates ids) (own w0).
Proof.
  unfold post_process.
  do 6 (eapply preserves_bind; [apply preserves_lift|]; intros ? _).
  apply preserves_alloc.
Qed.

Lemma take_first_half_preserves (w0 : World) (df : nat) :
  own w0 df → preserves w0 (take_first_half df) (own w0).
Proof.
  intros Hown. unfold take_first_half.
  eapply preserves_bind; [by apply preserves_inplace|]. intros _ _.
  eapply preserves_bind; [by apply preserves_inplace|]. intros _ _.
  eapply preserves_bind; [apply preserves_deref|]. intros d _.
  eapply (preserves_bind _ _ _ (fun _ => True)).
  { destruct (_ !! _); [by apply preserves_mret | apply preserves_raise]. }
  intros h _.
  eapply preserves_bind; [apply preserves_alloc|]. intros l Hl.
  eapply preserves_bind; [by apply preserves_inplace|]. intros _ _.
  by apply preserves_mret.
Qed.

Section Frame.
Variable np_exp : float → float.
Variable trained_model_predict : ndarray → nat → ndarray.

Lemma unscale_output_preserves (w0 : World) (y_scl : nat) (y_std y_mean : ndarray)
    (logged_q : bool) :
  own w0 y_scl → preserves w0 (unscale_output np_exp y_scl y_std y_mean logged_q) (own w0).
Proof.
  intros Hown. unfold unscale_output. cbv zeta.
  eapply preserves_bind; [apply preserves_deref|]. intros d _.
  eapply preserves_bind; [apply preserves_lift|]. intros yscl_data _.
  eapply preserves_bind; [apply preserves_lift|]. intros y_unscaled_data _.
  eapply preserves_bind; [by apply preserves_inplace|]. intros _ _.
  eapply (preserves_bind _ _ _ (fun _ => True)); [|intros; by apply preserves_mret].
  destruct logged_q; [|by apply preserves_mret].
  eapply preserves_bind; [apply preserves_deref|]. intros d' _.
  eapply preserves_bind; [apply preserves_lift|]. intros q _.
  by apply preserves_inplace.
Qed.

Lemma writes_only_bind {A B} (w0 : World) (path : string) (m : prog A) (k : A → prog B)
    (Q : A → Prop) :
  preserves w0 m Q → (∀ a, Q a → writes_only w0 path (k a)) →
  writes_only w0 path (m ≫= k).
Proof.
  intros Hm Hk w Hw. rewrite bind_run. destruct (Hm w Hw) as [Hw' Ha].
  destruct (m w) as [[a|e] w']; cbn [fst snd] in *.
  - by apply Hk; [apply Ha|].
  - destruct Hw' as [Hf Hh]. by split.
Qed.

Lemma to_feather_writes_only (w0 : World) (df : DataFrame) (path : string) :
  writes_only w0 path (to_feather df path).
Proof.
  intros w [Hf Hh]. unfold to_feather, write_file, raise.
  destruct (index_names df); cbn [fst snd heap files].
  - split; [done|]. exists df. by rewrite Hf.
  - by split.
Qed.

Lemma predict_writes_only (w0 : World) (io_data : gmap string ndarray) (half_tst : bool)
    (tag outdir run_tag : string) (logged_q : bool) :
  writes_only w0 (preds_path outdir tag run_tag)
    (predict np_exp trained_model_predict io_data half_tst tag outdir run_tag logged_q).
Proof.
  unfold predict.
  eapply (writes_only_bind _ _ _ _ (fun _ => True)).
  { case_decide; [by apply preserves_mret | apply preserves_raise]. }
  intros _ _.
  eapply writes_only_bind; [apply preserves_io_get|]. intros dist_matrix _.
  eapply writes_only_bind; [apply preserves_lift|]. intros num_segs _.
  eapply writes_only_bind; [apply preserves_io_get|]. intros x _. cbv zeta.
  eapply writes_only_bind; [apply preserves_io_get|]. intros dates _.
  eapply writes_only_bind; [apply preserves_io_get|]. intros ids _.
  eapply writes_only_bind; [apply post_process_preserves|]. intros l Hl.
  eapply writes_only_bind; [apply preserves_io_get|]. intros y_std _.
  eapply writes_only_bind; [apply preserves_io_get|]. intros y_mean _.
  eapply writes_only_bind; [by apply unscale_output_preserves|]. intros l' Hl'.
  eapply (writes_only_bind _ _ _ _ (own w0)).
  { destruct (half_tst && _); [by apply take_first_half_preserves | by apply preserves_mret]. }
  intros l'' Hl''.
  eapply writes_only_bind; [apply preserves_deref|]. intros d _.
  apply to_feather_writes_only.
Qed.

(** X22. Whatever its arguments and whether it returns or raises,
    [predict] leaves every table that existed before as it was (it works on
    tables of its own making) and every file other than
    {outdir}{tag}_preds{run_tag}.feather as it was; when it raises, no file
    at all has changed. *)
Theorem predict_touches_one_file (io_data : gmap string ndarray) (half_tst : bool)
    (tag outdir run_tag : string) (logged_q : bool) (w : World) :
  ∃ r w',
    predict np_exp trained_model_predict io_data half_tst tag outdir run_tag logged_q w =
      (r, w') ∧
    (∀ l d, heap w !! l = Some d → heap w' !! l = Some d) ∧
    (∀ path, path ≠ outdir +:+ tag +:+ "_preds" +:+ run_tag +:+ ".feather" →
             files w' !! path = files w !! path) ∧
    ((∃ e, r = Raise e) → files w' = files w).
Proof.
  pose proof (predict_writes_only w io_data half_tst tag outdir run_tag logged_q w
                (kept_refl w)) as [Hh Hf].
  destruct (predict np_exp trained_model_predict io_data half_tst tag outdir run_tag
              logged_q w) as [r w'].
  cbn [fst snd] in *. exists r, w'. split; [done|]. split; [done|].
  destruct r as [[]|e].
  - destruct Hf as [table ->]. split; [|by intros [e [=]]].
    intros path Hpath. by rewrite lookup_insert_ne.
  - rewrite Hf. by split.
Qed.

End Frame.

(** ** The script *)

Lemma append_inj_l (p s1 s2 : string) : p +:+ s1 = p +:+ s2 → s1 = s2.
Proof. induction p as [|c p IH]; cbn; [done|]. intros [= H]. by apply IH. Qed.

Lemma preds_path_periods (outdir run_tag : string) :
  preds_path outdir "tst" run_tag ≠ preds_path outdir "trn" run_tag.
Proof. unfold preds_path. intros H%append_inj_l. discriminate H. Qed.

Section ScriptRuns.
Variable np_exp : float → float.
Variable RGCNModel : Z → nat → ndarray → string → ndarray → nat → ndarray.

Lemma predict_runs (trained_model_predict : ndarray → nat → ndarray)
    (io_data : gmap string ndarray) (half_tst : bool) (tag outdir run_tag : string)
    (logged_q : bool) :
  tag = "trn" ∨ tag = "tst" →
  runs_without_tag_error
    (predict np_exp trained_model_predict io_data half_tst tag outdir run_tag logged_q).
Proof.
  intros Htag. unfold predict. rewrite decide_True by done.
  apply runs_bind; [apply runs_mret|]. intros _.
  apply runs_bind; [apply runs_io_get|]. intros dist_matrix.
  apply runs_bind; [apply runs_lift, shape_at_no_tag_error|]. intros num_segs.
  apply runs_bind; [apply runs_io_get|]. intros x.
  apply runs_bind; [apply runs_io_get|]. intros dates.
  apply runs_bind; [apply runs_io_get|]. intros ids.
  apply runs_bind; [apply post_process_runs|]. intros y_pred_pp.
  apply runs_bind; [apply runs_io_get|]. intros y_std.
  apply runs_bind; [apply runs_io_get|]. intros y_mean.
  apply runs_bind; [apply unscale_output_runs|]. intros y_pred_pp'.
  apply runs_bind.
  { destruct (half_tst && _); [apply take_first_half_runs | apply runs_mret]. }
  intros y_pred_pp''.
  apply runs_bind; [apply runs_deref|]. intros d.
  apply runs_to_feather.
Qed.

(** X23. A run of the script is the same whatever weights directory it is
    given (the path it loads the weights from has an absolute second part,
    which replaces the directory). It never raises the error of the tag
    check, changes no table that existed before, and touches no file other
    than {outdir}tst_preds{suffix}.feather and
    {outdir}trn_preds{suffix}.feather, the suffix being empty for an empty
    run tag and an underscore followed by the run tag otherwise. The test
    period comes first: when the run raises, the file of the training period
    has not been written. *)
Theorem predict_script_files (hidden_size : Z) (data : gmap string ndarray)
    (outdir : string) (halve logged_q : bool) (run_tag : string) (w : World) :
  let suffix := if decide (run_tag ≠ "") then "_" +:+ run_tag else run_tag in
  ∃ r w',
    (∀ weights_dir,
       predict_script np_exp RGCNModel hidden_size data outdir weights_dir halve logged_q
         run_tag w = (r, w')) ∧
    r ≠ Raise (ValueError tag_error_msg) ∧
    (∀ l d, heap w !! l = Some d → heap w' !! l = Some d) ∧
    (∀ path, path ≠ outdir +:+ "tst_preds" +:+ suffix +:+ ".feather" →
             path ≠ outdir +:+ "trn_preds" +:+ suffix +:+ ".feather" →
             files w' !! path = files w !! path) ∧
    ((∃ e, r = Raise e) →
     files w' !! (outdir +:+ "trn_preds" +:+ suffix +:+ ".feather") =
     files w !! (outdir +:+ "trn_preds" +:+ suffix +:+ ".feather")).
Proof.
  intros suffix.
  assert (∀ weights_dir,
            predict_script np_exp RGCNModel hidden_size data outdir weights_dir halve logged_q
              run_tag w =
            predict_script np_exp RGCNModel hidden_size data outdir "" halve logged_q
              run_tag w) as Hdir by reflexivity.
  cut (∃ r w',
         predict_script np_exp RGCNModel hidden_size data outdir "" halve logged_q run_tag w =
           (r, w') ∧
         r ≠ Raise (ValueError tag_error_msg) ∧
         (∀ l d, heap w !! l = Some d → heap w' !! l = Some d) ∧
         (∀ path, path ≠ outdir +:+ "tst_preds" +:+ suffix +:+ ".feather" →
                  path ≠ outdir +:+ "trn_preds" +:+ suffix +:+ ".feather" →
                  files w' !! path = files w !! path) ∧
         ((∃ e, r = Raise e) →
          files w' !! (outdir +:+ "trn_preds" +:+ suffix +:+ ".feather") =
          files w !! (outdir +:+ "trn_preds" +:+ suffix +:+ ".feather"))).
  { intros (r & w' & Hrun & H). exists r, w'. split; [|exact H].
    intros weights_dir. by rewrite Hdir. }
  clear Hdir. unfold predict_script. cbv zeta. fold suffix.
  rewrite bind_run. unfold io_get at 1.
  destruct (data !! "dist_matrix") as [dist_matrix|].
  2:{ eexists _, _. split; [reflexivity|]. split; [by other_error|]. by repeat split. }
  cbn [mret prog_ret].
  set (model := RGCNModel hidden_size 2 dist_matrix _).
  rewrite bind_run.
  pose proof (predict_writes_only np_exp model w data halve "tst" outdir suffix logged_q w
                (kept_refl w)) as [Hh1 Hf1].
  pose proof (predict_runs model data halve "tst" outdir suffix logged_q
                ltac:(by right) w) as Hr1.
  destruct (predict np_exp model data halve "tst" outdir suffix logged_q w) as [[[]|e] w1];
    cbn [fst snd] in *.
  2:{ eexists _, _. split; [reflexivity|]. split; [done|]. split; [done|].
      rewrite Hf1. by split. }
  destruct Hf1 as [table1 Hf1].
  pose proof (predict_writes_only np_exp model w1 data halve "trn" outdir suffix logged_q w1
                (kept_refl w1)) as [Hh2 Hf2].
  pose proof (predict_runs model data halve "trn" outdir suffix logged_q
                ltac:(by left) w1) as Hr2.
  destruct (predict np_exp model data halve "trn" outdir suffix logged_q w1) as [r w2];
    cbn [fst snd] in *.
  eexists _, _. split; [reflexivity|]. split; [done|]. split; [by eauto|].
  fold (preds_path outdir "tst" suffix). fold (preds_path outdir "trn" suffix).
  destruct r as [[]|e].
  - destruct Hf2 as [table2 Hf2]. rewrite Hf2, Hf1. split; [|by intros [e [=]]].
    intros path Htst Htrn. by rewrite !lookup_insert_ne.
  - rewrite Hf2, Hf1. split.
    + intros path Htst Htrn. by rewrite lookup_insert_ne.
    + intros _. rewrite lookup_insert_ne; [done|]. apply preds_path_periods.
Qed.

End ScriptRuns.

(** ** Metrics by segment *)

Lemma insert_key_int (z : Z) (u : list Z) :
  StronglySorted Z.lt u →
  ∃ u', insert_key (Int z) (map Int u) = map Int u' ∧
        StronglySorted Z.lt u' ∧ ∀ x, x ∈ u' ↔ x = z ∨ x ∈ u.
Proof.
  induction 1 as [|y u Hu IH Hall].
  { exists [z]. split; [done|]. split; [by repeat constructor|].
    intros x. rewrite list_elem_of_singleton, elem_of_nil. intuition. }
  cbn [map insert_key cell_cmp]. destruct (Z.compare_spec z y) as [->|Hlt|Hgt].
  - exists (y :: u). split; [done|]. split; [by constructor|].
    intros x. rewrite elem_of_cons. intuition.
  - exists (z :: y :: u). split; [done|]. split.
    + constructor; [by constructor|]. constructor; [done|].
      eapply Forall_impl; [exact Hall|]. intros; lia.
    + intros x. rewrite !elem_of_cons. intuition.
  - destruct IH as (u' & -> & Hu' & Helem). exists (y :: u'). split; [done|]. split.
    + constructor; [done|]. apply Forall_forall. intros x [->|Hx]%Helem; [lia|].
      rewrite Forall_forall in Hall. by apply Hall.
    + intros x. rewrite !elem_of_cons, Helem. intuition.
Qed.

Lemma group_keys_int (zs : list Z) :
  ∃ u, group_keys (map Int zs) = map Int u ∧
       StronglySorted Z.lt u ∧ ∀ x, x ∈ u ↔ x ∈ zs.
Proof.
  unfold group_keys.
  assert (List.filter (fun c => negb (cell_isna c)) (map Int zs) = map Int zs) as ->.
  { induction zs as [|z zs IH]; [done|]. cbn. by rewrite IH. }
  induction zs as [|z zs (u & Hu & Hs & Helem)].
  { exists []. split; [done|]. split; [constructor|done]. }
  cbn [map foldr]. rewrite Hu.
  destruct (insert_key_int z u Hs) as (u' & -> & Hs' & Helem').
  exists u'. split; [done|]. split; [done|].
  intros x. rewrite Helem', Helem, elem_of_cons. done.
Qed.

Lemma mapM_ok {A B} (f : A → result B) (g : A → B) (l : list A) :
  (∀ x, x ∈ l → f x = Ok (g x)) → mapM f l = Ok (map g l).
Proof.
  induction l as [|x l IH]; intros H; [done|].
  cbn [mapM map]. rewrite (H x) by left. cbn [mbind result_bind].
  rewrite IH by (intros y Hy; apply H; by right). done.
Qed.

(** On a joined table [calc_reach_specific_metrics] always returns its two
    entries. *)
Lemma calc_reach_specific_metrics_entries (df : DataFrame) :
  columns df = ["pred"; "obs"] →
  ∃ r n, calc_reach_specific_metrics df = Ok [("rmse", r); ("nse", n)].
Proof.
  intros Hc. unfold calc_reach_specific_metrics, getitem. rewrite Hc.
  change (index_of "obs" ["pred"; "obs"]) with (Some 1).
  change (index_of "pred" ["pred"; "obs"]) with (Some 0).
  cbn [mbind result_bind].
  case_decide; [|by eauto].
  rewrite rmse_masked_same_length by (unfold values; by rewrite !length_map).
  rewrite nse_same_length by (unfold values; by rewrite !length_map).
  cbn [mbind result_bind]. eauto.
Qed.

Section ReachMetrics.
Variable apply_without_groups : DataFrame → DataFrame.

(** The per-segment table of a joined table whose rows carry segment ids. *)
Lemma groupby_apply_reaches (df : DataFrame) (segs : list Z) :
  index_names df = ["date"; "seg_id_nat"] →
  columns df = ["pred"; "obs"] →
  rows df ≠ [] →
  Forall (fun r => ∃ z, labels r !! 1 = Some (Int z)) (rows df) →
  StronglySorted Z.lt segs →
  (∀ z, z ∈ segs ↔ ∃ r, r ∈ rows df ∧ labels r !! 1 = Some (Int z)) →
  (t ← groupby_apply apply_without_groups "seg_id_nat" calc_reach_specific_metrics df;
   reset_index t) = Ok (reach_metrics_table df segs).
Proof.
  intros Hi Hc Hne Hlab Hsegs Helem.
  unfold groupby_apply, group_key. rewrite Hi, Hc.
  change (index_of "seg_id_nat" ["pred"; "obs"]) with (@None nat).
  change (index_of "seg_id_nat" ["date"; "seg_id_nat"]) with (Some 1).
  cbn [mbind result_bind].
  set (key := fun r : Row => default NaN (labels r !! 1)).
  set (zs := map (fun r => match labels r !! 1 with Some (Int z) => z | _ => 0%Z end) (rows df)).
  assert (map key (rows df) = map Int zs) as Hkeys.
  { unfold zs. rewrite map_map. apply map_ext_in. intros r Hr%list_elem_of_In.
    rewrite Forall_forall in Hlab. destruct (Hlab r Hr) as [z Hz].
    unfold key. by rewrite Hz. }
  rewrite Hkeys. destruct (group_keys_int zs) as (u & -> & Hu & Hu_elem).
  assert (u = segs) as ->.
  { apply strictly_sorted_dates_unique; [done..|].
    intros z. rewrite Hu_elem, Helem. unfold zs.
    rewrite list_elem_of_In, in_map_iff. split.
    - intros (r & Hz & Hr%list_elem_of_In). exists r. split; [done|].
      rewrite Forall_forall in Hlab. destruct (Hlab r Hr) as [z' Hz'].
      rewrite Hz' in Hz |- *. by subst.
    - intros (r & Hr & Hz). exists r. rewrite Hz. by rewrite <- list_elem_of_In. }
  assert (∀ z, get_group key (Int z) df = reach_of z df) as Hgroup.
  { intros z. unfold get_group, reach_of. f_equal.
    apply List.filter_ext_in. intros r Hr%list_elem_of_In.
    rewrite Forall_forall in Hlab. destruct (Hlab r Hr) as [z' Hz'].
    unfold key, in_reach. rewrite Hz'. cbn [default from_option id cell_cmp].
    destruct (Z.compare_spec z' z) as [->|Hlt|Hgt].
    - by rewrite Z.eqb_refl.
    - symmetry. apply Z.eqb_neq. lia.
    - symmetry. apply Z.eqb_neq. lia. }
  set (entries := fun z => match calc_reach_specific_metrics (reach_of z df) with
                           | Ok s => s
                           | Raise _ => []
                           end).
  rewrite (mapM_ok _ (fun c => match c with Int z => entries z | Float _ => [] end)).
  2:{ intros c (z & <- & Hz)%list_elem_of_In%in_map_iff. rewrite Hgroup. unfold entries.
      destruct (calc_reach_specific_metrics_entries (reach_of z df) Hc) as (r & n & ->).
      done. }
  cbn [mbind result_bind].
  assert (segs ≠ []) as Hsegs_ne.
  { destruct (rows df) as [|r rs] eqn:Hrows; [done|].
    apply Forall_cons in Hlab as [[z Hz] _]. intros ->.
    apply (elem_of_nil z), Helem. exists r. split; [left|done]. }
  assert (∀ z, map fst (entries z) = ["rmse"; "nse"]) as Hfst.
  { intros z. unfold entries.
    by destruct (calc_reach_specific_metrics_entries (reach_of z df) Hc) as (r & n & ->). }
  assert (∀ z, reach_metrics_row df z =
               mkRow [] ([Int z] ++ map (fun e => Float e.2) (entries z))) as Hrow.
  { intros z. unfold reach_metrics_row, entries.
    by destruct (calc_reach_specific_metrics (reach_of z df)). }
  unfold reach_metrics_table. erewrite (map_ext (reach_metrics_row df)) by apply Hrow.
  clear Hsegs Helem Hrow.
  destruct segs as [|z0 rest]; [done|]. cbn [map]. rewrite Hfst.
  cbn [mbind result_bind]. unfold reset_index. cbn [index_names columns List.find].
  rewrite !bool_decide_eq_false_2
    by (rewrite !elem_of_cons, elem_of_nil; intros [?|[?|[]]]; discriminate).
  cbn [rows app zip_with map labels cells]. do 3 f_equal.
  rewrite !map_map, zip_with_map_map, map_map. done.
Qed.

Lemma joined_rows (P O : DataFrame) (jd js jv kd ks kv : nat) (c : Row) :
  c ∈ flat_map (join_row (keyed kd ks kv "obs" O)) (rows (keyed jd js jv "pred" P)) ↔
  ∃ p, p ∈ rows P ∧
       c ∈ join_row (keyed kd ks kv "obs" O) (mkRow (key_of jd js p) [cell_at jv p]).
Proof.
  unfold keyed at 2. cbn [rows].
  rewrite list_elem_of_In, in_flat_map. split.
  - intros (x & (p & <- & Hp)%in_map_iff & Hc).
    exists p. by rewrite !list_elem_of_In.
  - intros (p & Hp & Hc). eexists.
    split; [apply in_map_iff; exists p; split; [reflexivity|by apply list_elem_of_In]|].
    by apply list_elem_of_In.
Qed.

Lemma joined_reaches (P O : DataFrame) (jd js jv kd ks kv : nat) (segs : list Z) :
  rows P ≠ [] →
  Forall (fun p => cell_at js p = Int (seg_of js p)) (rows P) →
  StronglySorted Z.lt segs →
  (∀ z, z ∈ segs ↔ z ∈ map (seg_of js) (rows P)) →
  (t ← groupby_apply apply_without_groups "seg_id_nat" calc_reach_specific_metrics
         (mkDF ["date"; "seg_id_nat"] ["pred"; "obs"]
            (flat_map (join_row (keyed kd ks kv "obs" O)) (rows (keyed jd js jv "pred" P))));
   reset_index t) =
  Ok (reach_metrics_table
        (mkDF ["date"; "seg_id_nat"] ["pred"; "obs"]
           (flat_map (join_row (keyed kd ks kv "obs" O)) (rows (keyed jd js jv "pred" P))))
        segs).
Proof.
  intros Hne Hint Hsegs Helem.
  rewrite Forall_forall in Hint.
  apply groupby_apply_reaches; [done | done | | | done |]; cbn [rows].
  - destruct (rows P) as [|p ps] eqn:Hrows; [done|].
    intros Hnil.
    assert (mkRow (key_of jd js p)
              ([cell_at jv p] ++
               drop 1 (cells (default (mkRow [] []) (head (join_row (keyed kd ks kv "obs" O)
                 (mkRow (key_of jd js p) [cell_at jv p]))))))
            ∈ @nil Row) as Hin; [|by apply elem_of_nil in Hin].
    rewrite <- Hnil. apply joined_rows. exists p. rewrite Hrows. split; [left|].
    destruct (join_row_head (keyed kd ks kv "obs" O) (mkRow (key_of jd js p) [cell_at jv p]))
      as (tail & rest & ->).
    cbn. left.
  - apply Forall_forall. intros c (p & Hp & Hc)%joined_rows.
    apply join_row_shape in Hc as [tail ->]. cbn [labels key_of].
    exists (seg_of js p). cbn. by rewrite (Hint p Hp).
  - intros z. rewrite Helem, list_elem_of_In, in_map_iff. split.
    + intros (p & <- & Hp%list_elem_of_In).
      destruct (join_row_head (keyed kd ks kv "obs" O)
                  (mkRow (key_of jd js p) [cell_at jv p])) as (tail & rest & Hhead).
      eexists. split.
      * apply joined_rows. exists p. split; [done|]. rewrite Hhead. left.
      * cbn. by rewrite (Hint p Hp).
    + intros (c & (p & Hp & Hc)%joined_rows & Hz).
      apply join_row_shape in Hc as [tail ->]. cbn in Hz.
      exists p. split; [|by apply list_elem_of_In].
      rewrite (Hint p Hp) in Hz. by injection Hz.
Qed.

Lemma reach_specific_metrics_run (w : World)
    (pred_file obs_file_temp obs_file_flow outdir tag run_tag : string)
    (P Ot Of : DataFrame) (jd js jt jq td ts tt fd fs fq : nat) (segs : list Z) :
  files w !! pred_file = Some (Feather P) →
  files w !! obs_file_temp = Some (Csv Ot) →
  files w !! obs_file_flow = Some (Csv Of) →
  index_of "date" (columns P) = Some jd →
  index_of "seg_id_nat" (columns P) = Some js →
  index_of "temp_c" (columns P) = Some jt →
  index_of "discharge_cms" (columns P) = Some jq →
  index_of "date" (columns Ot) = Some td →
  index_of "seg_id_nat" (columns Ot) = Some ts →
  index_of "temp_c" (columns Ot) = Some tt →
  index_of "date" (columns Of) = Some fd →
  index_of "seg_id_nat" (columns Of) = Some fs →
  index_of "discharge_cms" (columns Of) = Some fq →
  rows P ≠ [] →
  Forall (fun p => cell_at js p = Int (seg_of js p)) (rows P) →
  StronglySorted Z.lt segs →
  (∀ z, z ∈ segs ↔ z ∈ map (seg_of js) (rows P)) →
  ∃ temp_data flow_data,
    fmt_preds_obs pred_file obs_file_temp "temp_c" w = (Ok temp_data, w) ∧
    fmt_preds_obs pred_file obs_file_flow "discharge_cms" w = (Ok flow_data, w) ∧
    columns temp_data = ["pred"; "obs"] ∧
    reach_specific_metrics apply_without_groups pred_file obs_file_temp obs_file_flow
      outdir tag run_tag w =
    (Ok (),
     mkWorld (heap w)
       (<[outdir +:+ tag +:+ "_flow_reach_metrics" +:+ run_tag +:+ ".feather" :=
            Feather (reach_metrics_table flow_data segs)]>
          (<[outdir +:+ tag +:+ "_temp_reach_metrics" +:+ run_tag +:+ ".feather" :=
               Feather (reach_metrics_table temp_data segs)]>
             (files w)))).
Proof.
  intros HP HOt HOf Hjd Hjs Hjt Hjq Htd Hts Htt Hfd Hfs Hfq Hne Hint Hsegs Helem.
  pose proof (fmt_preds_obs_run w pred_file obs_file_temp "temp_c" P Ot jd js jt td ts tt
                HP HOt ltac:(done) ltac:(done) Hjd Hjs Hjt Htd Hts Htt) as Htemp.
  pose proof (fmt_preds_obs_run w pred_file obs_file_flow "discharge_cms" P Of jd js jq fd fs fq
                HP HOf ltac:(done) ltac:(done) Hjd Hjs Hjq Hfd Hfs Hfq) as Hflow.
  eexists _, _. split; [exact Htemp|]. split; [exact Hflow|]. split; [done|].
  unfold reach_specific_metrics.
  rewrite bind_run, Htemp, bind_run, Hflow.
  erewrite bind_lift_ok by by apply joined_reaches.
  erewrite bind_lift_ok by by apply joined_reaches.
  rewrite bind_run. unfold to_feather, write_file. cbn [index_names reach_metrics_table].
  reflexivity.
Qed.

(** X24. For a predictions file with at least one row, whose segment ids
    are integers, [reach_specific_metrics] writes two tables, one for the
    temperature and one for the discharge, each with the columns seg_id_nat,
    rmse and nse and one row per distinct segment of the predictions, in
    ascending order of the segment id; the row of a segment holds what
    [calc_reach_specific_metrics] returns for the joined rows of that
    segment. No table is created or changed. *)
Theorem reach_specific_metrics_tables (w : World)
    (pred_file obs_file_temp obs_file_flow outdir tag run_tag : string)
    (P Ot Of : DataFrame) (jd js jt jq td ts tt fd fs fq : nat) (segs : list Z) :
  files w !! pred_file = Some (Feather P) →
  files w !! obs_file_temp = Some (Csv Ot) →
  files w !! obs_file_flow = Some (Csv Of) →
  index_of "date" (columns P) = Some jd →
  index_of "seg_id_nat" (columns P) = Some js →
  index_of "temp_c" (columns P) = Some jt →
  index_of "discharge_cms" (columns P) = Some jq →
  index_of "date" (columns Ot) = Some td →
  index_of "seg_id_nat" (columns Ot) = Some ts →
  index_of "temp_c" (columns Ot) = Some tt →
  index_of "date" (columns Of) = Some fd →
  index_of "seg_id_nat" (columns Of) = Some fs →
  index_of "discharge_cms" (columns Of) = Some fq →
  rows P ≠ [] →
  Forall (fun p => cell_at js p = Int (seg_of js p)) (rows P) →
  StronglySorted Z.lt segs →
  (∀ z, z ∈ segs ↔ z ∈ map (seg_of js) (rows P)) →
  ∃ temp_data flow_data w',
    fmt_preds_obs pred_file obs_file_temp "temp_c" w = (Ok temp_data, w) ∧
    fmt_preds_obs pred_file obs_file_flow "discharge_cms" w = (Ok flow_data, w) ∧
    reach_specific_metrics apply_without_groups pred_file obs_file_temp obs_file_flow
      outdir tag run_tag w = (Ok (), w') ∧
    heap w' = heap w ∧
    files w' =
      <[outdir +:+ tag +:+ "_flow_reach_metrics" +:+ run_tag +:+ ".feather" :=
          Feather (mkDF [] ["seg_id_nat"; "rmse"; "nse"]
                     (map (reach_metrics_row flow_data) segs))]>
        (<[outdir +:+ tag +:+ "_temp_reach_metrics" +:+ run_tag +:+ ".feather" :=
             Feather (mkDF [] ["seg_id_nat"; "rmse"; "nse"]
                        (map (reach_metrics_row temp_data) segs))]>
           (files w)).
Proof.
  intros HP HOt HOf Hjd Hjs Hjt Hjq Htd Hts Htt Hfd Hfs Hfq Hne Hint Hsegs Helem.
  destruct (reach_specific_metrics_run w pred_file obs_file_temp obs_file_flow outdir tag
              run_tag P Ot Of jd js jt jq td ts tt fd fs fq segs)
    as (temp_data & flow_data & Htemp & Hflow & _ & Hrun); try done.
  exists temp_data, flow_data. eexists. split; [exact Htemp|]. split; [exact Hflow|].
  split; [exact Hrun|]. by split.
Qed.

Lemma reach_paths (outdir tag run_tag : string) :
  outdir +:+ tag +:+ "_flow_reach_metrics" +:+ run_tag +:+ ".feather" ≠
  outdir +:+ tag +:+ "_temp_reach_metrics" +:+ run_tag +:+ ".feather".
Proof. intros H%append_inj_l%append_inj_l. discriminate H. Qed.

(** X25. In the temperature table [reach_specific_metrics] writes, a
    segment with ten or fewer observations matched to its predictions has
    NaN for both metrics, and a segment with more than ten has the values
    [rmse_masked] and [nse] return on its joined rows. *)
Theorem reach_tables_threshold (w : World)
    (pred_file obs_file_temp obs_file_flow outdir tag run_tag : string)
    (P Ot Of : DataFrame) (jd js jt jq td ts tt fd fs fq : nat) (segs : list Z) (z : Z) :
  files w !! pred_file = Some (Feather P) →
  files w !! obs_file_temp = Some (Csv Ot) →
  files w !! obs_file_flow = Some (Csv Of) →
  index_of "date" (columns P) = Some jd →
  index_of "seg_id_nat" (columns P) = Some js →
  index_of "temp_c" (columns P) = Some jt →
  index_of "discharge_cms" (columns P) = Some jq →
  index_of "date" (columns Ot) = Some td →
  index_of "seg_id_nat" (columns Ot) = Some ts →
  index_of "temp_c" (columns Ot) = Some tt →
  index_of "date" (columns Of) = Some fd →
  index_of "seg_id_nat" (columns Of) = Some fs →
  index_of "discharge_cms" (columns Of) = Some fq →
  rows P ≠ [] →
  Forall (fun p => cell_at js p = Int (seg_of js p)) (rows P) →
  StronglySorted Z.lt segs →
  (∀ z, z ∈ segs ↔ z ∈ map (seg_of js) (rows P)) →
  z ∈ segs →
  ∃ temp_data w' table,
    fmt_preds_obs pred_file obs_file_temp "temp_c" w = (Ok temp_data, w) ∧
    reach_specific_metrics apply_without_groups pred_file obs_file_temp obs_file_flow
      outdir tag run_tag w = (Ok (), w') ∧
    files w' !! (outdir +:+ tag +:+ "_temp_reach_metrics" +:+ run_tag +:+ ".feather") =
      Some (Feather table) ∧
    (count (map (cell_at 1) (rows (reach_of z temp_data))) ≤ 10 →
     mkRow [] [Int z; NaN; NaN] ∈ rows table) ∧
    (10 < count (map (cell_at 1) (rows (reach_of z temp_data))) →
     ∃ r n,
       rmse_masked (obs_values (reach_of z temp_data)) (pred_values (reach_of z temp_data)) =
         Ok r ∧
       nse (obs_values (reach_of z temp_data)) (pred_values (reach_of z temp_data)) = Ok n ∧
       mkRow [] [Int z; Float r; Float n] ∈ rows table).
Proof.
  intros HP HOt HOf Hjd Hjs Hjt Hjq Htd Hts Htt Hfd Hfs Hfq Hne Hint Hsegs Helem Hz.
  destruct (reach_specific_metrics_run w pred_file obs_file_temp obs_file_flow outdir tag
              run_tag P Ot Of jd js jt jq td ts tt fd fs fq segs)
    as (temp_data & flow_data & Htemp & Hflow & Hc & Hrun); try done.
  exists temp_data. eexists _, _. split; [exact Htemp|]. split; [exact Hrun|].
  cbn [files]. split.
  { rewrite lookup_insert_ne by apply reach_paths. apply lookup_insert_eq. }
  unfold reach_metrics_table. cbn [rows].
  assert (reach_metrics_row temp_data z ∈ map (reach_metrics_row temp_data) segs) as Hin.
  { apply list_elem_of_In, in_map, list_elem_of_In, Hz. }
  assert (columns (reach_of z temp_data) = ["pred"; "obs"]) as Hc' by done.
  unfold reach_metrics_row in Hin. unfold calc_reach_specific_metrics, getitem in Hin.
  rewrite Hc' in Hin.
  change (index_of "obs" ["pred"; "obs"]) with (Some 1) in Hin.
  change (index_of "pred" ["pred"; "obs"]) with (Some 0) in Hin.
  cbn [mbind result_bind] in Hin.
  split; intros Hcount.
  - by rewrite decide_False in Hin by lia.
  - rewrite decide_True in Hin by done. cbn [mbind result_bind] in Hin.
    fold (obs_values (reach_of z temp_data)) in Hin.
    fold (pred_values (reach_of z temp_data)) in Hin.
    rewrite (rmse_masked_same_length _ _ (obs_pred_length _)) in Hin.
    rewrite (nse_same_length _ _ (obs_pred_length _)) in Hin.
    cbn [mbind result_bind map snd] in Hin.
    eexists _, _. split; [apply rmse_masked_same_length, obs_pred_length|].
    split; [apply nse_same_length, obs_pred_length|]. exact Hin.
Qed.

End ReachMetrics.

Lemma reach_specific_metrics_tables_witness :
  ∃ w',
    reach_specific_metrics (fun df => df) "preds.feather" "obs_temp.csv" "obs_flow.csv"
      "out/" "tst" "" metrics_world = (Ok (), w') ∧
    files w' =
      <["out/tst_flow_reach_metrics.feather" :=
          Feather (mkDF [] ["seg_id_nat"; "rmse"; "nse"] [mkRow [] [Int 7; NaN; NaN]])]>
        (<["out/tst_temp_reach_metrics.feather" :=
             Feather (mkDF [] ["seg_id_nat"; "rmse"; "nse"] [mkRow [] [Int 7; NaN; NaN]])]>
           (files metrics_world)).
Proof.
  destruct (reach_specific_metrics_tables (fun df => df) metrics_world
              "preds.feather" "obs_temp.csv" "obs_flow.csv" "out/" "tst" ""
              (mkDF [] ["date"; "seg_id_nat"; "temp_c"; "discharge_cms"]
                 [mkRow [] [Int 1; Int 7; Float 12; Float 1];
                  mkRow [] [Int 2; Int 7; Float 14; Float 2];
                  mkRow [] [Int 3; Int 7; Float 16; Float 3]])
              (mkDF [] ["date"; "seg_id_nat"; "temp_c"]
                 [mkRow [] [Int 1; Int 7; Float 11]; mkRow [] [Int 3; Int 7; Float 17];
                  mkRow [] [Int 4; Int 7; Float 9]])
              (mkDF [] ["date"; "seg_id_nat"; "discharge_cms"]
                 [mkRow [] [Int 1; Int 7; Float 1]; mkRow [] [Int 3; Int 7; Float 3]])
              0 1 2 3 0 1 2 0 1 2 [7%Z])
    as (temp_data & flow_data & w' & Htemp & Hflow & Hrun & _ & Hfiles);
    [reflexivity.. | done | by repeat constructor | by repeat constructor | |].
  { intros z. cbn. rewrite !elem_of_cons, !elem_of_nil. intuition. }
  exists w'. split; [exact Hrun|]. rewrite Hfiles.
  vm_compute in Htemp. injection Htemp as <-.
  vm_compute in Hflow. injection Hflow as <-.
  reflexivity.
Defined.

Lemma reach_tables_threshold_witness :
  ∃ w' table,
    reach_specific_metrics (fun df => df) "preds.feather" "obs_temp.csv" "obs_flow.csv"
      "out/" "tst" "" metrics_world = (Ok (), w') ∧
    files w' !! "out/tst_temp_reach_metrics.feather" = Some (Feather table) ∧
    mkRow [] [Int 7; NaN; NaN] ∈ rows table.
Proof.
  destruct (reach_tables_threshold (fun df => df) metrics_world
              "preds.feather" "obs_temp.csv" "obs_flow.csv" "out/" "tst" ""
              (mkDF [] ["date"; "seg_id_nat"; "temp_c"; "discharge_cms"]
                 [mkRow [] [Int 1; Int 7; Float 12; Float 1];
                  mkRow [] [Int 2; Int 7; Float 14; Float 2];
                  mkRow [] [Int 3; Int 7; Float 16; Float 3]])
              (mkDF [] ["date"; "seg_id_nat"; "temp_c"]
                 [mkRow [] [Int 1; Int 7; Float 11]; mkRow [] [Int 3; Int 7; Float 17];
                  mkRow [] [Int 4; Int 7; Float 9]])
              (mkDF [] ["date"; "seg_id_nat"; "discharge_cms"]
                 [mkRow [] [Int 1; Int 7; Float 1]; mkRow [] [Int 3; Int 7; Float 3]])
              0 1 2 3 0 1 2 0 1 2 [7%Z] 7%Z)
    as (temp_data & w' & table & Htemp & Hrun & Hfile & Hfew & _);
    [reflexivity.. | done | by repeat constructor | by repeat constructor | | by left |].
  { intros z. cbn. rewrite !elem_of_cons, !elem_of_nil. intuition. }
  exists w', table. split; [exact Hrun|]. split; [exact Hfile|].
  apply Hfew. vm_compute in Htemp. injection Htemp as <-. vm_compute. lia.
Defined.

(** ** From the predictions file to the joined table *)

Section Pipeline.
Variable np_exp : float → float.
Variable trained_model_predict : ndarray → nat → ndarray.

(** X26. What [predict] writes, [fmt_preds_obs] reads back: after a run
    of [predict] without halving, the joined table built from its file has,
    for every entry k, a row keyed by the date and the segment of entry k
    whose pred is the temperature of entry k in physical units. *)
Theorem predictions_are_read_back (io_data : gmap string ndarray) (half_tst : bool)
    (tag outdir run_tag : string) (logged_q : bool) (w : World)
    (dist_matrix x dates ids : ndarray) (num_segs b s : nat) (s_t s_q m_t m_q : float)
    (obs_file : string) (O : DataFrame) (kd ks kv : nat) :
  tag = "trn" ∨ tag = "tst" →
  half_tst = false ∨ tag = "trn" →
  io_data !! "dist_matrix" = Some dist_matrix →
  shape dist_matrix !! 0 = Some num_segs →
  io_data !! ("x_" +:+ tag) = Some x →
  io_data !! ("dates_" +:+ tag) = Some dates →
  io_data !! ("ids_" +:+ tag) = Some ids →
  io_data !! "y_trn_obs_std" = Some (array1 [s_t; s_q]) →
  io_data !! "y_trn_obs_mean" = Some (array1 [m_t; m_q]) →
  shape (trained_model_predict x num_segs) = [b; s; 2] →
  length (data (trained_model_predict x num_segs)) = b * s * 2 →
  shape dates = [b; s; 1] → length (data dates) = b * s →
  shape ids = [b; s; 1] → length (data ids) = b * s →
  files w !! obs_file = Some (Csv O) →
  obs_file ≠ outdir +:+ tag +:+ "_preds" +:+ run_tag +:+ ".feather" →
  index_of "date" (columns O) = Some kd →
  index_of "seg_id_nat" (columns O) = Some ks →
  index_of "temp_c" (columns O) = Some kv →
  ∃ w' combined,
    predict np_exp trained_model_predict io_data half_tst tag outdir run_tag logged_q w =
      (Ok (), w') ∧
    fmt_preds_obs (outdir +:+ tag +:+ "_preds" +:+ run_tag +:+ ".feather") obs_file "temp_c"
      w' = (Ok combined, w') ∧
    ∀ k, k < b * s →
      ∃ c, c ∈ rows combined ∧
           labels c = [default NaN (data dates !! k); default NaN (data ids !! k)] ∧
           cells c !! 0 =
             Some (Float (cell_to_float
                            (default NaN (data (trained_model_predict x num_segs) !! (2 * k)))
                          * s_t + m_t)).
Proof.
  intros Htag Hhalf HA Hn Hx Hdates Hids Hstd Hmean Hy Hyl Hd Hdl Hi Hil HO Hne Hkd Hks Hkv.
  set (T := unscaled_predictions np_exp (trained_model_predict x num_segs) dates ids
              s_t s_q m_t m_q logged_q (b * s)).
  eexists _, _. split; [by eapply predict_unhalved_run|].
  split.
  - eapply (fmt_preds_obs_run _ _ _ _ T O 0 1 2 kd ks kv); try done.
    + cbn [files]. unfold preds_path. apply lookup_insert_eq.
    + cbn [files]. unfold preds_path. by rewrite lookup_insert_ne.
  - intros k Hk. cbn [rows].
    set (p := unscaled_prediction_row np_exp (trained_model_predict x num_segs) dates ids
                s_t s_q m_t m_q logged_q k).
    destruct (join_row_head (keyed kd ks kv "obs" O) (mkRow (key_of 0 1 p) [cell_at 2 p]))
      as (tail & rest & Hhead).
    eexists. split.
    + apply joined_rows. exists p. split.
      * unfold T, unscaled_predictions. cbn [rows].
        apply list_elem_of_In, in_map, in_seq. lia.
      * rewrite Hhead. left.
    + done.
Qed.

End Pipeline.

Lemma predictions_are_read_back_witness :
  ∃ w' combined c,
    predict (fun x => x) example_model example_io_data false "tst" "" "" false
      metrics_world = (Ok (), w') ∧
    fmt_preds_obs "tst_preds.feather" "obs_temp.csv" "temp_c" w' = (Ok combined, w') ∧
    c ∈ rows combined ∧ labels c = [Int 1; Int 7] ∧ cells c !! 0 = Some (Float 12).
Proof.
  destruct (predictions_are_read_back (fun x => x) example_model example_io_data false
              "tst" "" "" false metrics_world
              (mkArray [2; 2] [Float 0; Float 1; Float 1; Float 0])
              (mkArray [2; 3; 1] (replicate 6 (Float 0)))
              (mkArray [2; 3; 1] [Int 1; Int 2; Int 3; Int 1; Int 2; Int 3])
              (mkArray [2; 3; 1] [Int 7; Int 7; Int 7; Int 8; Int 8; Int 8])
              2 2 3 2%float 1%float 10%float 0%float
              "obs_temp.csv"
              (mkDF [] ["date"; "seg_id_nat"; "temp_c"]
                 [mkRow [] [Int 1; Int 7; Float 11]; mkRow [] [Int 3; Int 7; Float 17];
                  mkRow [] [Int 4; Int 7; Float 9]])
              0 1 2)
    as (w' & combined & Hrun & Hread & Hrows);
    [by right | by left | reflexivity.. | done | reflexivity | reflexivity | reflexivity |].
  destruct (Hrows 0 ltac:(lia)) as (c & Hc & Hl & Hcell).
  exists w', combined, c.
  repeat split; [exact Hrun | exact Hread | exact Hc | exact Hl | exact Hcell].
Defined.
